(** * CrowdFuel backend: a shallow embedding of [src/backend/server.js]

    The server is an Express application with one health route, four business
    routes that proxy to the Stripe SDK, and one webhook route.  Every handler
    is embedded as a function into a small monad that records the observable
    effects (calls issued to the payment platform, console lines) and carries
    thrown JavaScript exceptions, so that [try]/[catch] and the early
    [return res.status(400)...] read as they do in the source.

    What lies outside the file is taken as follows.
    - JavaScript numbers are IEEE-754 binary64 values, modelled with the
      standard library's [SpecFloat] operations at precision 53.
    - [req.body] is the object left by the JSON body parser; a field that is
      absent reads as [undefined].
    - The Stripe SDK is a record of operations, each resolving to an object
      or throwing an [Error] with a [message]; a verified webhook event has a
      string [type] and an object at [data.object].
    - The system clock and the engine's conversions between numbers and
      strings are parameters; the conversion of an object or an array to a
      primitive, which can throw, [Date.prototype.toISOString] and
      [Date.parse] follow ECMA-262.
    - The modules required at load (dotenv, express, cors, body-parser)
      load; [app.listen] is the framework's: what it does with the port is
      a parameter of start-up. *)

From Stdlib Require Import ZArith Lia Ascii String.
From Stdlib Require Import Floats.SpecFloat Floats.PrimFloat Floats.FloatOps.
From stdpp Require Import gmap strings list.

#[local] Set Warnings "-register-all".
#[local] Open Scope Z_scope.

(** ** Numbers *)

Module Number.

Definition prec : Z := 53.
Definition emax : Z := 1024.

(** [x * y], [x - y] and [x + y] on JavaScript numbers. *)
Definition mul : spec_float -> spec_float -> spec_float := SFmul prec emax.
Definition sub : spec_float -> spec_float -> spec_float := SFsub prec emax.
Definition add : spec_float -> spec_float -> spec_float := SFadd prec emax.

(** The number denoted by an integer literal (exact below [2^53]). *)
Definition of_Z (n : Z) : spec_float := binary_normalize prec emax n 0 false.

(** The literal [0.05]: the binary64 value nearest to one twentieth,
    [0x1.999999999999ap-5]. *)
Definition lit_0_05 : spec_float := S754_finite false 7205759403792794 (-57).

(** [Math.round]: the integer nearest to [x], ties towards [+∞]; zeros,
    infinities, NaN and integral values are returned unchanged, and a
    result of zero keeps the sign of [x]. *)
Definition round (x : spec_float) : spec_float :=
  match x with
  | S754_finite s m e =>
      if 0 <=? e then x
      else
        let n := if s then Z.neg m else Z.pos m in
        if n mod 2 ^ (- e) =? 0 then x
        else
          let q := (2 * n + 2 ^ (- e)) / 2 ^ (1 - e) in
          if q =? 0 then S754_zero s else of_Z q
  | _ => x
  end.

(** Round-to-nearest-even of [M / 2^k], the rounding of every binary64
    operation, stated with quotient and remainder. *)
Definition rne (M k : Z) : Z :=
  let q := M / 2 ^ k in
  match 2 * (M mod 2 ^ k) ?= 2 ^ k with
  | Lt => q
  | Eq => if Z.even q then q else q + 1
  | Gt => q + 1
  end.

End Number.

(** ** Dates

    [new Date().toISOString()] and [Date.parse], following the time-value
    arithmetic of ECMA-262 (Day, YearFromTime, MonthFromTime, MakeDay, ...)
    over integer milliseconds since the epoch. *)

Module Date.

Definition msPerDay : Z := 86400000.
Definition msPerHour : Z := 3600000.
Definition msPerMinute : Z := 60000.
Definition msPerSecond : Z := 1000.

Definition Day (t : Z) : Z := t / msPerDay.
Definition TimeWithinDay (t : Z) : Z := t mod msPerDay.

Definition DaysInYear (y : Z) : Z :=
  if negb (y mod 4 =? 0) then 365
  else if negb (y mod 100 =? 0) then 366
  else if negb (y mod 400 =? 0) then 365
  else 366.

Definition DayFromYear (y : Z) : Z :=
  365 * (y - 1970) + (y - 1969) / 4 - (y - 1901) / 100 + (y - 1601) / 400.

(** The largest [y] with [DayFromYear y <= Day t], found from the
    mean-year estimate, which is off by at most one. *)
Definition YearFromTime (t : Z) : Z :=
  let y0 := 1970 + Day t * 400 / 146097 in
  if Day t <? DayFromYear y0 then y0 - 1
  else if DayFromYear (y0 + 1) <=? Day t then y0 + 1
  else y0.

Definition InLeapYear (t : Z) : Z :=
  if DaysInYear (YearFromTime t) =? 365 then 0 else 1.

Definition DayWithinYear (t : Z) : Z := Day t - DayFromYear (YearFromTime t).

Definition MonthFromTime (t : Z) : Z :=
  let d := DayWithinYear t in
  let l := InLeapYear t in
  if d <? 31 then 0
  else if d <? 59 + l then 1
  else if d <? 90 + l then 2
  else if d <? 120 + l then 3
  else if d <? 151 + l then 4
  else if d <? 181 + l then 5
  else if d <? 212 + l then 6
  else if d <? 243 + l then 7
  else if d <? 273 + l then 8
  else if d <? 304 + l then 9
  else if d <? 334 + l then 10
  else 11.

Definition DateFromTime (t : Z) : Z :=
  let d := DayWithinYear t in
  let l := InLeapYear t in
  match MonthFromTime t with
  | 0 => d + 1
  | 1 => d - 30
  | 2 => d - 58 - l
  | 3 => d - 89 - l
  | 4 => d - 119 - l
  | 5 => d - 150 - l
  | 6 => d - 180 - l
  | 7 => d - 211 - l
  | 8 => d - 242 - l
  | 9 => d - 272 - l
  | 10 => d - 303 - l
  | _ => d - 333 - l
  end.

Definition HourFromTime (t : Z) : Z := (t / msPerHour) mod 24.
Definition MinFromTime (t : Z) : Z := (t / msPerMinute) mod 60.
Definition SecFromTime (t : Z) : Z := (t / msPerSecond) mod 60.
Definition msFromTime (t : Z) : Z := t mod msPerSecond.

Definition MakeTime (hour min sec ms : Z) : Z :=
  hour * msPerHour + min * msPerMinute + sec * msPerSecond + ms.

(** Days from the start of the year to the start of month [mn]. *)
Definition DaysBeforeMonth (mn l : Z) : Z :=
  match mn with
  | 0 => 0
  | 1 => 31
  | 2 => 59 + l
  | 3 => 90 + l
  | 4 => 120 + l
  | 5 => 151 + l
  | 6 => 181 + l
  | 7 => 212 + l
  | 8 => 243 + l
  | 9 => 273 + l
  | 10 => 304 + l
  | _ => 334 + l
  end.

Definition MakeDay (year month date : Z) : Z :=
  let ym := year + month / 12 in
  let mn := month mod 12 in
  DayFromYear ym + DaysBeforeMonth mn (if DaysInYear ym =? 365 then 0 else 1) + date - 1.

Definition MakeDate (day time : Z) : Z := day * msPerDay + time.

(** *** The date-time string format [YYYY-MM-DDTHH:mm:ss.sssZ] *)

Definition digit (d : Z) : ascii := ascii_of_N (Z.to_N (48 + d)).

Fixpoint pad (w : nat) (v : Z) : string :=
  match w with
  | O => EmptyString
  | S w' => String (digit ((v / 10 ^ Z.of_nat w') mod 10)) (pad w' v)
  end.

Definition year_string (y : Z) : string :=
  if (0 <=? y) && (y <=? 9999) then pad 4 y
  else String (if y <? 0 then "-"%char else "+"%char) (pad 6 (Z.abs y)).

Definition toISOString (t : Z) : string :=
  year_string (YearFromTime t) +:+ "-" +:+ pad 2 (MonthFromTime t + 1) +:+ "-"
  +:+ pad 2 (DateFromTime t) +:+ "T" +:+ pad 2 (HourFromTime t) +:+ ":"
  +:+ pad 2 (MinFromTime t) +:+ ":" +:+ pad 2 (SecFromTime t) +:+ "."
  +:+ pad 3 (msFromTime t) +:+ "Z".

Definition digit_value (c : ascii) : option Z :=
  let n := Z.of_N (N_of_ascii c) in
  if (48 <=? n) && (n <=? 57) then Some (n - 48) else None.

Fixpoint digits (w : nat) (s : string) (acc : Z) : option (Z * string) :=
  match w, s with
  | O, _ => Some (acc, s)
  | S w', String c s' =>
      match digit_value c with
      | Some d => digits w' s' (10 * acc + d)
      | None => None
      end
  | S _, EmptyString => None
  end.

Definition expect (c : ascii) (s : string) : option string :=
  match s with
  | String c' s' => if Ascii.eqb c c' then Some s' else None
  | EmptyString => None
  end.

Definition year (s : string) : option (Z * string) :=
  match s with
  | String c s' =>
      if Ascii.eqb c "+" then digits 6 s' 0
      else if Ascii.eqb c "-" then
        match digits 6 s' 0 with
        | Some (y, r) => if y =? 0 then None else Some (- y, r)
        | None => None
        end
      else digits 4 s 0
  | EmptyString => None
  end.

(** [Date.parse] on the full UTC form of the format. *)
Definition parse (s : string) : option Z :=
  '(y, s) ← year s;
  s ← expect "-" s;
  '(mo, s) ← digits 2 s 0;
  s ← expect "-" s;
  '(d, s) ← digits 2 s 0;
  s ← expect "T" s;
  '(h, s) ← digits 2 s 0;
  s ← expect ":" s;
  '(mi, s) ← digits 2 s 0;
  s ← expect ":" s;
  '(sec, s) ← digits 2 s 0;
  s ← expect "." s;
  '(ms, s) ← digits 3 s 0;
  s ← expect "Z" s;
  if String.eqb s ""
     && (1 <=? mo) && (mo <=? 12) && (1 <=? d) && (d <=? 31)
     && ((h <? 24) || ((h =? 24) && (mi =? 0) && (sec =? 0) && (ms =? 0)))
     && (mi <? 60) && (sec <? 60)
  then Some (MakeDate (MakeDay y (mo - 1) d) (MakeTime h mi sec ms))
  else None.

End Date.

(** ** Values *)

Inductive JSValue :=
| JUndefined
| JNull
| JBool (b : bool)
| JNum (x : spec_float)
| JStr (s : string)
| JArr (items : list JSValue)
| JObj (fields : gmap string JSValue).

(** An object literal [{k1: v1, ...}]. *)
Definition obj (l : list (string * JSValue)) : JSValue := JObj (list_to_map l).

(** Property read [o.k] on an object: [undefined] when the key is absent. *)
Definition get (o : gmap string JSValue) (k : string) : JSValue :=
  default JUndefined (o !! k).

(** [v?.k]: [undefined] on a nullish receiver, the property otherwise
    (primitives and arrays carry none of the keys read by the server). *)
Definition opt_get (v : JSValue) (k : string) : JSValue :=
  match v with
  | JObj o => get o k
  | _ => JUndefined
  end.

(** Truthiness, as tested by [!v]. *)
Definition truthy (v : JSValue) : bool :=
  match v with
  | JUndefined | JNull => false
  | JBool b => b
  | JNum (S754_zero _) | JNum S754_nan => false
  | JNum _ => true
  | JStr s => negb (String.eqb s "")
  | JArr _ | JObj _ => true
  end.

(** A destructuring default [k = d] applies exactly when the property is
    [undefined]. *)
Definition or_default (v d : JSValue) : JSValue :=
  match v with
  | JUndefined => d
  | _ => v
  end.

(** The conversions between numbers and strings are the engine's; the server
    only relies on them through template literals and arithmetic. *)
Record Runtime := {
  NumberToString : spec_float -> string;
  StringToNumber : string -> spec_float;
}.

Fixpoint join (sep : string) (l : list string) : string :=
  match l with
  | [] => ""
  | [s] => s
  | s :: rest => s +:+ sep +:+ join sep rest
  end.

(** ** Errors and conversions *)

(** A thrown [Error]; the server only ever reads its [message]. *)
Record JSError := { message : string }.

(** The error object as a value, for [console.error(label, error)]. *)
Definition error_object (e : JSError) : JSValue := obj [("message", JStr (message e))].

(** Reading a property of the uninitialised [stripe] binding. *)
Definition TypeError_undefined (prop : string) : JSError :=
  {| message := "Cannot read properties of undefined (reading '" +:+ prop +:+ "')" |}.

(** Converting an object that has no callable [toString]. *)
Definition TypeError_primitive : JSError :=
  {| message := "Cannot convert object to primitive value" |}.

Section Coercions.
Context (rt : Runtime).

(** The conversion of a substitution [${v}] in a template literal.  An
    object converts through its [toString]: the inherited one answers
    ["[object Object]"], but an own [toString] property shadows it, and,
    being data and not a function, makes the conversion fall through to
    [valueOf], which answers the object itself (or is data as well): the
    conversion throws.  An array joins the conversions of its elements,
    [undefined] and [null] giving the empty string. *)
Fixpoint ToString (v : JSValue) : JSError + string :=
  match v with
  | JUndefined => inr "undefined"
  | JNull => inr "null"
  | JBool true => inr "true"
  | JBool false => inr "false"
  | JNum x => inr (NumberToString rt x)
  | JStr s => inr s
  | JArr items =>
      let fix elements (l : list JSValue) : JSError + list string :=
        match l with
        | [] => inr []
        | i :: rest =>
            match match i with
                  | JUndefined | JNull => inr ""
                  | _ => ToString i
                  end with
            | inl e => inl e
            | inr s =>
                match elements rest with
                | inl e => inl e
                | inr ss => inr (s :: ss)
                end
            end
        end in
      match elements items with
      | inl e => inl e
      | inr ss => inr (join "," ss)
      end
  | JObj o =>
      match o !! "toString" with
      | Some _ => inl TypeError_primitive
      | None => inr "[object Object]"
      end
  end.

(** The operand conversion of [*] and [-]: an object or an array is first
    converted to a primitive, which, [valueOf] answering the object itself
    (or being data), is its string, obtained as above. *)
Definition ToNumber (v : JSValue) : JSError + spec_float :=
  match v with
  | JUndefined => inr S754_nan
  | JNull => inr (S754_zero false)
  | JBool true => inr (Number.of_Z 1)
  | JBool false => inr (S754_zero false)
  | JNum x => inr x
  | JStr s => inr (StringToNumber rt s)
  | JArr _ | JObj _ =>
      match ToString v with
      | inl e => inl e
      | inr s => inr (StringToNumber rt s)
      end
  end.
End Coercions.

(** ** Effects and the handler monad *)

Inductive StripeOp :=
| AccountsCreate
| AccountLinksCreate
| AccountsRetrieve
| PaymentIntentsCreate
| AccountsCreateLoginLink.

Inductive Level := Info | Error.

Inductive Effect :=
| ECall (op : StripeOp) (arg : JSValue) (ok : bool)
| ELog (lvl : Level) (args : list JSValue).

Definition M (A : Type) : Type := list Effect * (JSError + A).

#[export] Instance M_ret : MRet M := fun A a => ([], inr a).

#[export] Instance M_bind : MBind M := fun A B k m =>
  match m with
  | (t, inl e) => (t, inl e)
  | (t, inr a) => let '(t', r) := k a in (t ++ t', r)
  end.

Definition throw {A} (e : JSError) : M A := ([], inl e).

Definition try_catch {A} (m : M A) (handler : JSError -> M A) : M A :=
  match m with
  | (t, inl e) => let '(t', r) := handler e in (t ++ t', r)
  | (t, inr a) => (t, inr a)
  end.

Definition console (lvl : Level) (args : list JSValue) : M unit :=
  ([ELog lvl args], inr tt).

(** A synchronous library call that may throw and has no outside effect. *)
Definition lift {A} (r : JSError + A) : M A := ([], r).

(** [await f(arg)] on the payment platform: the call is recorded together
    with its outcome. *)
Definition await {A} (op : StripeOp) (f : JSValue -> JSError + A) (arg : JSValue) : M A :=
  match f arg with
  | inl e => ([ECall op arg false], inl e)
  | inr a => ([ECall op arg true], inr a)
  end.

(** ** The payment platform *)

(** The [Event] object that [constructEvent] returns once the signature is
    verified: its [type] and the API object at [event.data.object], which
    every event of the platform carries. *)
Record StripeEvent := {
  ev_type : string;
  data_object : gmap string JSValue;
}.

(** The SDK handle.  Each operation either resolves to the platform's object
    or throws. *)
Record StripeClient := {
  accounts_create : JSValue -> JSError + gmap string JSValue;
  accountLinks_create : JSValue -> JSError + gmap string JSValue;
  accounts_retrieve : JSValue -> JSError + gmap string JSValue;
  paymentIntents_create : JSValue -> JSError + gmap string JSValue;
  accounts_createLoginLink : JSValue -> JSError + gmap string JSValue;
  webhooks_constructEvent : JSValue -> JSValue -> JSValue -> JSError + StripeEvent;
}.

(** The module-level [let stripe;] may stay [undefined]. *)
Definition member (stripe : option StripeClient) (prop : string) : M StripeClient :=
  match stripe with
  | Some c => mret c
  | None => throw (TypeError_undefined prop)
  end.

Record Env := {
  STRIPE_SECRET_KEY : option string;
  STRIPE_WEBHOOK_SECRET : option string;
}.

Definition env_value (v : option string) : JSValue :=
  match v with
  | Some s => JStr s
  | None => JUndefined
  end.

(** Lines 11-21: the SDK is loaded only when the secret key is set; a
    failure to load it is logged and leaves [stripe] undefined. *)
Definition init_stripe (env : Env) (require_stripe : JSValue -> JSError + StripeClient)
  : M (option StripeClient) :=
  try_catch
    (if negb (truthy (env_value (STRIPE_SECRET_KEY env))) then
       _ ← console Error [JStr "❌ STRIPE_SECRET_KEY not found in environment variables!"];
       mret None
     else
       c ← lift (require_stripe (env_value (STRIPE_SECRET_KEY env)));
       _ ← console Info [JStr "✅ Stripe initialized successfully"];
       mret (Some c))
    (fun error =>
       _ ← console Error [JStr "❌ Error initializing Stripe:"; JStr (message error)];
       mret None).

(** ** Requests and responses *)

(** [req.body] as the JSON body parser leaves it (an object), and the
    request headers. *)
Record Request := {
  body : gmap string JSValue;
  headers : gmap string JSValue;
}.

Inductive Payload :=
| Json (v : JSValue)
| Text (s : string).

Record Response := {
  statusCode : Z;
  payload : Payload;
}.

(** [res.json(v)], [res.status(c).json(v)] and [res.status(c).send(s)]. *)
Definition res_json (v : JSValue) : Response := {| statusCode := 200; payload := Json v |}.
Definition res_status_json (c : Z) (v : JSValue) : Response := {| statusCode := c; payload := Json v |}.
Definition res_status_send (c : Z) (s : string) : Response := {| statusCode := c; payload := Text s |}.

Definition field (req : Request) (k : string) : JSValue := get (body req) k.

(** ** Handlers *)

(** Line 34: the health check reads the system clock ([now], in
    milliseconds since the epoch) and nothing else. *)
Definition health (now : Z) (req : Request) : M Response :=
  mret (res_json (obj [("status", JStr "CrowdFuel Backend Running");
                       ("timestamp", JStr (Date.toISOString now))])).

(** Lines 55-64: the argument of [stripe.accounts.create]. *)
Definition account_params (req : Request) : JSValue :=
  obj [("type", JStr "express");
       ("country", or_default (field req "country") (JStr "US"));
       ("email", field req "email");
       ("capabilities",
         obj [("card_payments", obj [("requested", JBool true)]);
              ("transfers", obj [("requested", JBool true)])]);
       ("business_type", JStr "individual")].

Section Handlers.
Context (rt : Runtime).

(** Lines 69-74: the argument of [stripe.accountLinks.create]; the
    template literal of [return_url] converts [account.id], then [bandId]. *)
Definition account_link_params (req : Request) (account : gmap string JSValue)
  : JSError + JSValue :=
  match ToString rt (get account "id") with
  | inl e => inl e
  | inr id =>
      match ToString rt (field req "bandId") with
      | inl e => inl e
      | inr band =>
          inr (obj [("account", get account "id");
                    ("refresh_url", JStr "https://crowdfuel-86c2b.web.app/connect/refresh.html");
                    ("return_url",
                      JStr ("https://crowdfuel-86c2b.web.app/connect/return.html?accountId="
                            +:+ id +:+ "&bandId=" +:+ band));
                    ("type", JStr "account_onboarding")])
      end
  end.

(** Lines 46-84. *)
Definition create_connect_account (stripe : option StripeClient) (req : Request) : M Response :=
  try_catch
    (let bandId := field req "bandId" in
     let email := field req "email" in
     if negb (truthy bandId) || negb (truthy email) then
       mret (res_status_json 400 (obj [("error", JStr "bandId and email are required")]))
     else
       s ← member stripe "accounts";
       account ← await AccountsCreate (accounts_create s) (account_params req);
       id ← lift (ToString rt (get account "id"));
       band ← lift (ToString rt bandId);
       _ ← console Info
         [JStr ("✅ Created Stripe account " +:+ id +:+ " for band " +:+ band)];
       s ← member stripe "accountLinks";
       params ← lift (account_link_params req account);
       accountLink ← await AccountLinksCreate (accountLinks_create s) params;
       mret (res_json (obj [("accountId", get account "id");
                            ("onboardingUrl", get accountLink "url")])))
    (fun error =>
       _ ← console Error [JStr "Error creating Connect account:"; error_object error];
       mret (res_status_json 500 (obj [("error", JStr (message error))]))).

(** Lines 91-110. *)
Definition connect_account_status (stripe : option StripeClient) (req : Request) : M Response :=
  try_catch
    (let accountId := field req "accountId" in
     if negb (truthy accountId) then
       mret (res_status_json 400 (obj [("error", JStr "accountId is required")]))
     else
       s ← member stripe "accounts";
       account ← await AccountsRetrieve (accounts_retrieve s) accountId;
       mret (res_json (obj [("chargesEnabled", get account "charges_enabled");
                            ("payoutsEnabled", get account "payouts_enabled");
                            ("detailsSubmitted", get account "details_submitted")])))
    (fun error =>
       _ ← console Error [JStr "Error checking account status:"; error_object error];
       mret (res_status_json 500 (obj [("error", JStr (message error))]))).

(** Line 126: [Math.round(amount * 0.05)]. *)
Definition platformFee (amount : JSValue) : JSError + spec_float :=
  match ToNumber rt amount with
  | inl e => inl e
  | inr x => inr (Number.round (Number.mul x Number.lit_0_05))
  end.

(** Line 150: [amount - platformFee], for the [platformFee] of line 126. *)
Definition bandAmount (amount : JSValue) : JSError + spec_float :=
  match platformFee amount with
  | inl e => inl e
  | inr fee =>
      match ToNumber rt amount with
      | inl e => inl e
      | inr x => inr (Number.sub x fee)
      end
  end.

(** Lines 129-144: the argument of [stripe.paymentIntents.create]. *)
Definition payment_intent_params (req : Request) (platformFee : spec_float) : JSValue :=
  obj [("amount", field req "amount");
       ("currency", or_default (field req "currency") (JStr "usd"));
       ("application_fee_amount", JNum platformFee);
       ("transfer_data", obj [("destination", field req "bandStripeAccountId")]);
       ("description", field req "description");
       ("automatic_payment_methods", obj [("enabled", JBool true)]);
       ("metadata", obj [("bandStripeAccountId", field req "bandStripeAccountId");
                         ("platformFee", JNum platformFee)])].

(** Lines 117-156. *)
Definition create_payment_intent (stripe : option StripeClient) (req : Request) : M Response :=
  try_catch
    (let amount := field req "amount" in
     let bandStripeAccountId := field req "bandStripeAccountId" in
     if negb (truthy amount) || negb (truthy bandStripeAccountId) then
       mret (res_status_json 400
               (obj [("error", JStr "amount and bandStripeAccountId are required")]))
     else
       platformFee ← lift (platformFee amount);
       s ← member stripe "paymentIntents";
       paymentIntent ← await PaymentIntentsCreate (paymentIntents_create s)
                         (payment_intent_params req platformFee);
       minuend ← lift (ToNumber rt amount);
       mret (res_json (obj [("clientSecret", get paymentIntent "client_secret");
                            ("paymentIntentId", get paymentIntent "id");
                            ("platformFee", JNum platformFee);
                            ("bandAmount", JNum (Number.sub minuend platformFee))])))
    (fun error =>
       _ ← console Error [JStr "Error creating payment intent:"; error_object error];
       mret (res_status_json 500 (obj [("error", JStr (message error))]))).

(** Lines 163-180. *)
Definition payout_dashboard_link (stripe : option StripeClient) (req : Request) : M Response :=
  try_catch
    (let accountId := field req "accountId" in
     if negb (truthy accountId) then
       mret (res_status_json 400 (obj [("error", JStr "accountId is required")]))
     else
       s ← member stripe "accounts";
       loginLink ← await AccountsCreateLoginLink (accounts_createLoginLink s) accountId;
       mret (res_json (obj [("url", get loginLink "url")])))
    (fun error =>
       _ ← console Error [JStr "Error creating login link:"; error_object error];
       mret (res_status_json 500 (obj [("error", JStr (message error))]))).

End Handlers.

(** Lines 200-235: the [switch] over [event.type]; every branch only logs. *)
Definition dispatch (event : StripeEvent) : M unit :=
  let o := data_object event in
  if String.eqb (ev_type event) "payment_intent.succeeded" then
    _ ← console Info [JStr "PaymentIntent succeeded:"; get o "id"];
    _ ← console Info [JStr "Platform fee:"; get o "application_fee_amount"];
    console Info [JStr "Band account:"; opt_get (get o "transfer_data") "destination"]
  else if String.eqb (ev_type event) "payment_intent.payment_failed" then
    console Info [JStr "PaymentIntent failed:"; get o "id"]
  else if String.eqb (ev_type event) "account.updated" then
    _ ← console Info [JStr "Account updated:"; get o "id"];
    _ ← console Info [JStr "Charges enabled:"; get o "charges_enabled"];
    console Info [JStr "Payouts enabled:"; get o "payouts_enabled"]
  else if String.eqb (ev_type event) "transfer.created" then
    _ ← console Info [JStr "Transfer created:"; get o "id"];
    _ ← console Info [JStr "Amount:"; get o "amount"];
    console Info [JStr "Destination:"; get o "destination"]
  else if String.eqb (ev_type event) "payout.paid" then
    _ ← console Info [JStr "Payout completed:"; get o "id"];
    console Info [JStr "Amount:"; get o "amount"]
  else
    console Info [JStr ("Unhandled event type " +:+ ev_type event)].

(** Lines 186-238.  [req.body] goes to [constructEvent] as the body
    parsers left it.  The [return] inside [catch] ends the handler; it is
    the [inl] outcome of the verification step. *)
Definition webhook (env : Env) (stripe : option StripeClient) (req : Request) : M Response :=
  let sig := get (headers req) "stripe-signature" in
  let webhookSecret := env_value (STRIPE_WEBHOOK_SECRET env) in
  verified ← try_catch
    (s ← member stripe "webhooks";
     event ← lift (webhooks_constructEvent s (JObj (body req)) sig webhookSecret);
     mret (inr event))
    (fun err =>
       _ ← console Error [JStr "Webhook signature verification failed:"; JStr (message err)];
       mret (inl (res_status_send 400 ("Webhook Error: " +:+ message err))));
  match verified with
  | inl response => mret response
  | inr event =>
      _ ← dispatch event;
      mret (res_json (obj [("received", JBool true)]))
  end.

(** ** The router *)

Inductive Endpoint :=
| CreateConnectAccount
| ConnectAccountStatus
| CreatePaymentIntent
| PayoutDashboardLink.

Definition handle (rt : Runtime) (ep : Endpoint) : option StripeClient -> Request -> M Response :=
  match ep with
  | CreateConnectAccount => create_connect_account rt
  | ConnectAccountStatus => connect_account_status
  | CreatePaymentIntent => create_payment_intent rt
  | PayoutDashboardLink => payout_dashboard_link
  end.

(** The routes registered on [app] (lines 34-238); any other request is
    left to the framework. *)
Definition app (rt : Runtime) (env : Env) (stripe : option StripeClient) (now : Z)
    (method url : string) (req : Request) : option (M Response) :=
  if String.eqb method "GET" && String.eqb url "/" then Some (health now req)
  else if negb (String.eqb method "POST") then None
  else if String.eqb url "/create-connect-account" then
    Some (handle rt CreateConnectAccount stripe req)
  else if String.eqb url "/connect-account-status" then
    Some (handle rt ConnectAccountStatus stripe req)
  else if String.eqb url "/create-payment-intent" then
    Some (handle rt CreatePaymentIntent stripe req)
  else if String.eqb url "/payout-dashboard-link" then
    Some (handle rt PayoutDashboardLink stripe req)
  else if String.eqb url "/webhook" then Some (webhook env stripe req)
  else None.

(** ** Vocabulary of the properties *)

(** The fields each business endpoint tests with [!field] before anything
    else. *)
Definition required (ep : Endpoint) : list string :=
  match ep with
  | CreateConnectAccount => ["bandId"; "email"]
  | ConnectAccountStatus => ["accountId"]
  | CreatePaymentIntent => ["amount"; "bandStripeAccountId"]
  | PayoutDashboardLink => ["accountId"]
  end.

(** A request passes validation when every required field is truthy. *)
Definition validated (ep : Endpoint) (req : Request) : bool :=
  forallb (fun k => truthy (field req k)) (required ep).

Definition validation_message (ep : Endpoint) : string :=
  match ep with
  | CreateConnectAccount => "bandId and email are required"
  | ConnectAccountStatus => "accountId is required"
  | CreatePaymentIntent => "amount and bandStripeAccountId are required"
  | PayoutDashboardLink => "accountId is required"
  end.

Definition bad_request (ep : Endpoint) : Response :=
  res_status_json 400 (obj [("error", JStr (validation_message ep))]).

Definition server_error (e : JSError) : Response :=
  res_status_json 500 (obj [("error", JStr (message e))]).

(** The calls issued to the payment platform, in order, with their outcome. *)
Definition calls (t : list Effect) : list (StripeOp * bool) :=
  omap (fun e => match e with
                 | ECall op _ ok => Some (op, ok)
                 | ELog _ _ => None
                 end) t.



(** "[platformFee] and [bandAmount] are the exact integers" on a response
    to an amount of [n] minor units: [round(n * 0.05)] and the rest. *)
Definition fee_is_exact (n : Z) (resp : Response) : Prop :=
  exists o,
    payload resp = Json (JObj o)
    /\ get o "platformFee" = JNum (Number.of_Z ((n + 10) / 20))
    /\ get o "bandAmount" = JNum (Number.of_Z (n - (n + 10) / 20)).

(** "[platformFee + bandAmount] is [amount]" on a response to [req]. *)
Definition fee_and_band_add_up (rt : Runtime) (req : Request) (resp : Response) : Prop :=
  exists o f b,
    payload resp = Json (JObj o)
    /\ get o "platformFee" = JNum f
    /\ get o "bandAmount" = JNum b
    /\ ToNumber rt (field req "amount") = inr (Number.add f b).

(** The outcome of the verification step of the webhook (lines 192-197). *)
Definition verification (env : Env) (stripe : option StripeClient) (req : Request)
  : JSError + StripeEvent :=
  match stripe with
  | None => inl (TypeError_undefined "webhooks")
  | Some c =>
      webhooks_constructEvent c (JObj (body req))
        (get (headers req) "stripe-signature") (env_value (STRIPE_WEBHOOK_SECRET env))
  end.

(** The five event kinds with a [case] of their own. *)
Definition recognized (kind : string) : bool :=
  bool_decide (kind ∈ ["payment_intent.succeeded"; "payment_intent.payment_failed";
                       "account.updated"; "transfer.created"; "payout.paid"]).

Definition is_log (e : Effect) : bool :=
  match e with
  | ELog Info _ => true
  | _ => false
  end.

(** The instants a [Date] can hold. *)
Definition valid_time (t : Z) : Prop := -8640000000000000 <= t <= 8640000000000000.

(** ** Test doubles *)

Definition not_stubbed {A} : JSError + A := inl {| message := "not stubbed" |}.

(** A client whose account and account-link operations answer with fixed
    results. *)
Definition stub_connect (account link : JSError + gmap string JSValue) : StripeClient :=
  {| accounts_create := fun _ => account;
     accountLinks_create := fun _ => link;
     accounts_retrieve := fun _ => not_stubbed;
     paymentIntents_create := fun _ => not_stubbed;
     accounts_createLoginLink := fun _ => not_stubbed;
     webhooks_constructEvent := fun _ _ _ => not_stubbed |}.

(** A client that accepts every payment intent. *)
Definition stub_payments : StripeClient :=
  {| accounts_create := fun _ => not_stubbed;
     accountLinks_create := fun _ => not_stubbed;
     accounts_retrieve := fun _ => not_stubbed;
     paymentIntents_create := fun _ =>
       inr (list_to_map [("id", JStr "pi_1"); ("client_secret", JStr "pi_1_secret")]);
     accounts_createLoginLink := fun _ => not_stubbed;
     webhooks_constructEvent := fun _ _ _ => not_stubbed |}.

(** A client whose webhook verification answers with a fixed result. *)
Definition stub_webhook (r : JSError + StripeEvent) : StripeClient :=
  {| accounts_create := fun _ => not_stubbed;
     accountLinks_create := fun _ => not_stubbed;
     accounts_retrieve := fun _ => not_stubbed;
     paymentIntents_create := fun _ => not_stubbed;
     accounts_createLoginLink := fun _ => not_stubbed;
     webhooks_constructEvent := fun _ _ _ => r |}.

(** The examples involve no number-to-string conversion. *)
Definition stub_runtime : Runtime :=
  {| NumberToString := fun _ => ""; StringToNumber := fun _ => S754_nan |}.

Definition request (fields : list (string * JSValue)) : Request :=
  {| body := list_to_map fields; headers := ∅ |}.

Definition no_env : Env := {| STRIPE_SECRET_KEY := None; STRIPE_WEBHOOK_SECRET := None |}.

(** ** Start-up *)

(** [a || b] *)
Definition js_or (a b : JSValue) : JSValue := if truthy a then a else b.

(** The variables of [process.env] read outside the handlers, beside the
    two Stripe secrets. *)
Record ProcessEnv := {
  secrets : Env;
  env_PORT : option string;
  NODE_ENV : option string;
}.

(** Line 24: [process.env.PORT || 8080]. *)
Definition PORT (penv : ProcessEnv) : JSValue :=
  js_or (env_value (env_PORT penv)) (JNum (Number.of_Z 8080)).

(** Lines 241-255: the callback of [app.listen], run once the server is
    bound. *)
Definition listening (rt : Runtime) (penv : ProcessEnv) : M unit :=
  port ← lift (ToString rt (PORT penv));
  _ ← console Info [JStr ("🚀 CrowdFuel Backend running on port " +:+ port)];
  environment ← lift (ToString rt (js_or (env_value (NODE_ENV penv)) (JStr "development")));
  _ ← console Info [JStr ("📝 Environment: " +:+ environment)];
  _ ← console Info [JStr "📝 Endpoints:"];
  _ ← console Info [JStr "   GET  /"];
  _ ← console Info [JStr "   POST /create-connect-account"];
  _ ← console Info [JStr "   POST /connect-account-status"];
  _ ← console Info [JStr "   POST /create-payment-intent"];
  _ ← console Info [JStr "   POST /payout-dashboard-link"];
  _ ← console Info [JStr "   POST /webhook"];
  _ ← console Info [JStr (String "010" "🔑 Environment variables:")];
  _ ← console Info
        [JStr ("   STRIPE_SECRET_KEY: "
               +:+ (if truthy (env_value (STRIPE_SECRET_KEY (secrets penv)))
                    then "✅ Set" else "❌ Missing"))];
  _ ← console Info
        [JStr ("   STRIPE_WEBHOOK_SECRET: "
               +:+ (if truthy (env_value (STRIPE_WEBHOOK_SECRET (secrets penv)))
                    then "✅ Set" else "❌ Missing"))];
  port ← lift (ToString rt (PORT penv));
  _ ← console Info [JStr ("   PORT: " +:+ port)];
  node_env ← lift (ToString rt (js_or (env_value (NODE_ENV penv)) (JStr "not set")));
  console Info [JStr ("   NODE_ENV: " +:+ node_env)].

(** What becomes of a server that [app.listen] accepted to start: the
    port is bound, or binding fails and ['error'] is emitted. *)
Inductive Bind :=
| Bound
| Failed (err : JSError).

(** How start-up ends: the server listens, or the process exits. *)
Inductive Startup :=
| Listening
| Exited (code : Z).

(** Lines 241-259.  [app.listen(PORT, ...)] is the framework's: given the
    port it throws at once when it refuses the port (the ['error'] handler
    of line 256 is then never attached and the exception leaves the
    module), and otherwise it binds and runs the callback, or emits
    ['error'], whose handler logs and exits with code 1. *)
Definition listen (rt : Runtime) (penv : ProcessEnv) (app_listen : JSValue -> JSError + Bind)
  : M Startup :=
  bind ← lift (app_listen (PORT penv));
  match bind with
  | Bound =>
      _ ← listening rt penv;
      mret Listening
  | Failed err =>
      _ ← console Error [JStr "❌ Server failed to start:"; JStr (message err)];
      mret (Exited 1)
  end.

(** What the module body does once its modules are loaded: the SDK is set
    up (lines 11-21), then, the routes being registered, the server is
    started (line 241). *)
Definition start (rt : Runtime) (penv : ProcessEnv)
    (require_stripe : JSValue -> JSError + StripeClient)
    (app_listen : JSValue -> JSError + Bind)
  : M (option StripeClient * Startup) :=
  stripe ← init_stripe (secrets penv) require_stripe;
  outcome ← listen rt penv app_listen;
  mret (stripe, outcome).

(** ** Further vocabulary *)

(** The label of the [console.error] line in each handler's [catch]. *)
Definition error_label (ep : Endpoint) : string :=
  match ep with
  | CreateConnectAccount => "Error creating Connect account:"
  | ConnectAccountStatus => "Error checking account status:"
  | CreatePaymentIntent => "Error creating payment intent:"
  | PayoutDashboardLink => "Error creating login link:"
  end.

(** The SDK operation behind each recorded call. *)
Definition client_call (c : StripeClient) (op : StripeOp)
  : JSValue -> JSError + gmap string JSValue :=
  match op with
  | AccountsCreate => accounts_create c
  | AccountLinksCreate => accountLinks_create c
  | AccountsRetrieve => accounts_retrieve c
  | PaymentIntentsCreate => paymentIntents_create c
  | AccountsCreateLoginLink => accounts_createLoginLink c
  end.

(** The properties of [req.body] that each handler destructures. *)
Definition reads (ep : Endpoint) : list string :=
  match ep with
  | CreateConnectAccount => ["bandId"; "email"; "country"]
  | ConnectAccountStatus => ["accountId"]
  | CreatePaymentIntent => ["amount"; "currency"; "bandStripeAccountId"; "description"]
  | PayoutDashboardLink => ["accountId"]
  end.

(** The instants of the years 0000 to 9999, written with a four-digit year. *)
Definition four_digit_year (t : Z) : Prop := -62167219200000 <= t <= 253402300799999.

(** A client whose account-retrieval and login-link operations answer with
    fixed results. *)
Definition stub_accounts (retrieved loginLink : JSError + gmap string JSValue) : StripeClient :=
  {| accounts_create := fun _ => not_stubbed;
     accountLinks_create := fun _ => not_stubbed;
     accounts_retrieve := fun _ => retrieved;
     paymentIntents_create := fun _ => not_stubbed;
     accounts_createLoginLink := fun _ => loginLink;
     webhooks_constructEvent := fun _ _ _ => not_stubbed |}.

(** * Properties *)

(** ** Binary64 arithmetic

    [binary_round_aux] shifts the significand right one bit at a time while
    tracking a round and a sticky bit.  The lemmas below restate it with
    quotient and remainder ([Number.rne]), from which the behaviour of the
    fee computation on integer amounts follows by integer arithmetic. *)

Module NumberFacts.
Import Number.

(** *** Digit counts *)

Lemma digits2_pos_log2 (m : positive) : Z.pos (digits2_pos m) = Z.log2 (Z.pos m) + 1.
Proof.
  induction m as [m IH | m IH |]; cbn [digits2_pos]; try reflexivity.
  - rewrite Pos2Z.inj_succ, IH. cbn [Z.log2]. destruct m; cbn; lia.
  - rewrite Pos2Z.inj_succ, IH. cbn [Z.log2]. destruct m; cbn; lia.
Qed.

Lemma digits2_pos_bounds (m : positive) :
  2 ^ (Z.pos (digits2_pos m) - 1) <= Z.pos m < 2 ^ Z.pos (digits2_pos m).
Proof.
  rewrite digits2_pos_log2.
  replace (Z.log2 (Z.pos m) + 1 - 1) with (Z.log2 (Z.pos m)) by lia.
  replace (Z.log2 (Z.pos m) + 1) with (Z.succ (Z.log2 (Z.pos m))) by lia.
  apply Z.log2_spec. lia.
Qed.

(** *** Right shifts: quotient, round bit and sticky bit *)

Lemma iter_pos_nat {A} (f : A -> A) (p : positive) (x : A) :
  SpecFloat.iter_pos f p x = Nat.iter (Pos.to_nat p) f x.
Proof.
  revert x. induction p as [p IH | p IH |]; intros x; cbn [SpecFloat.iter_pos].
  - rewrite !IH, Pos2Nat.inj_xI.
    replace (S (2 * Pos.to_nat p))%nat with (Pos.to_nat p + (Pos.to_nat p + 1))%nat by lia.
    rewrite !Nat.iter_add. reflexivity.
  - rewrite !IH, Pos2Nat.inj_xO.
    replace (2 * Pos.to_nat p)%nat with (Pos.to_nat p + Pos.to_nat p)%nat by lia.
    rewrite Nat.iter_add. reflexivity.
  - reflexivity.
Qed.

Lemma shr_1_spec (m : Z) (r s : bool) :
  0 <= m ->
  shr_1 {| shr_m := m; shr_r := r; shr_s := s |}
  = {| shr_m := m / 2; shr_r := Z.odd m; shr_s := r || s |}.
Proof.
  intros Hm. destruct m as [| p | p]; [reflexivity | | lia].
  destruct p as [p | p |]; cbn [shr_1 Z.odd].
  - replace (Z.pos p~1 / 2) with (Z.pos p); [reflexivity|].
    apply Z.div_unique with (r := 1); lia.
  - replace (Z.pos p~0 / 2) with (Z.pos p); [reflexivity|].
    apply Z.div_unique with (r := 0); lia.
  - reflexivity.
Qed.

(** After [k + 1] one-bit shifts the record holds the quotient by
    [2^(k+1)], the last bit shifted out and whether any earlier one was set. *)
Lemma shr_iter_spec (m : Z) (k : nat) :
  0 <= m ->
  Nat.iter (S k) shr_1 {| shr_m := m; shr_r := false; shr_s := false |}
  = {| shr_m := m / 2 ^ Z.of_nat (S k);
       shr_r := Z.odd (m / 2 ^ Z.of_nat k);
       shr_s := negb (m mod 2 ^ Z.of_nat k =? 0) |}.
Proof.
  intros Hm. induction k as [| k IH].
  - cbn [Nat.iter]. rewrite shr_1_spec by lia.
    change (2 ^ Z.of_nat 0) with 1. change (2 ^ Z.of_nat 1) with 2.
    rewrite Z.div_1_r, Z.mod_1_r. reflexivity.
  - change (Nat.iter (S (S k)) shr_1 ?x) with (shr_1 (Nat.iter (S k) shr_1 x)).
    rewrite IH.
    assert (Hp : 0 < 2 ^ Z.of_nat k) by (apply Z.pow_pos_nonneg; lia).
    assert (HS : 2 ^ Z.of_nat (S k) = 2 ^ Z.of_nat k * 2)
      by (rewrite Nat2Z.inj_succ, Z.pow_succ_r; lia).
    assert (HSS : 2 ^ Z.of_nat (S (S k)) = 2 ^ Z.of_nat (S k) * 2)
      by (rewrite (Nat2Z.inj_succ (S k)), Z.pow_succ_r; lia).
    rewrite shr_1_spec by (apply Z.div_pos; lia).
    f_equal.
    + rewrite HSS, Z.div_div by lia. reflexivity.
    + rewrite HS, Z.rem_mul_r, Zodd_mod by lia.
      pose proof (Z.mod_pos_bound m (2 ^ Z.of_nat k) Hp) as Hr.
      pose proof (Z.mod_pos_bound (m / 2 ^ Z.of_nat k) 2 eq_refl) as Hb.
      set (r := m mod 2 ^ Z.of_nat k) in *.
      set (b := (m / 2 ^ Z.of_nat k) mod 2) in *.
      set (a := 2 ^ Z.of_nat k) in *.
      destruct (Z.eqb_spec b 1), (Z.eqb_spec r 0), (Z.eqb_spec (r + a * b) 0);
        cbn; try reflexivity; exfalso; nia.
Qed.

Lemma rne_0 M : rne M 0 = M.
Proof. unfold rne. rewrite Z.pow_0_r, Z.mod_1_r, Z.div_1_r. reflexivity. Qed.

(** Shifting by [k] and rounding to nearest even is [rne]. *)
Lemma shr_rne (M E k : Z) :
  0 <= M -> 0 <= k ->
  let res := shr (shr_record_of_loc M loc_Exact) E k in
  round_nearest_even (shr_m (fst res)) (loc_of_shr_record (fst res)) = rne M k
  /\ snd res = E + k.
Proof.
  intros HM Hk. destruct k as [| p | p]; [| | lia].
  - cbn. rewrite rne_0. split; [reflexivity | lia].
  - cbn [shr fst snd shr_record_of_loc]. split; [| reflexivity].
    rewrite iter_pos_nat.
    destruct (Pos2Nat.is_succ p) as [k' Hk'].
    rewrite Hk', shr_iter_spec by lia.
    assert (Hpk : Z.pos p = Z.of_nat k' + 1) by lia.
    replace (Z.of_nat (S k')) with (Z.of_nat k' + 1) by lia.
    cbn [shr_m loc_of_shr_record].
    unfold rne. rewrite Hpk.
    assert (Hh : 0 < 2 ^ Z.of_nat k') by (apply Z.pow_pos_nonneg; lia).
    rewrite (Z.pow_add_r 2 (Z.of_nat k') 1), Z.pow_1_r by lia.
    rewrite Z.rem_mul_r, Zodd_mod by lia.
    pose proof (Z.mod_pos_bound M (2 ^ Z.of_nat k') Hh) as Hr.
    pose proof (Z.mod_pos_bound (M / 2 ^ Z.of_nat k') 2 eq_refl) as Hb.
    set (r := M mod 2 ^ Z.of_nat k') in *.
    set (b := (M / 2 ^ Z.of_nat k') mod 2) in *.
    set (h := 2 ^ Z.of_nat k') in *.
    set (q := M / (h * 2)).
    destruct (Z.eqb_spec b 1) as [Eb | Eb], (Z.eqb_spec r 0) as [Er | Er];
      cbn [negb loc_of_shr_record round_nearest_even].
    + replace (2 * (r + h * b) ?= h * 2) with Eq by (symmetry; apply Z.compare_eq_iff; nia).
      reflexivity.
    + replace (2 * (r + h * b) ?= h * 2) with Gt by (symmetry; apply Z.compare_gt_iff; nia).
      reflexivity.
    + replace (2 * (r + h * b) ?= h * 2) with Lt by (symmetry; apply Z.compare_lt_iff; nia).
      reflexivity.
    + replace (2 * (r + h * b) ?= h * 2) with Lt by (symmetry; apply Z.compare_lt_iff; nia).
      reflexivity.
Qed.

Lemma rne_bounds (M k : Z) :
  0 <= M -> 0 <= k -> M / 2 ^ k <= rne M k <= M / 2 ^ k + 1.
Proof.
  intros _ _. unfold rne.
  destruct (2 * (M mod 2 ^ k) ?= 2 ^ k); [destruct (Z.even _) | |]; lia.
Qed.

Lemma digits2_pos_unique (p : positive) (d : Z) :
  2 ^ (d - 1) <= Z.pos p < 2 ^ d -> Z.pos (digits2_pos p) = d.
Proof.
  intros H. rewrite digits2_pos_log2.
  assert (0 < d).
  { destruct (Z.le_gt_cases d 0) as [Hd|]; [| lia].
    assert (2 ^ d <= 2 ^ 0) by (apply Z.pow_le_mono_r; lia).
    change (2 ^ 0) with 1 in *. lia. }
  rewrite (Z.log2_unique (Z.pos p) (d - 1)); [lia | lia |].
  replace (Z.succ (d - 1)) with d by lia. exact H.
Qed.

Lemma fexp_normal (x : Z) : -1021 <= x -> fexp 53 1024 x = x - 53.
Proof. intros H. unfold fexp, emin. lia. Qed.

(** *** Rounding to 53 bits

    In the normal range a significand of [d >= 53] digits loses its low
    [d - 53] bits by [rne]; a carry to [2^53] renormalises. *)
Lemma binary_round_aux_rne (s : bool) (M : positive) (E : Z) :
  let d := Z.pos (digits2_pos M) in
  53 <= d -> -1074 <= E + (d - 53) -> E + (d - 53) + 1 <= 971 ->
  binary_round_aux 53 1024 s (Z.pos M) E loc_Exact =
    let m := rne (Z.pos M) (d - 53) in
    if m =? 2 ^ 53 then S754_finite s (2 ^ 52) (E + (d - 53) + 1)
    else S754_finite s (Z.to_pos m) (E + (d - 53)).
Proof.
  intros d Hd HE1 HE2.
  unfold binary_round_aux, shr_fexp. cbn [Zdigits2]. fold d.
  rewrite fexp_normal by lia.
  replace (d + E - 53 - E) with (d - 53) by lia.
  destruct (shr_rne (Z.pos M) E (d - 53)) as [Hm He]; [lia | lia |].
  destruct (shr (shr_record_of_loc (Z.pos M) loc_Exact) E (d - 53)) as [mrs e'].
  cbn [fst snd] in Hm, He. rewrite Hm, He. clear Hm He mrs e'.
  pose proof (digits2_pos_bounds M) as HM. fold d in HM.
  pose proof (rne_bounds (Z.pos M) (d - 53) ltac:(lia) ltac:(lia)) as Hr.
  assert (Hq : 2 ^ 52 <= Z.pos M / 2 ^ (d - 53) < 2 ^ 53).
  { assert (0 < 2 ^ (d - 53)) by (apply Z.pow_pos_nonneg; lia).
    assert (2 ^ (d - 1) = 2 ^ 52 * 2 ^ (d - 53))
      by (rewrite <- Z.pow_add_r by lia; f_equal; lia).
    assert (2 ^ d = 2 ^ 53 * 2 ^ (d - 53))
      by (rewrite <- Z.pow_add_r by lia; f_equal; lia).
    split.
    - apply Z.div_le_lower_bound; lia.
    - apply Z.div_lt_upper_bound; lia. }
  set (m := rne (Z.pos M) (d - 53)) in *.
  cbv zeta.
  destruct (Z.eqb_spec m (2 ^ 53)) as [Em | Em].
  - rewrite Em. vm_compute (Zdigits2 (2 ^ 53)).
    rewrite fexp_normal by lia.
    replace (54 + (E + (d - 53)) - 53 - (E + (d - 53))) with 1 by lia.
    cbn [shr shr_record_of_loc SpecFloat.iter_pos].
    change (shr_1 {| shr_m := 2 ^ 53; shr_r := false; shr_s := false |})
      with {| shr_m := 2 ^ 52; shr_r := false; shr_s := false |}.
    cbn [shr_m]. change (2 ^ 52) with (Z.pos (2 ^ 52)) at 1.
    cbv iota beta.
    replace (E + (d - 53) + 1 <=? 1024 - 53) with true by (symmetry; apply Z.leb_le; lia).
    reflexivity.
  - destruct m as [| pm | pm] eqn:Epm; [lia | | lia].
    cbn [Zdigits2].
    rewrite (digits2_pos_unique pm 53) by (change (2 ^ (53 - 1)) with (2 ^ 52); lia).
    rewrite fexp_normal by lia.
    replace (53 + (E + (d - 53)) - 53 - (E + (d - 53))) with 0 by lia.
    cbn [shr shr_record_of_loc shr_m Z.to_pos].
    replace (E + (d - 53) <=? 1024 - 53) with true by (symmetry; apply Z.leb_le; lia).
    reflexivity.
Qed.

Lemma iter_xO_pow (p q : positive) : Z.pos (Pos.iter xO p q) = Z.pos p * 2 ^ Z.pos q.
Proof.
  induction q as [| q IH] using Pos.peano_ind.
  - cbn. lia.
  - rewrite Pos.iter_succ, Pos2Z.inj_xO, IH, Pos2Z.inj_succ, Z.pow_succ_r by lia. lia.
Qed.

Lemma rne_exact (K j : Z) : 0 <= j -> rne (K * 2 ^ j) j = K.
Proof.
  intros Hj. unfold rne.
  assert (0 < 2 ^ j) by (apply Z.pow_pos_nonneg; lia).
  rewrite Z.mod_mul, Z.div_mul by lia.
  replace (2 * 0 ?= 2 ^ j) with Lt by (symmetry; apply Z.compare_lt_iff; lia).
  reflexivity.
Qed.

Lemma digits2_pos_shift (K : positive) (j : Z) (M : positive) :
  0 <= j -> Z.pos M = Z.pos K * 2 ^ j ->
  Z.pos (digits2_pos M) = Z.pos (digits2_pos K) + j.
Proof.
  intros Hj HM. apply digits2_pos_unique.
  pose proof (digits2_pos_bounds K) as HK.
  set (d := Z.pos (digits2_pos K)) in *.
  assert (0 < 2 ^ j) by (apply Z.pow_pos_nonneg; lia).
  assert (0 < d) by (unfold d; lia).
  replace (d + j - 1) with (d - 1 + j) by lia.
  rewrite !Z.pow_add_r by lia. nia.
Qed.

(** A value [K * 2^j] whose significand [K] has 53 digits is returned as it is. *)
Lemma binary_round_aux_exact (s : bool) (K M : positive) (j E : Z) :
  Z.pos (digits2_pos K) = 53 -> 0 <= j -> Z.pos M = Z.pos K * 2 ^ j ->
  -1074 <= E + j -> E + j + 1 <= 971 ->
  binary_round_aux 53 1024 s (Z.pos M) E loc_Exact = S754_finite s K (E + j).
Proof.
  intros HK Hj HM HE1 HE2.
  pose proof (digits2_pos_shift K j M Hj HM) as Hd. rewrite HK in Hd.
  rewrite binary_round_aux_rne by lia.
  cbv zeta. rewrite Hd. replace (53 + j - 53) with j by lia.
  rewrite HM, rne_exact by lia.
  pose proof (digits2_pos_bounds K) as HKb. rewrite HK in HKb.
  destruct (Z.eqb_spec (Z.pos K) (2 ^ 53)); [lia | reflexivity].
Qed.

(** The normal form of a positive integer below [2^53]. *)
Lemma of_Z_pos (n : Z) :
  0 < n < 2 ^ 53 ->
  of_Z n = S754_finite false (Z.to_pos (n * 2 ^ (52 - Z.log2 n))) (Z.log2 n - 52).
Proof.
  intros Hn. destruct n as [| p | p]; [lia | | lia].
  unfold of_Z, prec, emax, binary_normalize, binary_round.
  pose proof (digits2_pos_log2 p) as Hd.
  pose proof (digits2_pos_bounds p) as Hb.
  set (d := Z.pos (digits2_pos p)) in *.
  assert (Hd53 : d <= 53).
  { destruct (Z.le_gt_cases d 53); [assumption|].
    assert (2 ^ 53 <= 2 ^ (d - 1)) by (apply Z.pow_le_mono_r; lia). lia. }
  rewrite fexp_normal by lia. rewrite Z.add_0_r.
  replace (Z.log2 (Z.pos p)) with (d - 1) by lia.
  replace (52 - (d - 1)) with (53 - d) by lia.
  replace (d - 1 - 52) with (d - 53) by lia.
  unfold shl_align. rewrite Z.sub_0_r.
  destruct (d - 53) as [| q | q] eqn:Eq; [| lia |].
  - replace (53 - d) with 0 by lia. rewrite Z.pow_0_r, Z.mul_1_r. cbn [Z.to_pos].
    rewrite (binary_round_aux_exact false p p 0 0); [reflexivity | lia | lia | lia | lia | lia].
  - replace (53 - d) with (Z.pos q) by lia.
    rewrite <- iter_xO_pow. cbn [Z.to_pos].
    rewrite (binary_round_aux_exact false (Pos.iter xO p q) (Pos.iter xO p q) 0 (Z.neg q));
      [f_equal; lia | | lia | lia | lia | lia].
    rewrite (digits2_pos_shift p (Z.pos q) _ ltac:(lia) (iter_xO_pow p q)). fold d. lia.
Qed.
(** *** The fee on integer amounts

    The significand of [0.05] is [c = (2^57 + 8) / 20].  With [n] scaled by
    [T], the product [M = n * T * c] is rounded at [P] to [m2]; read at the
    scale [2 * F'] (where [F' * P = T * 2^56]), [m2] never falls below the
    half-unit interval around [a = (n + 10) / 20] and exceeds it by less
    than one unit; it lies inside when the rounding error [P / 2] stays
    below the margin [T * 2^56 / 10] left by [n = 20 a + 9]. *)
Lemma fee_arith (n T P F' m2 : Z) :
  0 < n < 2 ^ 53 -> 0 < T -> 0 < P -> 0 < F' ->
  F' * P = T * 2 ^ 56 ->
  let M := n * T * 7205759403792794 in
  P * 2 ^ 52 <= M ->
  M / P <= m2 <= M / P + 1 ->
  (2 * (M mod P) < P -> m2 = M / P) ->
  let f := (2 * m2 + 2 * F') / (2 * (2 * F')) in
  (n + 10) / 20 <= f <= (n + 10) / 20 + 1
  /\ (10 * P + 8 * (n * T) < 2 ^ 57 * T -> f = (n + 10) / 20).
Proof.
  intros Hn HT HP HF HFP M HPM Hm2 Hlow f.
  pose proof (Z.div_mod M P ltac:(lia)) as HMqr.
  pose proof (Z.mod_pos_bound M P HP) as Hr.
  pose proof (Z.div_mod (n + 10) 20 ltac:(lia)) as Ha.
  pose proof (Z.mod_pos_bound (n + 10) 20 eq_refl) as Hi.
  set (q := M / P) in *. set (r := M mod P) in *.
  set (a := (n + 10) / 20) in *. set (i := (n + 10) mod 20) in *.
  change (2 ^ 53) with 9007199254740992 in *.
  change (2 ^ 52) with 4503599627370496 in *.
  change (2 ^ 56) with 72057594037927936 in *.
  change (2 ^ 57) with 144115188075855872 in *.
  assert (Ha0 : 0 <= a) by lia.
  assert (HnT : 0 < n * T) by nia.
  (* below: F' * (2a - 1) <= q *)
  assert (Hlo : F' * (2 * a - 1) <= q).
  { assert (F' * (2 * a - 1) * P <= M); [| nia].
    replace (F' * (2 * a - 1) * P) with ((2 * a - 1) * (T * 72057594037927936))
      by (rewrite <- HFP; ring).
    unfold M.
    assert ((2 * a - 1) * 72057594037927936 <= n * 7205759403792794) by lia.
    nia. }
  (* the rounding unit is small against the product *)
  assert (HP2 : P < 2 * (n * T)) by (unfold M in HPM; nia).
  (* above, in general: q + 1 < F' * (2a + 3) *)
  assert (Hhi : q + 1 < F' * (2 * a + 3)).
  { assert (M + P < F' * (2 * a + 3) * P); [| nia].
    replace (F' * (2 * a + 3) * P) with ((2 * a + 3) * (T * 72057594037927936))
      by (rewrite <- HFP; ring).
    unfold M.
    assert (n * 7205759403792794 + 2 * n < (2 * a + 3) * 72057594037927936) by lia.
    nia. }
  assert (Hf : 2 * (2 * F') * f <= 2 * m2 + 2 * F' < 2 * (2 * F') * (f + 1)).
  { pose proof (Z.div_mod (2 * m2 + 2 * F') (2 * (2 * F')) ltac:(lia)).
    pose proof (Z.mod_pos_bound (2 * m2 + 2 * F') (2 * (2 * F')) ltac:(lia)).
    fold f in H. lia. }
  split; [split |].
  - assert (a < f + 1); [nia | lia].
  - assert (f < a + 2); [nia | lia].
  - intros Hmargin.
    assert (Hup : 2 * M + P < 2 * (F' * (2 * a + 1)) * P).
    { replace (2 * (F' * (2 * a + 1)) * P) with (2 * (2 * a + 1) * (T * 72057594037927936))
        by (rewrite <- HFP; ring).
      unfold M.
      assert (20 * (n * T * 7205759403792794) = (144115188075855872 + 8) * (n * T)) by ring.
      assert (n * T <= (20 * a + 9) * T) by nia.
      nia. }
    assert (Hm2up : m2 < F' * (2 * a + 1)).
    { assert (q < F' * (2 * a + 1)) by nia.
      destruct (Z.eq_dec q (F' * (2 * a + 1) - 1)) as [Eq | Nq]; [| lia].
      rewrite Hlow; [lia |]. nia. }
    assert (f < a + 1); [nia |].
    assert (a < f + 1); [nia | lia].
Qed.

Lemma log2_shift (V j : Z) : 0 < V -> 0 <= j -> Z.log2 (V * 2 ^ j) = Z.log2 V + j.
Proof.
  intros HV Hj. rewrite <- Z.shiftl_mul_pow2 by lia. apply Z.log2_shiftl; lia.
Qed.

(** [Math.round] on a positive normal number with fractional bits. *)
Lemma round_positive (m : positive) (e : Z) :
  Z.pos (digits2_pos m) = 53 -> e < 0 ->
  round (S754_finite false m e) = of_Z ((2 * Z.pos m + 2 ^ (- e)) / 2 ^ (1 - e)).
Proof.
  intros Hd He. unfold round.
  replace (0 <=? e) with false by (symmetry; apply Z.leb_gt; lia).
  assert (HF : 0 < 2 ^ (- e)) by (apply Z.pow_pos_nonneg; lia).
  replace (1 - e) with (1 + - e) by lia. rewrite Z.pow_add_r, Z.pow_1_r by lia.
  set (F := 2 ^ (- e)) in *.
  destruct (Z.eqb_spec (Z.pos m mod F) 0) as [Hint | Hint].
  - (* integral *)
    apply Z.div_exact in Hint; [| lia].
    set (V := Z.pos m / F) in *.
    assert (HV : 0 < V) by nia.
    replace ((2 * Z.pos m + F) / (2 * F)) with V
      by (apply Z.div_unique with (r := F); nia).
    pose proof (digits2_pos_log2 m) as Hl. rewrite Hd in Hl.
    assert (Hl' : Z.log2 V + - e = 52).
    { rewrite <- log2_shift by lia. fold F. rewrite Z.mul_comm, <- Hint. lia. }
    assert (V < 2 ^ 53).
    { pose proof (digits2_pos_bounds m) as Hb. rewrite Hd in Hb. nia. }
    rewrite of_Z_pos by lia.
    replace (52 - Z.log2 V) with (- e) by lia. fold F.
    rewrite (Z.mul_comm V F), <- Hint. cbn [Z.to_pos]. f_equal. lia.
  - destruct (Z.eqb_spec ((2 * Z.pos m + F) / (2 * F)) 0) as [-> | _]; reflexivity.
Qed.

Lemma rne_low (M k : Z) : 2 * (M mod 2 ^ k) < 2 ^ k -> rne M k = M / 2 ^ k.
Proof.
  intros H. unfold rne.
  replace (2 * (M mod 2 ^ k) ?= 2 ^ k) with Lt by (symmetry; apply Z.compare_lt_iff; lia).
  reflexivity.
Qed.

(** [Math.round(n * 0.05)] on integers below [2^53]: an integer that is
    [(n + 10) / 20] or one more, and [(n + 10) / 20] below [3 * 2^51]. *)
Lemma fee_of_Z_bounds (n : Z) :
  0 < n < 2 ^ 53 ->
  exists f,
    round (mul (of_Z n) lit_0_05) = of_Z f
    /\ (n + 10) / 20 <= f <= (n + 10) / 20 + 1
    /\ (n < 3 * 2 ^ 51 -> f = (n + 10) / 20).
Proof.
  intros Hn. rewrite of_Z_pos by lia.
  unfold mul, lit_0_05, prec, emax, SFmul. cbn [xorb].
  pose proof (Z.log2_spec n ltac:(lia)) as HL.
  pose proof (Z.log2_nonneg n) as HL0.
  set (L := Z.log2 n) in *.
  assert (HL52 : L <= 52).
  { destruct (Z.le_gt_cases L 52); [assumption|].
    assert (2 ^ 53 <= 2 ^ L) by (apply Z.pow_le_mono_r; lia). lia. }
  assert (HT : 0 < 2 ^ (52 - L)) by (apply Z.pow_pos_nonneg; lia).
  assert (HnT : 2 ^ 52 <= n * 2 ^ (52 - L) < 2 ^ 53).
  { replace (2 ^ 52) with (2 ^ L * 2 ^ (52 - L)) by (rewrite <- Z.pow_add_r by lia; f_equal; lia).
    replace (2 ^ 53) with (2 ^ Z.succ L * 2 ^ (52 - L)) by (rewrite <- Z.pow_add_r by lia; f_equal; lia).
    nia. }
  assert (HT2 : L <= 51 -> 2 <= 2 ^ (52 - L)).
  { intros HL51. change 2 with (2 ^ 1) at 1. apply Z.pow_le_mono_r; lia. }
  assert (HT1 : L = 52 -> 2 ^ (52 - L) = 1) by (intros ->; reflexivity).
  set (T := 2 ^ (52 - L)) in *.
  set (M := (Z.to_pos (n * T) * 7205759403792794)%positive).
  assert (HM : Z.pos M = n * T * 7205759403792794).
  { unfold M. rewrite Pos2Z.inj_mul, Z2Pos.id by lia. reflexivity. }
  pose proof (digits2_pos_bounds M) as Hd.
  set (d := Z.pos (digits2_pos M)) in *.
  change (2 ^ 52) with 4503599627370496 in HnT.
  change (2 ^ 53) with 9007199254740992 in HnT.
  assert (Hd' : d = 105 \/ d = 106).
  { assert (2 ^ 104 < Z.pos M < 2 ^ 106)
      by (rewrite HM; change (2 ^ 104) with (4503599627370496 * 4503599627370496);
          change (2 ^ 106) with (9007199254740992 * 9007199254740992); nia).
    assert (~ d <= 104).
    { intros Hle. assert (2 ^ d <= 2 ^ 104) by (apply Z.pow_le_mono_r; lia). lia. }
    assert (~ 107 <= d).
    { intros Hle. assert (2 ^ 106 <= 2 ^ (d - 1)) by (apply Z.pow_le_mono_r; lia). lia. }
    lia. }
  rewrite binary_round_aux_rne by (fold d; lia).
  fold d. cbv zeta.
  pose proof (rne_bounds (Z.pos M) (d - 53) ltac:(lia) ltac:(lia)) as Hrb.
  pose proof (rne_low (Z.pos M) (d - 53)) as Hrl.
  set (m2 := rne (Z.pos M) (d - 53)) in *.
  assert (Hq : 2 ^ 52 <= Z.pos M / 2 ^ (d - 53) < 2 ^ 53).
  { assert (0 < 2 ^ (d - 53)) by (apply Z.pow_pos_nonneg; lia).
    assert (2 ^ (d - 1) = 2 ^ 52 * 2 ^ (d - 53))
      by (rewrite <- Z.pow_add_r by lia; f_equal; lia).
    assert (2 ^ d = 2 ^ 53 * 2 ^ (d - 53))
      by (rewrite <- Z.pow_add_r by lia; f_equal; lia).
    split.
    - apply Z.div_le_lower_bound; lia.
    - apply Z.div_lt_upper_bound; lia. }
  assert (HP52 : 2 ^ (d - 53) * 2 ^ 52 <= Z.pos M).
  { rewrite <- Z.pow_add_r by lia. replace (d - 53 + 52) with (d - 1) by lia. lia. }
  (* the value of the rounded product, as [m2 / (2 * F')] *)
  set (F' := 2 ^ (108 - L - (d - 53))).
  assert (HF' : 0 < F') by (apply Z.pow_pos_nonneg; lia).
  assert (HFP : F' * 2 ^ (d - 53) = T * 2 ^ 56).
  { unfold F', T. rewrite <- !Z.pow_add_r by lia. f_equal. lia. }
  assert (HPpos : 0 < 2 ^ (d - 53)) by (apply Z.pow_pos_nonneg; lia).
  pose proof (fee_arith n T (2 ^ (d - 53)) F' m2 Hn HT HPpos HF' HFP) as Hfee.
  cbv zeta in Hfee. rewrite <- HM in Hfee. specialize (Hfee HP52 Hrb Hrl).
  destruct Hfee as [Hbounds Hexact].
  exists ((2 * m2 + 2 * F') / (2 * (2 * F'))). split; [| split; [exact Hbounds |]].
  - destruct (Z.eqb_spec m2 (2 ^ 53)) as [Em | Em].
    + rewrite round_positive by (reflexivity || lia).
      f_equal. rewrite Em.
      replace (- (L - 52 + -57 + (d - 53) + 1)) with (108 - L - (d - 53)) by lia.
      replace (1 - (L - 52 + -57 + (d - 53) + 1)) with (1 + (108 - L - (d - 53))) by lia.
      rewrite Z.pow_add_r by lia. fold F'.
      change (Z.pos (2 ^ 52)) with (2 ^ 52). change (2 ^ 1) with 2.
      replace (2 * 2 ^ 53 + 2 * F') with (2 * (2 * 2 ^ 52 + F'))
        by (change (2 ^ 53) with (2 * 2 ^ 52); ring).
      rewrite Z.div_mul_cancel_l by lia. reflexivity.
    + assert (Hm2 : 2 ^ 52 <= m2 < 2 ^ 53) by lia.
      rewrite round_positive.
      * f_equal. rewrite Z2Pos.id by lia.
        replace (- (L - 52 + -57 + (d - 53))) with (1 + (108 - L - (d - 53))) by lia.
        replace (1 - (L - 52 + -57 + (d - 53))) with (1 + (1 + (108 - L - (d - 53)))) by lia.
        rewrite !Z.pow_add_r by lia. fold F'. change (2 ^ 1) with 2. reflexivity.
      * apply digits2_pos_unique. rewrite Z2Pos.id by lia. exact Hm2.
      * lia.
  - intros Hn3. apply Hexact.
    change (3 * 2 ^ 51) with 6755399441055744 in Hn3.
    change (2 ^ 57) with 144115188075855872.
    destruct Hd' as [Ed | Ed]; rewrite Ed.
    + change (2 ^ (105 - 53)) with 4503599627370496. lia.
    + change (2 ^ (106 - 53)) with 9007199254740992.
      destruct (Z.le_gt_cases L 51) as [HL51 | HL51].
      * specialize (HT2 HL51). lia.
      * rewrite (HT1 ltac:(lia)) in *. lia.
Qed.

(** [Math.round(n * 0.05)] is [(n + 10) / 20] for every integer below
    6755399441055749, the first amount at which the product rounds up to
    a half. *)
Lemma fee_of_Z (n : Z) :
  0 < n < 6755399441055749 ->
  round (mul (of_Z n) lit_0_05) = of_Z ((n + 10) / 20).
Proof.
  intros Hn.
  destruct (Z.lt_ge_cases n (3 * 2 ^ 51)) as [Hlt | Hge].
  - destruct (fee_of_Z_bounds n) as (f & -> & _ & Hf).
    + change (2 ^ 53) with 9007199254740992. lia.
    + rewrite (Hf Hlt). reflexivity.
  - change (3 * 2 ^ 51) with 6755399441055744 in Hge.
    assert (Hcases : n = 6755399441055744 \/ n = 6755399441055745 \/ n = 6755399441055746
                     \/ n = 6755399441055747 \/ n = 6755399441055748) by lia.
    destruct Hcases as [-> | [-> | [-> | [-> | ->]]]]; reflexivity.
Qed.

Lemma shl_align_fst (m : positive) (e e' : Z) :
  e' <= e -> Z.pos (fst (shl_align m e e')) = Z.pos m * 2 ^ (e - e').
Proof.
  intros H. unfold shl_align.
  destruct (e' - e) as [| p | p] eqn:E; [| lia |]; cbn [fst].
  - replace (e - e') with 0 by lia. lia.
  - rewrite iter_xO_pow. f_equal. f_equal. lia.
Qed.

Lemma of_Z_scaled (v : Z) (p : positive) (e : Z) :
  0 < v < 2 ^ 53 -> -1074 <= e <= 0 -> Z.pos p = v * 2 ^ (- e) ->
  binary_round 53 1024 false p e = of_Z v.
Proof.
  intros Hv He Hp. rewrite of_Z_pos by lia.
  pose proof (Z.log2_spec v ltac:(lia)) as HL.
  pose proof (Z.log2_nonneg v) as HL0.
  set (L := Z.log2 v) in *.
  assert (HL52 : L <= 52).
  { destruct (Z.le_gt_cases L 52); [assumption|].
    assert (2 ^ 53 <= 2 ^ L) by (apply Z.pow_le_mono_r; lia). lia. }
  assert (Hdp : Z.pos (digits2_pos p) = L + 1 + - e).
  { apply digits2_pos_unique. rewrite Hp.
    replace (L + 1 + - e - 1) with (L + - e) by lia.
    replace (L + 1 + - e) with (Z.succ L + - e) by lia.
    rewrite !Z.pow_add_r by lia.
    assert (0 < 2 ^ (- e)) by (apply Z.pow_pos_nonneg; lia). nia. }
  assert (HK : 0 < v * 2 ^ (52 - L)).
  { assert (0 < 2 ^ (52 - L)) by (apply Z.pow_pos_nonneg; lia). nia. }
  assert (HKd : Z.pos (digits2_pos (Z.to_pos (v * 2 ^ (52 - L)))) = 53).
  { apply digits2_pos_unique. rewrite Z2Pos.id by lia.
    replace (2 ^ (53 - 1)) with (2 ^ L * 2 ^ (52 - L)) by (rewrite <- Z.pow_add_r by lia; f_equal; lia).
    replace (2 ^ 53) with (2 ^ Z.succ L * 2 ^ (52 - L)) by (rewrite <- Z.pow_add_r by lia; f_equal; lia).
    assert (0 < 2 ^ (52 - L)) by (apply Z.pow_pos_nonneg; lia). nia. }
  unfold binary_round. rewrite Hdp, fexp_normal by lia.
  replace (L + 1 + - e + e - 53) with (L - 52) by lia.
  assert (Hex : forall (M : positive) (E j : Z),
             0 <= j -> L - 52 = E + j ->
             Z.pos M = Z.pos (Z.to_pos (v * 2 ^ (52 - L))) * 2 ^ j ->
             binary_round_aux 53 1024 false (Z.pos M) E loc_Exact
             = S754_finite false (Z.to_pos (v * 2 ^ (52 - L))) (L - 52)).
  { intros M E j Hj HE HM. rewrite HE. apply binary_round_aux_exact; [exact HKd | lia | exact HM | lia | lia]. }
  unfold shl_align.
  destruct (L - 52 - e) as [| q | q] eqn:Eq.
  - apply Hex with (j := 0); [lia | lia |].
    rewrite Z2Pos.id, Hp by lia. replace (52 - L) with (- e) by lia. lia.
  - apply Hex with (j := Z.pos q); [lia | lia |].
    rewrite Z2Pos.id, Hp by lia.
    rewrite <- Z.mul_assoc, <- Z.pow_add_r by lia.
    f_equal. f_equal. lia.
  - apply Hex with (j := 0); [lia | lia |].
    rewrite iter_xO_pow, Z2Pos.id, Hp by lia.
    rewrite <- Z.mul_assoc, <- Z.pow_add_r by lia.
    rewrite Z.pow_0_r, Z.mul_1_r. f_equal. f_equal. lia.
Qed.

(** Subtraction of integers below [2^53] is exact. *)
Lemma sub_of_Z (n a : Z) :
  0 <= a <= n -> n < 2 ^ 53 ->
  sub (of_Z n) (of_Z a) = of_Z (n - a).
Proof.
  intros Ha Hn.
  destruct (Z.eq_dec n 0) as [-> | Hn0].
  { replace a with 0 by lia. reflexivity. }
  destruct (Z.eq_dec a 0) as [-> | Ha0].
  { rewrite Z.sub_0_r, (of_Z_pos n) by lia. reflexivity. }
  destruct (Z.eq_dec a n) as [-> | Hne].
  { rewrite Z.sub_diag, of_Z_pos by lia. unfold sub, prec, emax, SFsub. cbn [cond_Zopp].
    rewrite Z.sub_diag. reflexivity. }
  rewrite (of_Z_pos n), (of_Z_pos a) by lia.
  unfold sub, prec, emax, SFsub. cbn [cond_Zopp].
  assert (HLa : 0 <= Z.log2 a <= Z.log2 n) by (split; [apply Z.log2_nonneg | apply Z.log2_le_mono; lia]).
  assert (HLn : Z.log2 n <= 52).
  { pose proof (Z.log2_spec n ltac:(lia)).
    destruct (Z.le_gt_cases (Z.log2 n) 52); [assumption|].
    assert (2 ^ 53 <= 2 ^ Z.log2 n) by (apply Z.pow_le_mono_r; lia). lia. }
  set (La := Z.log2 a) in *. set (Ln := Z.log2 n) in *.
  rewrite Z.min_r by lia.
  assert (0 < 2 ^ (52 - La)) by (apply Z.pow_pos_nonneg; lia).
  assert (0 < 2 ^ (52 - Ln)) by (apply Z.pow_pos_nonneg; lia).
  rewrite !shl_align_fst by lia.
  rewrite !Z2Pos.id by nia.
  replace (La - 52 - (La - 52)) with 0 by lia. rewrite Z.pow_0_r, Z.mul_1_r.
  rewrite <- Z.mul_assoc, <- Z.pow_add_r by lia.
  replace (52 - Ln + (Ln - 52 - (La - 52))) with (52 - La) by lia.
  rewrite <- Z.mul_sub_distr_r.
  destruct ((n - a) * 2 ^ (52 - La)) as [| p | p] eqn:Ep; [nia | | nia].
  cbn [binary_normalize].
  apply of_Z_scaled; [lia | lia |].
  rewrite <- Ep. f_equal. f_equal. lia.
Qed.

(** Addition of non-negative integers is exact while the sum stays below
    [2^53]. *)
Lemma add_of_Z (a b : Z) :
  0 <= a -> 0 <= b -> a + b < 2 ^ 53 ->
  add (of_Z a) (of_Z b) = of_Z (a + b).
Proof.
  intros Ha Hb Hab.
  destruct (Z.eq_dec a 0) as [-> | Ha0].
  { destruct (Z.eq_dec b 0) as [-> | Hb0]; [reflexivity |].
    rewrite Z.add_0_l, (of_Z_pos b) by lia. reflexivity. }
  destruct (Z.eq_dec b 0) as [-> | Hb0].
  { rewrite Z.add_0_r, (of_Z_pos a) by lia. reflexivity. }
  rewrite (of_Z_pos a), (of_Z_pos b) by lia.
  unfold add, prec, emax, SFadd. cbn [cond_Zopp].
  assert (HL : forall v, 0 < v < 2 ^ 53 -> 0 <= Z.log2 v <= 52).
  { intros v Hv. split; [apply Z.log2_nonneg |].
    pose proof (Z.log2_spec v ltac:(lia)).
    destruct (Z.le_gt_cases (Z.log2 v) 52); [assumption |].
    assert (2 ^ 53 <= 2 ^ Z.log2 v) by (apply Z.pow_le_mono_r; lia). lia. }
  pose proof (HL a ltac:(lia)) as HLa. pose proof (HL b ltac:(lia)) as HLb.
  set (La := Z.log2 a) in *. set (Lb := Z.log2 b) in *.
  set (ez := Z.min (La - 52) (Lb - 52)).
  assert (Hez : -52 <= ez <= 0 /\ ez <= La - 52 /\ ez <= Lb - 52) by (unfold ez; lia).
  assert (0 < 2 ^ (52 - La)) by (apply Z.pow_pos_nonneg; lia).
  assert (0 < 2 ^ (52 - Lb)) by (apply Z.pow_pos_nonneg; lia).
  assert (0 < 2 ^ (- ez)) by (apply Z.pow_pos_nonneg; lia).
  rewrite !shl_align_fst by lia.
  rewrite !Z2Pos.id by nia.
  rewrite <- !Z.mul_assoc, <- !Z.pow_add_r by lia.
  replace (52 - La + (La - 52 - ez)) with (- ez) by lia.
  replace (52 - Lb + (Lb - 52 - ez)) with (- ez) by lia.
  rewrite <- Z.mul_add_distr_r.
  destruct ((a + b) * 2 ^ (- ez)) as [| p | p] eqn:Ep; [nia | | nia].
  cbn [binary_normalize].
  apply of_Z_scaled; [lia | lia | symmetry; exact Ep].
Qed.

(** *** Agreement with the machine's binary64

    The constant, the conversion of integers and the product coincide with
    the primitive floating-point operations at the amounts of the examples. *)

#[local] Set Warnings "-inexact-float".

Example lit_0_05_machine : Prim2SF 0.05%float = lit_0_05.
Proof. reflexivity. Qed.

Example of_Z_machine : Prim2SF 10000%float = of_Z 10000.
Proof. reflexivity. Qed.

Example mul_machine :
  Prim2SF (10000 * 0.05)%float = mul (of_Z 10000) lit_0_05
  /\ Prim2SF (6755399441055749 * 0.05)%float = mul (of_Z 6755399441055749) lit_0_05
  /\ Prim2SF (9481262373411574 * 0.05)%float = mul (of_Z 9481262373411574) lit_0_05.
Proof. repeat split; reflexivity. Qed.

Example sub_machine :
  Prim2SF (10000 - 500)%float = sub (of_Z 10000) (of_Z 500)
  /\ Prim2SF (9481262373411574 - 474063118670579)%float
     = sub (of_Z 9481262373411574) (of_Z 474063118670579).
Proof. split; reflexivity. Qed.

Example add_machine :
  Prim2SF (474063118670579 + 9007199254740996)%float
  = add (of_Z 474063118670579) (of_Z 9007199254740996).
Proof. reflexivity. Qed.

End NumberFacts.

(** ** Dates *)

Module DateFacts.
Import Date.

Lemma digit_value_digit (d : Z) : 0 <= d <= 9 -> digit_value (digit d) = Some d.
Proof.
  intros Hd. unfold digit_value, digit.
  rewrite N_ascii_embedding by lia. rewrite Z2N.id by lia.
  replace (48 <=? 48 + d) with true by (symmetry; apply Z.leb_le; lia).
  replace (48 + d <=? 57) with true by (symmetry; apply Z.leb_le; lia).
  cbn [andb]. f_equal. lia.
Qed.

Lemma digit_not_sign (d : Z) (c : ascii) :
  0 <= d <= 9 -> digit_value c = None -> Ascii.eqb (digit d) c = false.
Proof.
  intros Hd Hc. apply Ascii.eqb_neq. intros <-.
  rewrite digit_value_digit in Hc by assumption. discriminate.
Qed.

Lemma digits_pad (w : nat) (v : Z) (rest : string) (acc : Z) :
  digits w (pad w v +:+ rest) acc = Some (acc * 10 ^ Z.of_nat w + v mod 10 ^ Z.of_nat w, rest).
Proof.
  revert acc. induction w as [| w IH]; intros acc.
  - cbn. rewrite Z.mod_1_r. do 2 f_equal. lia.
  - cbn [pad digits append String.app].
    change (String ?c ?a +:+ ?b) with (String c (a +:+ b)).
    cbn [digits].
    assert (Hp : 0 < 10 ^ Z.of_nat w) by (apply Z.pow_pos_nonneg; lia).
    rewrite digit_value_digit by (pose proof (Z.mod_pos_bound (v / 10 ^ Z.of_nat w) 10); lia).
    rewrite IH. do 2 f_equal.
    rewrite Nat2Z.inj_succ, Z.pow_succ_r by lia.
    replace (10 * 10 ^ Z.of_nat w) with (10 ^ Z.of_nat w * 10) by lia.
    rewrite Z.rem_mul_r by lia. ring.
Qed.

Lemma digits_pad_small (w : nat) (v : Z) (rest : string) :
  0 <= v < 10 ^ Z.of_nat w ->
  digits w (pad w v +:+ rest) 0 = Some (v, rest).
Proof.
  intros Hv. rewrite digits_pad, Z.mod_small by assumption. reflexivity.
Qed.

Lemma expect_cons (c : ascii) (s : string) : expect c (String c s) = Some s.
Proof. cbn. rewrite Ascii.eqb_refl. reflexivity. Qed.

Lemma year_year_string (y : Z) (rest : string) :
  -999999 <= y <= 999999 ->
  year (year_string y +:+ rest) = Some (y, rest).
Proof.
  intros Hy. unfold year_string.
  destruct (Z.leb_spec 0 y) as [H0 | H0]; [destruct (Z.leb_spec y 9999) as [H1 | H1] |];
    cbn [andb].
  - rewrite <- (digits_pad_small 4 y rest) by (change (10 ^ Z.of_nat 4) with 10000; lia).
    cbn [pad append String.app].
    change (String ?c ?a +:+ ?b) with (String c (a +:+ b)).
    unfold year.
    rewrite !digit_not_sign; [reflexivity | | reflexivity | | reflexivity];
      pose proof (Z.mod_pos_bound (y / 10 ^ Z.of_nat 3) 10); lia.
  - replace (y <? 0) with false by (symmetry; apply Z.ltb_ge; lia).
    change (String "+" (pad 6 (Z.abs y)) +:+ rest) with (String "+" (pad 6 (Z.abs y) +:+ rest)).
    cbn [year]. change (Ascii.eqb "+" "+") with true. cbv iota.
    rewrite digits_pad_small by (change (10 ^ Z.of_nat 6) with 1000000; lia).
    do 2 f_equal. lia.
  - replace (y <? 0) with true by (symmetry; apply Z.ltb_lt; lia).
    change (String "-" (pad 6 (Z.abs y)) +:+ rest) with (String "-" (pad 6 (Z.abs y) +:+ rest)).
    cbn [year]. change (Ascii.eqb "-" "+") with false. change (Ascii.eqb "-" "-") with true.
    cbv iota.
    rewrite digits_pad_small by (change (10 ^ Z.of_nat 6) with 1000000; lia).
    replace (Z.abs y =? 0) with false by (symmetry; apply Z.eqb_neq; lia).
    do 2 f_equal. lia.
Qed.

(** **** Calendar arithmetic *)

Lemma YearFromTime_spec (t : Z) :
  DayFromYear (YearFromTime t) <= Day t < DayFromYear (YearFromTime t + 1).
Proof.
  unfold YearFromTime. cbv zeta.
  set (day := Day t).
  assert (H : DayFromYear (1970 + day * 400 / 146097 - 1) <= day
              < DayFromYear (1970 + day * 400 / 146097 + 2))
    by (unfold DayFromYear; Z.div_mod_to_equations; lia).
  set (y0 := 1970 + day * 400 / 146097) in *.
  destruct (Z.ltb_spec day (DayFromYear y0)).
  - replace (y0 - 1 + 1) with y0 by lia. lia.
  - destruct (Z.leb_spec (DayFromYear (y0 + 1)) day).
    + replace (y0 + 1 + 1) with (y0 + 2) by lia. lia.
    + lia.
Qed.

Lemma DayFromYear_succ (y : Z) : DayFromYear (y + 1) = DayFromYear y + DaysInYear y.
Proof.
  unfold DayFromYear, DaysInYear.
  destruct (Z.eqb_spec (y mod 4) 0), (Z.eqb_spec (y mod 100) 0), (Z.eqb_spec (y mod 400) 0);
    cbn [negb]; Z.div_mod_to_equations; lia.
Qed.

Lemma DaysInYear_cases (y : Z) : DaysInYear y = 365 \/ DaysInYear y = 366.
Proof.
  unfold DaysInYear.
  destruct (y mod 4 =? 0), (y mod 100 =? 0), (y mod 400 =? 0); cbn; lia.
Qed.

Lemma DayWithinYear_range (t : Z) : 0 <= DayWithinYear t < 365 + InLeapYear t.
Proof.
  pose proof (YearFromTime_spec t) as H. rewrite DayFromYear_succ in H.
  unfold DayWithinYear, InLeapYear.
  destruct (DaysInYear_cases (YearFromTime t)) as [E | E]; rewrite E in *; cbn; lia.
Qed.

Lemma month_date_spec (t : Z) :
  0 <= MonthFromTime t <= 11 /\ 1 <= DateFromTime t <= 31 /\
  DaysBeforeMonth (MonthFromTime t) (InLeapYear t) + DateFromTime t - 1 = DayWithinYear t.
Proof.
  pose proof (DayWithinYear_range t) as H.
  assert (Hl : InLeapYear t = 0 \/ InLeapYear t = 1)
    by (unfold InLeapYear; destruct (_ =? _); lia).
  unfold DateFromTime, MonthFromTime. cbv zeta.
  set (d := DayWithinYear t) in *. set (l := InLeapYear t) in *.
  repeat match goal with
         | |- context [?a <? ?b] => destruct (Z.ltb_spec a b)
         end; cbn [DaysBeforeMonth]; lia.
Qed.

Lemma MakeDay_roundtrip (t : Z) :
  MakeDay (YearFromTime t) (MonthFromTime t + 1 - 1) (DateFromTime t) = Day t.
Proof.
  destruct (month_date_spec t) as (Hm & Hd & Hs).
  unfold MakeDay. cbv zeta.
  replace (MonthFromTime t + 1 - 1) with (MonthFromTime t) by lia.
  rewrite Z.div_small, Z.mod_small, Z.add_0_r by lia.
  fold (InLeapYear t). unfold DayWithinYear in Hs. lia.
Qed.

Lemma MakeTime_roundtrip (t : Z) :
  MakeTime (HourFromTime t) (MinFromTime t) (SecFromTime t) (msFromTime t) = TimeWithinDay t.
Proof.
  unfold MakeTime, HourFromTime, MinFromTime, SecFromTime, msFromTime, TimeWithinDay,
    msPerHour, msPerMinute, msPerSecond, msPerDay.
  Z.div_mod_to_equations. lia.
Qed.

Lemma YearFromTime_range (t : Z) :
  -8640000000000000 <= t <= 8640000000000000 ->
  -999999 <= YearFromTime t <= 999999.
Proof.
  intros Ht. unfold YearFromTime, Day, msPerDay. cbv zeta.
  repeat match goal with
         | |- context [if ?b then _ else _] => destruct b
         end; Z.div_mod_to_equations; lia.
Qed.

(** [Date.parse] inverts [toISOString] on every time value. *)
Lemma parse_toISOString (t : Z) :
  valid_time t -> parse (toISOString t) = Some t.
Proof.
  intros Ht. unfold toISOString, parse.
  destruct (month_date_spec t) as (Hm & Hd & _).
  assert (Hh : 0 <= HourFromTime t < 24) by (apply Z.mod_pos_bound; lia).
  assert (Hmi : 0 <= MinFromTime t < 60) by (apply Z.mod_pos_bound; lia).
  assert (Hs : 0 <= SecFromTime t < 60) by (apply Z.mod_pos_bound; lia).
  assert (Hms : 0 <= msFromTime t < 1000) by (apply Z.mod_pos_bound; unfold msPerSecond; lia).
  rewrite year_year_string by (apply YearFromTime_range; assumption).
  cbn [mbind option_bind].
  repeat first
    [ progress change ("-" +:+ ?r) with (String "-" r)
    | progress change ("T" +:+ ?r) with (String "T" r)
    | progress change (":" +:+ ?r) with (String ":" r)
    | progress change ("." +:+ ?r) with (String "." r)
    | rewrite expect_cons; cbn [mbind option_bind]
    | rewrite digits_pad_small by (cbn; lia); cbn [mbind option_bind] ].
  rewrite MakeDay_roundtrip, MakeTime_roundtrip.
  replace (1 <=? MonthFromTime t + 1) with true by (symmetry; apply Z.leb_le; lia).
  replace (MonthFromTime t + 1 <=? 12) with true by (symmetry; apply Z.leb_le; lia).
  replace (1 <=? DateFromTime t) with true by (symmetry; apply Z.leb_le; lia).
  replace (DateFromTime t <=? 31) with true by (symmetry; apply Z.leb_le; lia).
  replace (HourFromTime t <? 24) with true by (symmetry; apply Z.ltb_lt; lia).
  replace (MinFromTime t <? 60) with true by (symmetry; apply Z.ltb_lt; lia).
  replace (SecFromTime t <? 60) with true by (symmetry; apply Z.ltb_lt; lia).
  cbn [andb orb String.eqb]. f_equal.
  unfold MakeDate, Day, TimeWithinDay, msPerDay.
  Z.div_mod_to_equations. lia.
Qed.
End DateFacts.

(** ** Handlers *)

(** Unfolds a handler and runs the monad, leaving the arguments of the
    platform calls folded. *)
Ltac run :=
  cbv [handle create_connect_account connect_account_status create_payment_intent
       payout_dashboard_link webhook health
       mbind mret M_bind M_ret try_catch member throw console await lift app];
  cbn [negb orb andb].

Lemma validated_connect_account req :
  validated CreateConnectAccount req = true <->
  truthy (field req "bandId") = true /\ truthy (field req "email") = true.
Proof. unfold validated. cbn [required forallb]. rewrite andb_true_r. apply andb_true_iff. Qed.

Lemma validated_account_status req :
  validated ConnectAccountStatus req = truthy (field req "accountId").
Proof. unfold validated. cbn [required forallb]. apply andb_true_r. Qed.

Lemma validated_payment_intent req :
  validated CreatePaymentIntent req = true <->
  truthy (field req "amount") = true /\ truthy (field req "bandStripeAccountId") = true.
Proof. unfold validated. cbn [required forallb]. rewrite andb_true_r. apply andb_true_iff. Qed.

Lemma validated_dashboard_link req :
  validated PayoutDashboardLink req = truthy (field req "accountId").
Proof. unfold validated. cbn [required forallb]. apply andb_true_r. Qed.

Section HandlerFacts.
Context (rt : Runtime).

(** A request with a falsy required field is answered 400 at once. *)
Lemma validation_rejects ep stripe req :
  validated ep req = false ->
  handle rt ep stripe req = ([], inr (bad_request ep)).
Proof.
  destruct ep; unfold validated; cbn [required forallb];
    rewrite andb_true_r; intros Hv; run.
  - apply andb_false_iff in Hv as [-> | ->]; cbn [negb orb];
      [| rewrite orb_true_r]; reflexivity.
  - rewrite Hv. reflexivity.
  - apply andb_false_iff in Hv as [-> | ->]; cbn [negb orb];
      [| rewrite orb_true_r]; reflexivity.
  - rewrite Hv. reflexivity.
Qed.

(** The fee and the band amount, by the conversion of the amount. *)
Lemma fee_of_number amount x :
  ToNumber rt amount = inr x ->
  platformFee rt amount = inr (Number.round (Number.mul x Number.lit_0_05))
  /\ bandAmount rt amount
     = inr (Number.sub x (Number.round (Number.mul x Number.lit_0_05))).
Proof. intros H. unfold bandAmount, platformFee. rewrite H. split; reflexivity. Qed.

Lemma fee_of_object amount e :
  ToNumber rt amount = inl e ->
  platformFee rt amount = inl e /\ bandAmount rt amount = inl e.
Proof. intros H. unfold bandAmount, platformFee. rewrite H. split; reflexivity. Qed.

(** The argument of the account-link call, by the conversions of
    [account.id] and [bandId]. *)
Lemma account_link_params_cases req account :
  (exists e,
     account_link_params rt req account = inl e
     /\ (ToString rt (get account "id") = inl e
         \/ (exists id, ToString rt (get account "id") = inr id)
            /\ ToString rt (field req "bandId") = inl e))
  \/ (exists id band,
        ToString rt (get account "id") = inr id
        /\ ToString rt (field req "bandId") = inr band
        /\ account_link_params rt req account
           = inr (obj [("account", get account "id");
                       ("refresh_url",
                         JStr "https://crowdfuel-86c2b.web.app/connect/refresh.html");
                       ("return_url",
                         JStr ("https://crowdfuel-86c2b.web.app/connect/return.html?accountId="
                               +:+ id +:+ "&bandId=" +:+ band));
                       ("type", JStr "account_onboarding")])).
Proof.
  unfold account_link_params.
  destruct (ToString rt (get account "id")) as [e | id]; [left; eauto |].
  destruct (ToString rt (field req "bandId")) as [e | band].
  - left. exists e. split; [reflexivity |]. right. eauto.
  - right. exists id, band. auto.
Qed.

(** What a validated request to /create-connect-account does, by the
    outcome of the platform calls and of the conversions of line 66. *)
Lemma create_connect_account_cases c req :
  validated CreateConnectAccount req = true ->
  let created := ECall AccountsCreate (account_params req) in
  let failed e := ELog Error [JStr "Error creating Connect account:"; error_object e] in
  (exists e,
     accounts_create c (account_params req) = inl e
     /\ create_connect_account rt (Some c) req
        = ([created false; failed e], inr (server_error e)))
  \/ (exists account e,
        accounts_create c (account_params req) = inr account
        /\ account_link_params rt req account = inl e
        /\ create_connect_account rt (Some c) req
           = ([created true; failed e], inr (server_error e)))
  \/ (exists account id band params,
        accounts_create c (account_params req) = inr account
        /\ ToString rt (get account "id") = inr id
        /\ ToString rt (field req "bandId") = inr band
        /\ account_link_params rt req account = inr params
        /\ let line :=
             ELog Info [JStr ("✅ Created Stripe account " +:+ id +:+ " for band " +:+ band)] in
           match accountLinks_create c params with
           | inl e =>
               create_connect_account rt (Some c) req
               = ([created true; line; ECall AccountLinksCreate params false; failed e],
                  inr (server_error e))
           | inr accountLink =>
               create_connect_account rt (Some c) req
               = ([created true; line; ECall AccountLinksCreate params true],
                  inr (res_json (obj [("accountId", get account "id");
                                      ("onboardingUrl", get accountLink "url")])))
           end).
Proof.
  intros [Hb He]%validated_connect_account created failed. run. rewrite Hb, He. cbn [negb orb].
  destruct (accounts_create c (account_params req)) as [e | account]; [left; eauto |].
  right.
  destruct (account_link_params_cases req account)
    as [(e & Hp & [Hi | [(id & Hi) Hd]]) | (id & band & Hi & Hd & Hp)].
  - left. exists account, e. rewrite Hi. auto.
  - left. exists account, e. rewrite Hi, Hd. auto.
  - right. exists account, id, band. eexists. rewrite Hi, Hd, Hp.
    do 4 (split; [reflexivity |]). cbv zeta.
    destruct (accountLinks_create c _); reflexivity.
Qed.

Lemma connect_account_status_runs c req :
  validated ConnectAccountStatus req = true ->
  connect_account_status (Some c) req =
    match accounts_retrieve c (field req "accountId") with
    | inl e =>
        ([ECall AccountsRetrieve (field req "accountId") false;
          ELog Error [JStr "Error checking account status:"; error_object e]],
         inr (server_error e))
    | inr account =>
        ([ECall AccountsRetrieve (field req "accountId") true],
         inr (res_json (obj [("chargesEnabled", get account "charges_enabled");
                             ("payoutsEnabled", get account "payouts_enabled");
                             ("detailsSubmitted", get account "details_submitted")])))
    end.
Proof.
  rewrite validated_account_status. intros Hv. run. rewrite Hv. cbn [negb].
  destruct (accounts_retrieve c (field req "accountId")); reflexivity.
Qed.

(** What a validated request to /create-payment-intent does, by the
    conversion of the amount at line 126 and the outcome of the call. *)
Lemma create_payment_intent_cases c req :
  validated CreatePaymentIntent req = true ->
  let failed e := ELog Error [JStr "Error creating payment intent:"; error_object e] in
  (exists e,
     ToNumber rt (field req "amount") = inl e
     /\ create_payment_intent rt (Some c) req = ([failed e], inr (server_error e)))
  \/ (exists x,
        ToNumber rt (field req "amount") = inr x
        /\ let fee := Number.round (Number.mul x Number.lit_0_05) in
           let call := ECall PaymentIntentsCreate (payment_intent_params req fee) in
           match paymentIntents_create c (payment_intent_params req fee) with
           | inl e =>
               create_payment_intent rt (Some c) req
               = ([call false; failed e], inr (server_error e))
           | inr paymentIntent =>
               create_payment_intent rt (Some c) req
               = ([call true],
                  inr (res_json (obj [("clientSecret", get paymentIntent "client_secret");
                                      ("paymentIntentId", get paymentIntent "id");
                                      ("platformFee", JNum fee);
                                      ("bandAmount", JNum (Number.sub x fee))])))
           end).
Proof.
  intros [Ha Hb]%validated_payment_intent failed. run. rewrite Ha, Hb. cbn [negb orb].
  unfold platformFee.
  destruct (ToNumber rt (field req "amount")) as [e | x]; [left; eauto |].
  right. exists x. split; [reflexivity |]. cbv zeta.
  destruct (paymentIntents_create c _); reflexivity.
Qed.

Lemma payout_dashboard_link_runs c req :
  validated PayoutDashboardLink req = true ->
  payout_dashboard_link (Some c) req =
    match accounts_createLoginLink c (field req "accountId") with
    | inl e =>
        ([ECall AccountsCreateLoginLink (field req "accountId") false;
          ELog Error [JStr "Error creating login link:"; error_object e]],
         inr (server_error e))
    | inr loginLink =>
        ([ECall AccountsCreateLoginLink (field req "accountId") true],
         inr (res_json (obj [("url", get loginLink "url")])))
    end.
Proof.
  rewrite validated_dashboard_link. intros Hv. run. rewrite Hv. cbn [negb].
  destruct (accounts_createLoginLink c (field req "accountId")); reflexivity.
Qed.

(** With [stripe] left undefined, a validated request fails before any
    call: on the first property read, or on the conversion of the amount
    that precedes it. *)
Lemma uninitialised_fails ep req :
  validated ep req = true ->
  exists e,
    handle rt ep None req
    = ([ELog Error [JStr (error_label ep); error_object e]], inr (server_error e)).
Proof.
  destruct ep.
  - intros [Hb He]%validated_connect_account. run. rewrite Hb, He. cbn [negb orb].
    eexists. reflexivity.
  - rewrite validated_account_status. intros Hv. run. rewrite Hv. cbn [negb].
    eexists. reflexivity.
  - intros [Ha Hb]%validated_payment_intent. run. rewrite Ha, Hb. cbn [negb orb].
    unfold platformFee. destruct (ToNumber rt (field req "amount")); eexists; reflexivity.
  - rewrite validated_dashboard_link. intros Hv. run. rewrite Hv. cbn [negb].
    eexists. reflexivity.
Qed.

(** Every validated request is answered, with 200 or 500. *)
Lemma validated_responds ep stripe req :
  validated ep req = true ->
  exists t resp,
    handle rt ep stripe req = (t, inr resp)
    /\ (statusCode resp = 200 \/ statusCode resp = 500).
Proof.
  intros Hv. destruct stripe as [c |].
  - destruct ep; cbn [handle].
    + destruct (create_connect_account_cases c req Hv)
        as [(e & _ & ->) | [(account & e & _ & _ & ->) | (account & id & band & params & _ & _ & _ & _ & H)]];
        [eauto | eauto |].
      cbv zeta in H. destruct (accountLinks_create c params); rewrite H; eauto.
    + rewrite (connect_account_status_runs c req Hv).
      destruct (accounts_retrieve c _); eauto.
    + destruct (create_payment_intent_cases c req Hv) as [(e & _ & ->) | (x & _ & H)];
        [eauto |].
      cbv zeta in H. destruct (paymentIntents_create c _); rewrite H; eauto.
    + rewrite (payout_dashboard_link_runs c req Hv).
      destruct (accounts_createLoginLink c _); eauto.
  - destruct (uninitialised_fails ep req Hv) as (e & ->). eauto.
Qed.

(** Every handler answers: no exception escapes a business handler. *)
Lemma handle_responds ep stripe req :
  exists t resp, handle rt ep stripe req = (t, inr resp).
Proof.
  destruct (validated ep req) eqn:Hv.
  - destruct (validated_responds ep stripe req Hv) as (t & resp & H & _). eauto.
  - rewrite validation_rejects by assumption. eauto.
Qed.

End HandlerFacts.

(** *** Validation (C5, C6, C9) *)

Lemma missing_is_falsy req k : body req !! k = None -> truthy (field req k) = false.
Proof. intros H. unfold field, get. rewrite H. reflexivity. Qed.

Lemma falsy_not_validated ep req k :
  k ∈ required ep -> truthy (field req k) = false -> validated ep req = false.
Proof.
  intros Hk Hf. unfold validated. apply not_true_is_false. intros Hall.
  rewrite forallb_forall in Hall. apply list_elem_of_In in Hk.
  specialize (Hall k Hk). congruence.
Qed.

(** C5. A POST /create-connect-account request in which [bandId] or [email]
    is missing is answered 400 with body exactly
    [{error: "bandId and email are required"}], and its trace is empty: no
    call to the payment platform is attempted. *)
Theorem create_connect_account_missing_field rt stripe req :
  body req !! "bandId" = None \/ body req !! "email" = None ->
  create_connect_account rt stripe req
  = ([], inr {| statusCode := 400;
                payload := Json (obj [("error", JStr "bandId and email are required")]) |}).
Proof.
  intros H. apply (validation_rejects rt CreateConnectAccount).
  destruct H as [H | H];
    [apply falsy_not_validated with (k := "bandId") | apply falsy_not_validated with (k := "email")];
    try (apply missing_is_falsy; assumption); cbn [required]; set_solver.
Qed.

Lemma create_connect_account_missing_field_witness :
  create_connect_account stub_runtime None (request [("email", JStr "e@x.com")])
  = ([], inr {| statusCode := 400;
                payload := Json (obj [("error", JStr "bandId and email are required")]) |}).
Proof. apply create_connect_account_missing_field. left. reflexivity. Defined.

(** C6. POST /connect-account-status and POST /payout-dashboard-link without
    [accountId], and POST /create-payment-intent without [amount] or
    [bandStripeAccountId], are answered 400 with an empty trace: the
    response is produced before any call to the payment platform. *)
Theorem missing_field_rejected_before_any_call rt stripe req :
  (body req !! "accountId" = None ->
   connect_account_status stripe req
   = ([], inr {| statusCode := 400;
                 payload := Json (obj [("error", JStr "accountId is required")]) |})
   /\ payout_dashboard_link stripe req
      = ([], inr {| statusCode := 400;
                    payload := Json (obj [("error", JStr "accountId is required")]) |}))
  /\ (body req !! "amount" = None \/ body req !! "bandStripeAccountId" = None ->
      create_payment_intent rt stripe req
      = ([], inr {| statusCode := 400;
                    payload := Json (obj [("error",
                                 JStr "amount and bandStripeAccountId are required")]) |})).
Proof.
  split.
  - intros H%missing_is_falsy. split.
    + apply (validation_rejects rt ConnectAccountStatus).
      apply falsy_not_validated with (k := "accountId"); [cbn [required]; set_solver | assumption].
    + apply (validation_rejects rt PayoutDashboardLink).
      apply falsy_not_validated with (k := "accountId"); [cbn [required]; set_solver | assumption].
  - intros H. apply (validation_rejects rt CreatePaymentIntent).
    destruct H as [H | H];
      [apply falsy_not_validated with (k := "amount")
      | apply falsy_not_validated with (k := "bandStripeAccountId")];
      try (apply missing_is_falsy; assumption); cbn [required]; set_solver.
Qed.

Lemma missing_field_rejected_before_any_call_witness :
  connect_account_status None (request [])
  = ([], inr {| statusCode := 400;
                payload := Json (obj [("error", JStr "accountId is required")]) |})
  /\ create_payment_intent stub_runtime None (request [("amount", JNum (Number.of_Z 10000))])
     = ([], inr {| statusCode := 400;
                   payload := Json (obj [("error",
                                JStr "amount and bandStripeAccountId are required")]) |}).
Proof.
  split.
  - apply (proj1 (missing_field_rejected_before_any_call stub_runtime None (request []))).
    reflexivity.
  - apply (proj2 (missing_field_rejected_before_any_call stub_runtime None
                    (request [("amount", JNum (Number.of_Z 10000))]))).
    right. reflexivity.
Defined.

Lemma validated_not_400 rt ep stripe req t resp :
  validated ep req = true ->
  handle rt ep stripe req = (t, inr resp) ->
  statusCode resp = 200 \/ statusCode resp = 500.
Proof.
  intros Hv Hrun.
  destruct (validated_responds rt ep stripe req Hv) as (t' & resp' & Hrun' & Hs).
  rewrite Hrun' in Hrun. injection Hrun as <- <-. exact Hs.
Qed.

(** C9. Presence of a required field is decided by truthiness: a request is
    answered 400 (with an empty trace, so neither the fee computation's
    result nor a platform call is reached) exactly when some required field
    is falsy.  In particular [amount = 0] on POST /create-payment-intent is
    rejected, and so is an empty string in any required field of any
    business endpoint. *)
Theorem falsy_field_is_missing rt ep stripe req :
  (validated ep req = false ->
   handle rt ep stripe req
   = ([], inr {| statusCode := 400;
                 payload := Json (obj [("error", JStr (validation_message ep))]) |}))
  /\ (validated ep req = true ->
      forall t resp, handle rt ep stripe req = (t, inr resp) -> statusCode resp <> 400)
  /\ (field req "amount" = JNum (Number.of_Z 0) ->
      create_payment_intent rt stripe req
      = ([], inr {| statusCode := 400;
                    payload := Json (obj [("error",
                                 JStr "amount and bandStripeAccountId are required")]) |}))
  /\ (forall k, k ∈ required ep -> field req k = JStr "" ->
      handle rt ep stripe req
      = ([], inr {| statusCode := 400;
                    payload := Json (obj [("error", JStr (validation_message ep))]) |})).
Proof.
  split; [| split; [| split]].
  - apply validation_rejects.
  - intros Hv t resp H. destruct (validated_not_400 rt ep stripe req t resp Hv H); lia.
  - intros H. apply (validation_rejects rt CreatePaymentIntent).
    apply falsy_not_validated with (k := "amount"); [cbn [required]; set_solver |].
    rewrite H. reflexivity.
  - intros k Hk H. apply validation_rejects.
    apply falsy_not_validated with (k := k); [assumption |].
    rewrite H. reflexivity.
Qed.

Lemma falsy_field_is_missing_witness :
  create_payment_intent stub_runtime (Some stub_payments)
    (request [("amount", JNum (Number.of_Z 0)); ("bandStripeAccountId", JStr "acct_1")])
  = ([], inr {| statusCode := 400;
                payload := Json (obj [("error",
                             JStr "amount and bandStripeAccountId are required")]) |}).
Proof.
  apply (proj1 (proj2 (proj2 (falsy_field_is_missing stub_runtime CreatePaymentIntent
                                (Some stub_payments) _)))).
  reflexivity.
Defined.

(** *** Account creation (C7, C2) *)

(** C7. Every successful POST /create-connect-account answers exactly
    [{accountId, onboardingUrl}], where [accountId] is the [id] of the
    object returned by the account-creation call and [onboardingUrl] the
    [url] of the object returned by the account-link call.  With a stubbed
    client returning account id ["acct_1"] and link ["https://example/link"],
    the request [{bandId: "b1", email: "e@x.com"}] yields exactly
    [{accountId: "acct_1", onboardingUrl: "https://example/link"}]. *)
Theorem create_connect_account_success :
  (forall rt stripe req t resp,
     create_connect_account rt stripe req = (t, inr resp) ->
     statusCode resp = 200 ->
     exists c account params accountLink,
       stripe = Some c
       /\ accounts_create c (account_params req) = inr account
       /\ account_link_params rt req account = inr params
       /\ accountLinks_create c params = inr accountLink
       /\ resp = {| statusCode := 200;
                    payload := Json (obj [("accountId", get account "id");
                                          ("onboardingUrl", get accountLink "url")]) |})
  /\ snd (create_connect_account stub_runtime
            (Some (stub_connect (inr {[ "id" := JStr "acct_1" ]})
                                (inr {[ "url" := JStr "https://example/link" ]})))
            (request [("bandId", JStr "b1"); ("email", JStr "e@x.com")]))
     = inr {| statusCode := 200;
              payload := Json (obj [("accountId", JStr "acct_1");
                                    ("onboardingUrl", JStr "https://example/link")]) |}.
Proof.
  split; [| reflexivity].
  intros rt stripe req t resp Hrun Hok.
  destruct (validated CreateConnectAccount req) eqn:Hv.
  - destruct stripe as [c |].
    + destruct (create_connect_account_cases rt c req Hv)
        as [(e & _ & H) | [(account & e & _ & _ & H)
                          | (account & id & band & params & Ha & _ & _ & Hp & H)]].
      * rewrite H in Hrun. injection Hrun as <- <-. discriminate Hok.
      * rewrite H in Hrun. injection Hrun as <- <-. discriminate Hok.
      * cbv zeta in H.
        destruct (accountLinks_create c params) as [e | link] eqn:Hl;
          rewrite H in Hrun; injection Hrun as <- <-; [discriminate Hok |].
        exists c, account, params, link. auto.
    + destruct (uninitialised_fails rt CreateConnectAccount req Hv) as (e & Hf).
      cbn [handle] in Hf. rewrite Hf in Hrun. injection Hrun as <- <-. discriminate Hok.
  - pose proof (validation_rejects rt CreateConnectAccount stripe req Hv) as Hf.
    cbn [handle] in Hf. rewrite Hf in Hrun. injection Hrun as <- <-. discriminate Hok.
Qed.

Lemma create_connect_account_success_witness :
  exists c account params accountLink,
    Some (stub_connect (inr {[ "id" := JStr "acct_1" ]})
                       (inr {[ "url" := JStr "https://example/link" ]})) = Some c
    /\ accounts_create c
         (account_params (request [("bandId", JStr "b1"); ("email", JStr "e@x.com")]))
       = inr account
    /\ account_link_params stub_runtime
         (request [("bandId", JStr "b1"); ("email", JStr "e@x.com")]) account
       = inr params
    /\ accountLinks_create c params = inr accountLink
    /\ res_json (obj [("accountId", JStr "acct_1");
                      ("onboardingUrl", JStr "https://example/link")])
       = {| statusCode := 200;
            payload := Json (obj [("accountId", get account "id");
                                  ("onboardingUrl", get accountLink "url")]) |}.
Proof.
  eapply (proj1 create_connect_account_success stub_runtime); reflexivity.
Defined.




(** *** Webhook (C3, C4) *)

Lemma unrecognized_falls_through kind :
  recognized kind = false ->
  String.eqb kind "payment_intent.succeeded" = false
  /\ String.eqb kind "payment_intent.payment_failed" = false
  /\ String.eqb kind "account.updated" = false
  /\ String.eqb kind "transfer.created" = false
  /\ String.eqb kind "payout.paid" = false.
Proof.
  unfold recognized. intros H%bool_decide_eq_false.
  repeat split; apply String.eqb_neq; intros ->; apply H; set_solver.
Qed.

Lemma dispatch_logs event :
  exists t, dispatch event = (t, inr tt) /\ forallb is_log t = true.
Proof.
  unfold dispatch. cbv zeta.
  repeat match goal with
         | |- context [if ?b then _ else _] => destruct b
         end; eexists; split; reflexivity.
Qed.

Lemma dispatch_unhandled event :
  recognized (ev_type event) = false ->
  dispatch event = ([ELog Info [JStr ("Unhandled event type " +:+ ev_type event)]], inr tt).
Proof.
  intros (H1 & H2 & H3 & H4 & H5)%unrecognized_falls_through.
  unfold dispatch. rewrite H1, H2, H3, H4, H5. reflexivity.
Qed.

Lemma webhook_runs env stripe req :
  webhook env stripe req =
    match verification env stripe req with
    | inl err =>
        ([ELog Error [JStr "Webhook signature verification failed:"; JStr (message err)]],
         inr (res_status_send 400 ("Webhook Error: " +:+ message err)))
    | inr event =>
        (fst (dispatch event), inr (res_json (obj [("received", JBool true)])))
    end.
Proof.
  unfold verification. destruct stripe as [c |]; run; [| reflexivity].
  destruct (webhooks_constructEvent c _ _ _) as [err | event]; [reflexivity |].
  destruct (dispatch_logs event) as (t & -> & _). cbn [fst].
  rewrite app_nil_l, app_nil_r. reflexivity.
Qed.

(** C3. Once signature verification succeeds, POST /webhook answers 200
    with body [{received: true}] whatever the event kind; the handler's
    only other effects are [console.log] lines (no error line, no platform
    call), and for a kind outside the five recognized ones exactly one
    line, the generic "Unhandled event type ..." one. *)
Theorem webhook_acknowledges env stripe req event :
  verification env stripe req = inr event ->
  exists t,
    webhook env stripe req
    = (t, inr {| statusCode := 200; payload := Json (obj [("received", JBool true)]) |})
    /\ forallb is_log t = true
    /\ (recognized (ev_type event) = false ->
        t = [ELog Info [JStr ("Unhandled event type " +:+ ev_type event)]]).
Proof.
  intros Hv. rewrite webhook_runs, Hv.
  destruct (dispatch_logs event) as (t & Hd & Hlog).
  exists t. rewrite Hd. cbn [fst]. split; [reflexivity |]. split; [assumption |].
  intros Hk. rewrite (dispatch_unhandled event Hk) in Hd. congruence.
Qed.

Lemma webhook_acknowledges_witness :
  exists t,
    webhook no_env
      (Some (stub_webhook (inr {| ev_type := "customer.created"; data_object := ∅ |})))
      (request [])
    = (t, inr {| statusCode := 200; payload := Json (obj [("received", JBool true)]) |})
    /\ forallb is_log t = true
    /\ (recognized "customer.created" = false ->
        t = [ELog Info [JStr "Unhandled event type customer.created"]]).
Proof.
  apply (webhook_acknowledges no_env
           (Some (stub_webhook (inr {| ev_type := "customer.created"; data_object := ∅ |})))
           (request []) {| ev_type := "customer.created"; data_object := ∅ |}).
  reflexivity.
Defined.

(** C4. When signature verification fails, POST /webhook answers 400 with
    the text ["Webhook Error: "] followed by the failure reason; its whole
    trace is the one [console.error] line carrying that reason, so no event
    is dispatched, nothing of an event is logged, and the event is not
    acknowledged. *)
Theorem webhook_rejects_bad_signature env stripe req err :
  verification env stripe req = inl err ->
  webhook env stripe req
  = ([ELog Error [JStr "Webhook signature verification failed:"; JStr (message err)]],
     inr {| statusCode := 400; payload := Text ("Webhook Error: " +:+ message err) |}).
Proof. intros Hv. rewrite webhook_runs, Hv. reflexivity. Qed.

Lemma webhook_rejects_bad_signature_witness :
  webhook no_env
    (Some (stub_webhook (inl {| message := "No signatures found matching the expected signature for payload" |})))
    (request [])
  = ([ELog Error [JStr "Webhook signature verification failed:";
                  JStr "No signatures found matching the expected signature for payload"]],
     inr {| statusCode := 400;
            payload := Text "Webhook Error: No signatures found matching the expected signature for payload" |}).
Proof.
  apply (webhook_rejects_bad_signature no_env _ (request [])
           {| message := "No signatures found matching the expected signature for payload" |}).
  reflexivity.
Defined.

(** *** Health check (C8) *)

Lemma init_without_key env require_stripe :
  truthy (env_value (STRIPE_SECRET_KEY env)) = false ->
  init_stripe env require_stripe
  = ([ELog Error [JStr "❌ STRIPE_SECRET_KEY not found in environment variables!"]],
     inr None).
Proof. intros H. unfold init_stripe. rewrite H. reflexivity. Qed.

(** C8. GET / answers 200 with body [{status, timestamp}] where [status] is
    ["CrowdFuel Backend Running"] and [timestamp] is the ISO form of the
    clock reading, which [Date.parse] reads back to the same instant.  The
    answer is the same whatever the state of the payment client: it holds
    in particular when the secret key is missing, in which case start-up
    leaves [stripe] undefined and every validated business request is
    answered 500 without any call. *)
Theorem health_check rt env stripe now req :
  app rt env stripe now "GET" "/" req
  = Some ([], inr {| statusCode := 200;
                     payload := Json (obj [("status", JStr "CrowdFuel Backend Running");
                                           ("timestamp", JStr (Date.toISOString now))]) |})
  /\ (valid_time now -> Date.parse (Date.toISOString now) = Some now)
  /\ (forall require_stripe,
        truthy (env_value (STRIPE_SECRET_KEY env)) = false ->
        snd (init_stripe env require_stripe) = inr None)
  /\ (forall ep req',
        validated ep req' = true ->
        exists t resp,
          handle rt ep None req' = (t, inr resp) /\ statusCode resp = 500 /\ calls t = []).
Proof.
  split; [reflexivity |]. split; [| split].
  - apply DateFacts.parse_toISOString.
  - intros require_stripe Hkey. rewrite init_without_key by assumption. reflexivity.
  - intros ep req' Hv. destruct (uninitialised_fails rt ep req' Hv) as (e & Hrun).
    eexists _, (server_error e). split; [exact Hrun |]. split; reflexivity.
Qed.

Lemma health_check_witness :
  app stub_runtime no_env None 1793672000123 "GET" "/" (request [])
  = Some ([], inr {| statusCode := 200;
                     payload := Json (obj [("status", JStr "CrowdFuel Backend Running");
                                           ("timestamp", JStr "2026-11-03T02:13:20.123Z")]) |})
  /\ Date.parse "2026-11-03T02:13:20.123Z" = Some 1793672000123
  /\ snd (init_stripe no_env (fun _ => not_stubbed)) = inr None.
Proof.
  destruct (health_check stub_runtime no_env None 1793672000123 (request []))
    as (Hok & Hparse & Hinit & _).
  split; [exact Hok |]. split.
  - apply Hparse. unfold valid_time. lia.
  - apply Hinit. reflexivity.
Defined.

(** *** Payment intents (C1, C10) *)

Lemma payment_response_fields (a b c d : JSValue) :
  let o : gmap string JSValue :=
    list_to_map [("clientSecret", a); ("paymentIntentId", b);
                 ("platformFee", c); ("bandAmount", d)] in
  get o "platformFee" = c /\ get o "bandAmount" = d.
Proof. split; reflexivity. Qed.

Lemma payment_params_fee req fee :
  opt_get (payment_intent_params req fee) "application_fee_amount" = JNum fee
  /\ opt_get (opt_get (payment_intent_params req fee) "metadata") "platformFee" = JNum fee.
Proof. split; reflexivity. Qed.

(** A 200 from POST /create-payment-intent comes from a successful
    conversion of the amount and one successful call. *)
Lemma create_payment_intent_success rt stripe req t resp :
  create_payment_intent rt stripe req = (t, inr resp) ->
  statusCode resp = 200 ->
  exists c x paymentIntent,
    stripe = Some c
    /\ validated CreatePaymentIntent req = true
    /\ ToNumber rt (field req "amount") = inr x
    /\ let fee := Number.round (Number.mul x Number.lit_0_05) in
       t = [ECall PaymentIntentsCreate (payment_intent_params req fee) true]
       /\ resp = res_json (obj [("clientSecret", get paymentIntent "client_secret");
                                ("paymentIntentId", get paymentIntent "id");
                                ("platformFee", JNum fee);
                                ("bandAmount", JNum (Number.sub x fee))]).
Proof.
  intros Hrun Hok.
  destruct (validated CreatePaymentIntent req) eqn:Hv.
  - destruct stripe as [c |].
    + destruct (create_payment_intent_cases rt c req Hv) as [(e & _ & H) | (x & Hx & H)].
      { rewrite H in Hrun. injection Hrun as <- <-. discriminate Hok. }
      cbv zeta in H.
      destruct (paymentIntents_create c _) as [e | paymentIntent];
        rewrite H in Hrun; injection Hrun as <- <-; [discriminate Hok |].
      exists c, x, paymentIntent. auto.
    + destruct (uninitialised_fails rt CreatePaymentIntent req Hv) as (e & Hf).
      cbn [handle] in Hf. rewrite Hf in Hrun. injection Hrun as <- <-. discriminate Hok.
  - pose proof (validation_rejects rt CreatePaymentIntent stripe req Hv) as Hf.
    cbn [handle] in Hf. rewrite Hf in Hrun. injection Hrun as <- <-. discriminate Hok.
Qed.

(** On an integer amount below 6755399441055749 the fee and the remainder
    are the exact integers. *)
Lemma integer_amount rt (n : Z) :
  0 < n < 6755399441055749 ->
  platformFee rt (JNum (Number.of_Z n)) = inr (Number.of_Z ((n + 10) / 20))
  /\ bandAmount rt (JNum (Number.of_Z n)) = inr (Number.of_Z (n - (n + 10) / 20)).
Proof.
  intros Hn.
  destruct (fee_of_number rt (JNum (Number.of_Z n)) _ eq_refl) as [-> ->].
  rewrite NumberFacts.fee_of_Z by assumption. split; [reflexivity |].
  f_equal. apply NumberFacts.sub_of_Z.
  - split; [apply Z.div_pos; lia |]. apply Z.div_le_upper_bound; lia.
  - change (2 ^ 53) with 9007199254740992. lia.
Qed.

(** On every integer amount below [2^53] the fee is an integer between 0
    and the amount, and the remainder is the exact difference. *)
Lemma safe_integer_amount rt (n : Z) :
  0 < n < 2 ^ 53 ->
  exists f,
    0 <= f <= n
    /\ platformFee rt (JNum (Number.of_Z n)) = inr (Number.of_Z f)
    /\ bandAmount rt (JNum (Number.of_Z n)) = inr (Number.of_Z (n - f)).
Proof.
  intros Hn.
  destruct (fee_of_number rt (JNum (Number.of_Z n)) _ eq_refl) as [-> ->].
  destruct (NumberFacts.fee_of_Z_bounds n Hn) as (f & -> & [Hlo Hhi] & _).
  assert (Hf : 0 <= f <= n).
  { assert (0 <= (n + 10) / 20) by (apply Z.div_pos; lia).
    assert ((n + 10) / 20 + 1 <= n \/ n = 1).
    { destruct (Z.eq_dec n 1) as [-> | Hn1]; [right; reflexivity | left].
      assert ((n + 10) / 20 < n); [apply Z.div_lt_upper_bound; lia | lia]. }
    split; [lia |].
    destruct H0 as [H0 | ->]; [lia |].
    change ((1 + 10) / 20) with 0 in Hhi. lia. }
  exists f. split; [exact Hf |]. split; [reflexivity |].
  f_equal. apply NumberFacts.sub_of_Z; lia.
Qed.

(** The fields of a 200 answer, and what they are on an integer amount. *)
Lemma payment_intent_answer rt stripe req t resp :
  create_payment_intent rt stripe req = (t, inr resp) ->
  statusCode resp = 200 ->
  exists x o,
    ToNumber rt (field req "amount") = inr x
    /\ let fee := Number.round (Number.mul x Number.lit_0_05) in
       t = [ECall PaymentIntentsCreate (payment_intent_params req fee) true]
       /\ payload resp = Json (JObj o)
       /\ get o "platformFee" = JNum fee
       /\ get o "bandAmount" = JNum (Number.sub x fee)
       /\ (forall n, 0 <= n < 6755399441055749 -> field req "amount" = JNum (Number.of_Z n) ->
           get o "platformFee" = JNum (Number.of_Z ((n + 10) / 20))
           /\ get o "bandAmount" = JNum (Number.of_Z (n - (n + 10) / 20)))
       /\ (forall n, 0 <= n < 2 ^ 53 -> field req "amount" = JNum (Number.of_Z n) ->
           exists f,
             0 <= f <= n
             /\ get o "platformFee" = JNum (Number.of_Z f)
             /\ get o "bandAmount" = JNum (Number.of_Z (n - f))).
Proof.
  intros Hrun Hok.
  destruct (create_payment_intent_success rt stripe req t resp Hrun Hok)
    as (c & x & pi & _ & Hv & Hx & H).
  cbv zeta in H. destruct H as [-> ->].
  set (fee := Number.round (Number.mul x Number.lit_0_05)).
  destruct (payment_response_fields (get pi "client_secret") (get pi "id")
              (JNum fee) (JNum (Number.sub x fee))) as [Hfee Hband].
  destruct (fee_of_number rt (field req "amount") x Hx) as [Hpf Hba]. fold fee in Hpf, Hba.
  assert (Hpos : forall n, 0 <= n -> field req "amount" = JNum (Number.of_Z n) -> 0 < n).
  { intros n Hn Ha. destruct (Z.eq_dec n 0) as [-> | Hn0]; [| lia].
    apply validated_payment_intent in Hv as [Ht _]. rewrite Ha in Ht. discriminate Ht. }
  exists x. match type of Hfee with get ?m _ = _ => exists m end.
  split; [exact Hx |]. cbv zeta. fold fee.
  split; [reflexivity |]. split; [reflexivity |].
  split; [exact Hfee |]. split; [exact Hband |]. split.
  - intros n Hn Ha. pose proof (Hpos n ltac:(lia) Ha).
    rewrite Hfee, Hband. rewrite Ha in Hpf, Hba.
    destruct (integer_amount rt n ltac:(lia)) as [Hf Hb].
    rewrite Hf in Hpf. rewrite Hb in Hba. injection Hpf as <-. injection Hba as <-.
    split; reflexivity.
  - intros n Hn Ha. pose proof (Hpos n ltac:(lia) Ha).
    rewrite Hfee, Hband. rewrite Ha in Hpf, Hba.
    destruct (safe_integer_amount rt n ltac:(lia)) as (f & Hf & Hf1 & Hf2).
    rewrite Hf1 in Hpf. rewrite Hf2 in Hba. injection Hpf as <-. injection Hba as <-.
    exists f. split; [exact Hf |]. split; reflexivity.
Qed.

(** C1, as stated, fails at large integer amounts: 6755399441055749 minor
    units is accepted, the exact twentieth 337769972052787.45 rounds to
    337769972052787, and the answer carries [platformFee] 337769972052788
    because the binary64 product is 337769972052787.5. *)
Lemma fee_is_exact_counterexample :
  let n := 6755399441055749 in
  let req := request [("amount", JNum (Number.of_Z n));
                      ("bandStripeAccountId", JStr "acct_1")] in
  20 * 337769972052787 + 9 = n
  /\ exists t resp,
       create_payment_intent stub_runtime (Some stub_payments) req = (t, inr resp)
       /\ statusCode resp = 200
       /\ ~ fee_is_exact n resp.
Proof.
  cbv zeta. split; [reflexivity |].
  exists [ECall PaymentIntentsCreate
            (payment_intent_params
               (request [("amount", JNum (Number.of_Z 6755399441055749));
                         ("bandStripeAccountId", JStr "acct_1")])
               (Number.of_Z 337769972052788)) true],
         (res_json (obj [("clientSecret", JStr "pi_1_secret"); ("paymentIntentId", JStr "pi_1");
                         ("platformFee", JNum (Number.of_Z 337769972052788));
                         ("bandAmount", JNum (Number.of_Z 6417629469002961))])).
  split; [reflexivity |]. split; [reflexivity |].
  intros (o & Ho & Hf & _).
  cbn [payload res_json] in Ho. injection Ho as <-.
  change (JNum (Number.of_Z 337769972052788) = JNum (Number.of_Z 337769972052787)) in Hf.
  discriminate Hf.
Qed.

(** C1, amended.  In every 200 answer of POST /create-payment-intent the
    amount has a number [x] for value, [platformFee] is
    [Math.round(x * 0.05)] and [bandAmount] is [x - platformFee] in
    binary64; for every integer amount [0 <= n < 6755399441055749] these
    are the exact integers [round(n / 20)] (half up, that is
    [(n + 10) / 20]) and [n] minus that.  In particular an amount of 10000
    gives a fee of 500 and a band amount of 9500. *)
Theorem platform_fee_exact rt stripe req t resp :
  create_payment_intent rt stripe req = (t, inr resp) ->
  statusCode resp = 200 ->
  exists x o,
    ToNumber rt (field req "amount") = inr x
    /\ payload resp = Json (JObj o)
    /\ get o "platformFee" = JNum (Number.round (Number.mul x Number.lit_0_05))
    /\ get o "bandAmount"
       = JNum (Number.sub x (Number.round (Number.mul x Number.lit_0_05)))
    /\ (forall n, 0 <= n < 6755399441055749 -> field req "amount" = JNum (Number.of_Z n) ->
        fee_is_exact n resp)
    /\ (field req "amount" = JNum (Number.of_Z 10000) ->
        get o "platformFee" = JNum (Number.of_Z 500)
        /\ get o "bandAmount" = JNum (Number.of_Z 9500)).
Proof.
  intros Hrun Hok.
  destruct (payment_intent_answer rt stripe req t resp Hrun Hok)
    as (x & o & Hx & H). cbv zeta in H.
  destruct H as (_ & Ho & Hfee & Hband & Hint & _).
  exists x, o. split; [exact Hx |]. split; [exact Ho |].
  split; [exact Hfee |]. split; [exact Hband |]. split.
  - intros n Hn Ha. exists o. split; [exact Ho |]. exact (Hint n Hn Ha).
  - intros Ha. apply (Hint 10000); [lia | exact Ha].
Qed.

Lemma platform_fee_exact_witness :
  exists o,
    payload (res_json (obj [("clientSecret", JStr "pi_1_secret"); ("paymentIntentId", JStr "pi_1");
                            ("platformFee", JNum (Number.of_Z 500));
                            ("bandAmount", JNum (Number.of_Z 9500))]))
    = Json (JObj o)
    /\ get o "platformFee" = JNum (Number.of_Z 500)
    /\ get o "bandAmount" = JNum (Number.of_Z 9500).
Proof.
  destruct (platform_fee_exact stub_runtime (Some stub_payments)
              (request [("amount", JNum (Number.of_Z 10000));
                        ("bandStripeAccountId", JStr "acct_1")])
              [ECall PaymentIntentsCreate
                 (payment_intent_params
                    (request [("amount", JNum (Number.of_Z 10000));
                              ("bandStripeAccountId", JStr "acct_1")])
                    (Number.of_Z 500)) true]
              (res_json (obj [("clientSecret", JStr "pi_1_secret");
                              ("paymentIntentId", JStr "pi_1");
                              ("platformFee", JNum (Number.of_Z 500));
                              ("bandAmount", JNum (Number.of_Z 9500))]))
              eq_refl eq_refl) as (x & o & _ & Ho & _ & _ & _ & H).
  exists o. split; [exact Ho |]. apply H. reflexivity.
Defined.

(** C10, as stated, fails at large amounts: with 9481262373411574 minor
    units (a binary64 integer) accepted by the platform, the answer is 200
    with [platformFee] 474063118670579 and [bandAmount] 9007199254740996
    (the odd difference 9007199254740995 is not a binary64 value), and
    their sum is 9481262373411576. *)
Lemma fee_and_band_add_up_counterexample :
  let req := request [("amount", JNum (Number.of_Z 9481262373411574));
                      ("bandStripeAccountId", JStr "acct_1")] in
  exists t resp,
    create_payment_intent stub_runtime (Some stub_payments) req = (t, inr resp)
    /\ statusCode resp = 200
    /\ ~ fee_and_band_add_up stub_runtime req resp.
Proof.
  cbv zeta.
  exists [ECall PaymentIntentsCreate
            (payment_intent_params
               (request [("amount", JNum (Number.of_Z 9481262373411574));
                         ("bandStripeAccountId", JStr "acct_1")])
               (Number.of_Z 474063118670579)) true],
         (res_json (obj [("clientSecret", JStr "pi_1_secret"); ("paymentIntentId", JStr "pi_1");
                         ("platformFee", JNum (Number.of_Z 474063118670579));
                         ("bandAmount", JNum (Number.of_Z 9007199254740996))])).
  split; [reflexivity |]. split; [reflexivity |].
  intros (o & f & b & Ho & Hf & Hb & Hsum).
  cbn [payload res_json] in Ho. injection Ho as <-.
  change (JNum (Number.of_Z 474063118670579) = JNum f) in Hf.
  change (JNum (Number.of_Z 9007199254740996) = JNum b) in Hb.
  injection Hf as <-. injection Hb as <-.
  discriminate Hsum.
Qed.

(** C10, amended.  In every 200 answer of POST /create-payment-intent the
    single value [Math.round(amount * 0.05)] is the [application_fee_amount]
    sent to the payment platform, the [metadata.platformFee] of the same
    call and the [platformFee] of the response, and [bandAmount] is
    [amount - platformFee]; consequently, for every integer amount below
    [2^53], [platformFee] and [bandAmount] are integers and
    [platformFee + bandAmount] is [amount]. *)
Theorem single_platform_fee rt stripe req t resp :
  create_payment_intent rt stripe req = (t, inr resp) ->
  statusCode resp = 200 ->
  exists x arg o,
    ToNumber rt (field req "amount") = inr x
    /\ let fee := Number.round (Number.mul x Number.lit_0_05) in
       t = [ECall PaymentIntentsCreate arg true]
       /\ opt_get arg "application_fee_amount" = JNum fee
       /\ opt_get (opt_get arg "metadata") "platformFee" = JNum fee
       /\ payload resp = Json (JObj o)
       /\ get o "platformFee" = JNum fee
       /\ get o "bandAmount" = JNum (Number.sub x fee)
       /\ (forall n, 0 <= n < 2 ^ 53 -> field req "amount" = JNum (Number.of_Z n) ->
           (exists f b,
              get o "platformFee" = JNum (Number.of_Z f)
              /\ get o "bandAmount" = JNum (Number.of_Z b)
              /\ f + b = n)
           /\ fee_and_band_add_up rt req resp).
Proof.
  intros Hrun Hok.
  destruct (payment_intent_answer rt stripe req t resp Hrun Hok)
    as (x & o & Hx & H). cbv zeta in H.
  destruct H as (Ht & Ho & Hfee & Hband & _ & Hint).
  set (fee := Number.round (Number.mul x Number.lit_0_05)) in *.
  destruct (payment_params_fee req fee) as [Hp1 Hp2].
  exists x, (payment_intent_params req fee), o.
  split; [exact Hx |]. cbv zeta. fold fee.
  split; [exact Ht |]. split; [exact Hp1 |]. split; [exact Hp2 |].
  split; [exact Ho |]. split; [exact Hfee |]. split; [exact Hband |].
  intros n Hn Ha. destruct (Hint n Hn Ha) as (f & Hfn & Hf & Hb). split.
  - exists f, (n - f). split; [exact Hf |]. split; [exact Hb | lia].
  - exists o, (Number.of_Z f), (Number.of_Z (n - f)).
    split; [exact Ho |]. split; [exact Hf |]. split; [exact Hb |].
    rewrite Ha. cbn [ToNumber].
    rewrite NumberFacts.add_of_Z by lia. do 2 f_equal. lia.
Qed.

Lemma single_platform_fee_witness :
  exists arg o,
    [ECall PaymentIntentsCreate
       (payment_intent_params
          (request [("amount", JNum (Number.of_Z 10000)); ("bandStripeAccountId", JStr "acct_1")])
          (Number.of_Z 500)) true]
    = [ECall PaymentIntentsCreate arg true]
    /\ opt_get arg "application_fee_amount" = JNum (Number.of_Z 500)
    /\ opt_get (opt_get arg "metadata") "platformFee" = JNum (Number.of_Z 500)
    /\ get o "platformFee" = JNum (Number.of_Z 500).
Proof.
  destruct (single_platform_fee stub_runtime (Some stub_payments)
              (request [("amount", JNum (Number.of_Z 10000));
                        ("bandStripeAccountId", JStr "acct_1")])
              _ _ eq_refl eq_refl) as (x & arg & o & Hx & Ht & Ha & Hm & _ & Hf & _).
  injection Hx as <-.
  exists arg, o. repeat split; assumption.
Defined.

(** ** Further properties of the handlers *)

(** Which outcome a run of a business handler has, by validation and the
    state of the client. *)
Lemma handle_cases rt ep stripe req :
  handle rt ep stripe req = ([], inr (bad_request ep)) /\ validated ep req = false
  \/ (validated ep req = true /\ stripe = None
      /\ exists e,
           handle rt ep None req
           = ([ELog Error [JStr (error_label ep); error_object e]], inr (server_error e))
           /\ ((ep = CreatePaymentIntent /\ ToNumber rt (field req "amount") = inl e)
               \/ exists prop, e = TypeError_undefined prop))
  \/ (validated ep req = true /\ exists c, stripe = Some c).
Proof.
  destruct (validated ep req) eqn:Hv.
  - right. destruct stripe as [c |]; [right; eauto | left].
    split; [reflexivity |]. split; [reflexivity |].
    destruct ep.
    + apply validated_connect_account in Hv as [Hb He]. run. rewrite Hb, He. cbn [negb orb].
      eexists. split; [reflexivity | right; eexists; reflexivity].
    + rewrite validated_account_status in Hv. run. rewrite Hv. cbn [negb].
      eexists. split; [reflexivity | right; eexists; reflexivity].
    + apply validated_payment_intent in Hv as [Ha Hb]. run. rewrite Ha, Hb. cbn [negb orb].
      unfold platformFee. destruct (ToNumber rt (field req "amount")) as [e | x].
      * exists e. split; [reflexivity | left; auto].
      * eexists. split; [reflexivity | right; eexists; reflexivity].
    + rewrite validated_dashboard_link in Hv. run. rewrite Hv. cbn [negb].
      eexists. split; [reflexivity | right; eexists; reflexivity].
  - left. split; [apply validation_rejects; assumption | reflexivity].
Qed.

(** X1. A 200 answer of POST /connect-account-status comes from exactly one
    call, [accounts.retrieve] on the request's [accountId] passed as it is,
    and carries the three flags of the retrieved account under their
    camel-case names; a flag the account lacks reads as [undefined]. *)
Theorem connect_account_status_success stripe req t resp :
  connect_account_status stripe req = (t, inr resp) ->
  statusCode resp = 200 ->
  exists c account,
    stripe = Some c
    /\ accounts_retrieve c (field req "accountId") = inr account
    /\ t = [ECall AccountsRetrieve (field req "accountId") true]
    /\ resp = {| statusCode := 200;
                 payload := Json (obj [("chargesEnabled", get account "charges_enabled");
                                       ("payoutsEnabled", get account "payouts_enabled");
                                       ("detailsSubmitted", get account "details_submitted")]) |}.
Proof.
  intros Hrun Hok.
  destruct (handle_cases stub_runtime ConnectAccountStatus stripe req)
    as [[Hf _] | [(_ & -> & e & Hf & _) | (Hv & c & ->)]]; cbn [handle] in *.
  - rewrite Hf in Hrun. injection Hrun as <- <-. discriminate Hok.
  - rewrite Hf in Hrun. injection Hrun as <- <-. discriminate Hok.
  - rewrite (connect_account_status_runs c req Hv) in Hrun.
    destruct (accounts_retrieve c (field req "accountId")) as [e | account] eqn:Hr.
    + injection Hrun as <- <-. discriminate Hok.
    + injection Hrun as <- <-. exists c, account. auto.
Qed.

Lemma connect_account_status_success_witness :
  exists c account,
    Some (stub_accounts (inr {[ "charges_enabled" := JBool true ]}) not_stubbed) = Some c
    /\ accounts_retrieve c (field (request [("accountId", JStr "acct_1")]) "accountId")
       = inr account
    /\ [ECall AccountsRetrieve (JStr "acct_1") true]
       = [ECall AccountsRetrieve (field (request [("accountId", JStr "acct_1")]) "accountId") true]
    /\ res_json (obj [("chargesEnabled", JBool true); ("payoutsEnabled", JUndefined);
                      ("detailsSubmitted", JUndefined)])
       = {| statusCode := 200;
            payload := Json (obj [("chargesEnabled", get account "charges_enabled");
                                  ("payoutsEnabled", get account "payouts_enabled");
                                  ("detailsSubmitted", get account "details_submitted")]) |}.
Proof.
  eapply connect_account_status_success; reflexivity.
Defined.

(** X2. A 200 answer of POST /payout-dashboard-link comes from exactly one
    call, [accounts.createLoginLink] on the request's [accountId] passed as
    it is, and its body is [{url}] with the [url] of the login link. *)
Theorem payout_dashboard_link_success stripe req t resp :
  payout_dashboard_link stripe req = (t, inr resp) ->
  statusCode resp = 200 ->
  exists c loginLink,
    stripe = Some c
    /\ accounts_createLoginLink c (field req "accountId") = inr loginLink
    /\ t = [ECall AccountsCreateLoginLink (field req "accountId") true]
    /\ resp = {| statusCode := 200; payload := Json (obj [("url", get loginLink "url")]) |}.
Proof.
  intros Hrun Hok.
  destruct (handle_cases stub_runtime PayoutDashboardLink stripe req)
    as [[Hf _] | [(_ & -> & e & Hf & _) | (Hv & c & ->)]]; cbn [handle] in *.
  - rewrite Hf in Hrun. injection Hrun as <- <-. discriminate Hok.
  - rewrite Hf in Hrun. injection Hrun as <- <-. discriminate Hok.
  - rewrite (payout_dashboard_link_runs c req Hv) in Hrun.
    destruct (accounts_createLoginLink c (field req "accountId")) as [e | link] eqn:Hr.
    + injection Hrun as <- <-. discriminate Hok.
    + injection Hrun as <- <-. exists c, link. auto.
Qed.

Lemma payout_dashboard_link_success_witness :
  exists c loginLink,
    Some (stub_accounts not_stubbed (inr {[ "url" := JStr "https://connect.example/login" ]}))
    = Some c
    /\ accounts_createLoginLink c (field (request [("accountId", JStr "acct_1")]) "accountId")
       = inr loginLink
    /\ [ECall AccountsCreateLoginLink (JStr "acct_1") true]
       = [ECall AccountsCreateLoginLink
            (field (request [("accountId", JStr "acct_1")]) "accountId") true]
    /\ res_json (obj [("url", JStr "https://connect.example/login")])
       = {| statusCode := 200; payload := Json (obj [("url", get loginLink "url")]) |}.
Proof.
  eapply payout_dashboard_link_success; reflexivity.
Defined.

(** Settles [e ∈ l] or [e ∉ l] for an effect and a trace written out. *)
Ltac trace_mem :=
  repeat match goal with
         | |- _ ∉ _ => intros ?
         | H : _ ∈ [] |- _ => apply elem_of_nil in H; destruct H
         | H : _ ∈ _ :: _ |- _ => apply elem_of_cons in H as [H | H]; [try discriminate H |]
         | H : _ ∈ _ ++ _ |- _ => apply elem_of_app in H as [H | H]
         end.

(** X3. A business handler answers 500 only from its [catch]: the body
    is [{error: message}] for the error caught, and the last effect is the
    one [console.error] line with the handler's label and that error.  The
    error is the one thrown by the last platform call, which failed; or it
    is thrown by a conversion, of [amount] to a number before any call, or
    of [account.id] or [bandId] to a string right after the account was
    created; or it comes from reading a property of the undefined [stripe],
    before any call.  An answer other than 500 comes with no
    [console.error] line at all. *)
Theorem server_error_reports_failure rt ep stripe req t resp :
  handle rt ep stripe req = (t, inr resp) ->
  (statusCode resp = 500 ->
   exists e t',
     t = t' ++ [ELog Error [JStr (error_label ep); error_object e]]
     /\ resp = {| statusCode := 500; payload := Json (obj [("error", JStr (message e))]) |}
     /\ (forall args, ELog Error args ∉ t')
     /\ ((exists c op arg t'',
            stripe = Some c
            /\ t' = t'' ++ [ECall op arg false] /\ client_call c op arg = inl e)
         \/ match ep with
            | CreatePaymentIntent =>
                t' = [] /\ ToNumber rt (field req "amount") = inl e
            | CreateConnectAccount =>
                exists c account,
                  stripe = Some c
                  /\ accounts_create c (account_params req) = inr account
                  /\ t' = [ECall AccountsCreate (account_params req) true]
                  /\ (ToString rt (get account "id") = inl e
                      \/ ToString rt (field req "bandId") = inl e)
            | _ => False
            end
         \/ (stripe = None /\ t' = [] /\ exists prop, e = TypeError_undefined prop)))
  /\ (statusCode resp <> 500 -> forall args, ELog Error args ∉ t).
Proof.
  intros Hrun.
  destruct (handle_cases rt ep stripe req)
    as [[Hf _] | [(_ & -> & e & Hf & He) | (Hv & c & ->)]].
  - rewrite Hf in Hrun. injection Hrun as <- <-.
    split; [intros H; destruct ep; discriminate H | intros _ args; trace_mem].
  - rewrite Hf in Hrun. injection Hrun as <- <-. split; [intros _ | intros H; destruct H; reflexivity].
    exists e, []. split; [reflexivity |]. split; [reflexivity |].
    split; [intros args; trace_mem |].
    destruct He as [[-> He] | He]; [right; left; auto | right; right; auto].
  - destruct ep; cbn [handle] in Hrun.
    + destruct (create_connect_account_cases rt c req Hv)
        as [(e & Ha & H) | [(account & e & Ha & Hp & H)
                          | (account & id & band & params & Ha & Hi & Hd & Hp & H)]].
      * rewrite H in Hrun. injection Hrun as <- <-.
        split; [intros _ | intros H'; destruct H'; reflexivity].
        eexists e, [_]. split; [reflexivity |]. split; [reflexivity |].
        split; [intros args; trace_mem |].
        left. eexists c, AccountsCreate, _, []. split; [reflexivity |].
        split; [reflexivity | exact Ha].
      * rewrite H in Hrun. injection Hrun as <- <-.
        split; [intros _ | intros H'; destruct H'; reflexivity].
        eexists e, [_]. split; [reflexivity |]. split; [reflexivity |].
        split; [intros args; trace_mem |].
        right. left. exists c, account. split; [reflexivity |]. split; [exact Ha |].
        split; [reflexivity |].
        destruct (account_link_params_cases rt req account)
          as [(e' & Hp' & [Hi | [_ Hd]]) | (id & band & _ & _ & Hp')];
          rewrite Hp' in Hp; [injection Hp as ->; auto | injection Hp as ->; auto | discriminate].
      * cbv zeta in H.
        destruct (accountLinks_create c params) as [e | link] eqn:Hl;
          rewrite H in Hrun; injection Hrun as <- <-.
        -- split; [intros _ | intros H'; destruct H'; reflexivity].
           eexists e, [_; _; _]. split; [reflexivity |]. split; [reflexivity |].
           split; [intros args; trace_mem |].
           left. eexists c, AccountLinksCreate, _, [_; _]. split; [reflexivity |].
           split; [reflexivity | exact Hl].
        -- split; [intros H'; discriminate H' | intros _ args; trace_mem].
    + rewrite (connect_account_status_runs c req Hv) in Hrun.
      destruct (accounts_retrieve c (field req "accountId")) as [e | account] eqn:Ha.
      { injection Hrun as <- <-. split; [intros _ | intros H; destruct H; reflexivity].
        eexists e, [_].
        split; [reflexivity |]. split; [reflexivity |]. split; [intros args; trace_mem |].
        left. eexists c, AccountsRetrieve, _, []. split; [reflexivity |].
        split; [reflexivity | exact Ha]. }
      injection Hrun as <- <-. split; [intros H; discriminate H | intros _ args; trace_mem].
    + destruct (create_payment_intent_cases rt c req Hv) as [(e & He & H) | (x & Hx & H)].
      * rewrite H in Hrun. injection Hrun as <- <-.
        split; [intros _ | intros H'; destruct H'; reflexivity].
        exists e, []. split; [reflexivity |]. split; [reflexivity |].
        split; [intros args; trace_mem |]. right. left. auto.
      * cbv zeta in H.
        destruct (paymentIntents_create c _) as [e | paymentIntent] eqn:Ha;
          rewrite H in Hrun; injection Hrun as <- <-.
        -- split; [intros _ | intros H'; destruct H'; reflexivity].
           eexists e, [_]. split; [reflexivity |]. split; [reflexivity |].
           split; [intros args; trace_mem |].
           left. eexists c, PaymentIntentsCreate, _, []. split; [reflexivity |].
           split; [reflexivity | exact Ha].
        -- split; [intros H'; discriminate H' | intros _ args; trace_mem].
    + rewrite (payout_dashboard_link_runs c req Hv) in Hrun.
      destruct (accounts_createLoginLink c (field req "accountId")) as [e | link] eqn:Ha.
      { injection Hrun as <- <-. split; [intros _ | intros H; destruct H; reflexivity].
        eexists e, [_].
        split; [reflexivity |]. split; [reflexivity |]. split; [intros args; trace_mem |].
        left. eexists c, AccountsCreateLoginLink, _, []. split; [reflexivity |].
        split; [reflexivity | exact Ha]. }
      injection Hrun as <- <-. split; [intros H; discriminate H | intros _ args; trace_mem].
Qed.

Lemma server_error_reports_failure_witness :
  exists e t',
    [ECall AccountsCreate
       (account_params
          (request [("bandId", JObj {[ "toString" := JNum (Number.of_Z 1) ]});
                    ("email", JStr "e@x.com")])) true;
     ELog Error [JStr "Error creating Connect account:"; error_object TypeError_primitive]]
    = t' ++ [ELog Error [JStr "Error creating Connect account:"; error_object e]]
    /\ res_status_json 500 (obj [("error", JStr "Cannot convert object to primitive value")])
       = {| statusCode := 500; payload := Json (obj [("error", JStr (message e))]) |}.
Proof.
  assert (Hrun : handle stub_runtime CreateConnectAccount
                   (Some (stub_connect (inr {[ "id" := JStr "acct_1" ]})
                                       (inr {[ "url" := JStr "https://example/link" ]})))
                   (request [("bandId", JObj {[ "toString" := JNum (Number.of_Z 1) ]});
                             ("email", JStr "e@x.com")])
                 = ([ECall AccountsCreate
                       (account_params
                          (request [("bandId", JObj {[ "toString" := JNum (Number.of_Z 1) ]});
                                    ("email", JStr "e@x.com")])) true;
                     ELog Error [JStr "Error creating Connect account:";
                                 error_object TypeError_primitive]],
                    inr (res_status_json 500
                           (obj [("error", JStr "Cannot convert object to primitive value")]))))
    by reflexivity.
  destruct (proj1 (server_error_reports_failure _ _ _ _ _ _ Hrun) eq_refl)
    as (e & t' & Ht & Hr & _).
  exists e, t'. split; assumption.
Defined.

(** X4. The account-creation call of a validated POST
    /create-connect-account carries the request's [email] as it is, and as
    [country] the request's [country] whenever that is anything but
    [undefined] (so [null] and [""] are forwarded), and ["US"] when it is
    absent. *)
Theorem country_defaults_to_US rt c req :
  validated CreateConnectAccount req = true ->
  exists arg ok rest,
    fst (create_connect_account rt (Some c) req) = ECall AccountsCreate arg ok :: rest
    /\ opt_get arg "email" = field req "email"
    /\ (field req "country" = JUndefined -> opt_get arg "country" = JStr "US")
    /\ (field req "country" <> JUndefined -> opt_get arg "country" = field req "country").
Proof.
  intros Hv.
  assert (Hc : opt_get (account_params req) "country"
               = or_default (field req "country") (JStr "US")) by reflexivity.
  assert (He : opt_get (account_params req) "email" = field req "email") by reflexivity.
  assert (Hd : (field req "country" = JUndefined ->
                opt_get (account_params req) "country" = JStr "US")
               /\ (field req "country" <> JUndefined ->
                   opt_get (account_params req) "country" = field req "country")).
  { rewrite Hc. split.
    - intros ->. reflexivity.
    - intros Hn. destruct (field req "country"); try reflexivity. destruct Hn. reflexivity. }
  destruct (create_connect_account_cases rt c req Hv)
    as [(e & _ & ->) | [(account & e & _ & _ & ->)
                      | (account & id & band & params & _ & _ & _ & _ & H)]].
  - eexists _, _, _. split; [reflexivity |]. split; [exact He | exact Hd].
  - eexists _, _, _. split; [reflexivity |]. split; [exact He | exact Hd].
  - cbv zeta in H. destruct (accountLinks_create c params); rewrite H;
      eexists _, _, _; (split; [reflexivity |]); (split; [exact He | exact Hd]).
Qed.

Lemma country_defaults_to_US_witness :
  exists arg ok rest,
    fst (create_connect_account stub_runtime
           (Some (stub_connect (inr {[ "id" := JStr "acct_1" ]})
                               (inr {[ "url" := JStr "https://example/link" ]})))
           (request [("bandId", JStr "b1"); ("email", JStr "e@x.com"); ("country", JNull)]))
    = ECall AccountsCreate arg ok :: rest
    /\ opt_get arg "country" = JNull.
Proof.
  destruct (country_defaults_to_US stub_runtime
              (stub_connect (inr {[ "id" := JStr "acct_1" ]})
                            (inr {[ "url" := JStr "https://example/link" ]}))
              (request [("bandId", JStr "b1"); ("email", JStr "e@x.com"); ("country", JNull)])
              eq_refl) as (arg & ok & rest & Ht & _ & _ & Hc).
  exists arg, ok, rest. split; [exact Ht |]. apply Hc. discriminate.
Defined.

(** X5. A validated POST /create-payment-intent first converts [amount]
    to a number for the fee.  When that conversion throws (an object with
    an own [toString] property, or an array holding one), no call is made:
    the handler logs the error and answers 500.  Otherwise, and so for
    every number, string or boolean, whatever its sign, the first effect is
    the one call, which forwards the request as it is: [amount], the
    [description], and [bandStripeAccountId] both as the transfer
    destination and in the metadata; automatic payment methods are enabled;
    [currency] is the request's unless that is [undefined], in which case
    it is ["usd"]. *)
Theorem payment_intent_forwards_request rt c req :
  validated CreatePaymentIntent req = true ->
  match ToNumber rt (field req "amount") with
  | inl e =>
      create_payment_intent rt (Some c) req
      = ([ELog Error [JStr "Error creating payment intent:"; error_object e]],
         inr {| statusCode := 500; payload := Json (obj [("error", JStr (message e))]) |})
  | inr _ =>
      exists arg ok rest,
        fst (create_payment_intent rt (Some c) req) = ECall PaymentIntentsCreate arg ok :: rest
        /\ opt_get arg "amount" = field req "amount"
        /\ opt_get arg "description" = field req "description"
        /\ opt_get (opt_get arg "transfer_data") "destination" = field req "bandStripeAccountId"
        /\ opt_get (opt_get arg "metadata") "bandStripeAccountId"
           = field req "bandStripeAccountId"
        /\ opt_get (opt_get arg "automatic_payment_methods") "enabled" = JBool true
        /\ (field req "currency" = JUndefined -> opt_get arg "currency" = JStr "usd")
        /\ (field req "currency" <> JUndefined ->
            opt_get arg "currency" = field req "currency")
  end
  /\ (match field req "amount" with
      | JArr _ | JObj _ => True
      | _ => exists x, ToNumber rt (field req "amount") = inr x
      end).
Proof.
  intros Hv. split.
  - destruct (create_payment_intent_cases rt c req Hv) as [(e & -> & H) | (x & -> & H)];
      [exact H |].
    cbv zeta in H.
    set (arg := payment_intent_params req (Number.round (Number.mul x Number.lit_0_05))) in *.
    assert (Hc : opt_get arg "currency" = or_default (field req "currency") (JStr "usd"))
      by reflexivity.
    assert (Hd : (field req "currency" = JUndefined -> opt_get arg "currency" = JStr "usd")
                 /\ (field req "currency" <> JUndefined ->
                     opt_get arg "currency" = field req "currency")).
    { rewrite Hc. split.
      - intros ->. reflexivity.
      - intros Hn. destruct (field req "currency"); try reflexivity. destruct Hn. reflexivity. }
    destruct (paymentIntents_create c arg); rewrite H;
      eexists arg, _, _; (split; [reflexivity |]);
      (repeat (split; [reflexivity |])); exact Hd.
  - destruct (field req "amount") as [| | [] | | | |]; try exact I; eexists; reflexivity.
Qed.

Lemma payment_intent_forwards_request_witness :
  exists arg ok rest,
    fst (create_payment_intent stub_runtime (Some stub_payments)
           (request [("amount", JStr "10000"); ("bandStripeAccountId", JStr "acct_1")]))
    = ECall PaymentIntentsCreate arg ok :: rest
    /\ opt_get arg "amount" = JStr "10000"
    /\ opt_get arg "currency" = JStr "usd".
Proof.
  destruct (proj1 (payment_intent_forwards_request stub_runtime stub_payments
                     (request [("amount", JStr "10000"); ("bandStripeAccountId", JStr "acct_1")])
                     eq_refl)) as (arg & ok & rest & Ht & Ha & _ & _ & _ & _ & Hc & _).
  exists arg, ok, rest. split; [exact Ht |]. split; [exact Ha |]. apply Hc. reflexivity.
Defined.

(** X6. A business handler depends on the request through the body
    properties it destructures and nothing else: two requests that agree on
    them (whatever their other properties and their headers) produce the
    same calls, the same log lines and the same answer.  In particular a
    [platformFee] or [application_fee_amount] sent by the client has no
    effect. *)
Theorem handler_reads_only_its_fields rt ep stripe req1 req2 :
  (forall k, k ∈ reads ep -> field req1 k = field req2 k) ->
  handle rt ep stripe req1 = handle rt ep stripe req2.
Proof.
  intros H. destruct ep; cbn [reads] in H; cbn [handle];
    unfold create_connect_account, connect_account_status, create_payment_intent,
      payout_dashboard_link, account_params, account_link_params, payment_intent_params,
      platformFee.
  - rewrite (H "bandId"), (H "email"), (H "country") by set_solver. reflexivity.
  - rewrite (H "accountId") by set_solver. reflexivity.
  - rewrite (H "amount"), (H "currency"), (H "bandStripeAccountId"), (H "description")
      by set_solver.
    reflexivity.
  - rewrite (H "accountId") by set_solver. reflexivity.
Qed.

Lemma handler_reads_only_its_fields_witness :
  handle stub_runtime CreatePaymentIntent (Some stub_payments)
    {| body := list_to_map [("amount", JNum (Number.of_Z 10000));
                            ("bandStripeAccountId", JStr "acct_1");
                            ("platformFee", JNum (Number.of_Z 0))];
       headers := {[ "x-forwarded-for" := JStr "203.0.113.7" ]} |}
  = handle stub_runtime CreatePaymentIntent (Some stub_payments)
      (request [("amount", JNum (Number.of_Z 10000)); ("bandStripeAccountId", JStr "acct_1")]).
Proof.
  apply handler_reads_only_its_fields.
  intros k Hk. cbn [reads] in Hk.
  repeat (apply elem_of_cons in Hk as [-> | Hk]; [reflexivity |]).
  apply elem_of_nil in Hk. destruct Hk.
Defined.

(** X7. No exception escapes a route: every business handler answers, with
    status 200, 400 or 500; the webhook answers, with status 200 or 400;
    the health check answers 200 without any effect. *)
Theorem every_route_answers rt env stripe now req :
  (forall ep, exists t resp,
     handle rt ep stripe req = (t, inr resp)
     /\ (statusCode resp = 200 \/ statusCode resp = 400 \/ statusCode resp = 500))
  /\ (exists t resp,
        webhook env stripe req = (t, inr resp)
        /\ (statusCode resp = 200 \/ statusCode resp = 400))
  /\ (exists resp, health now req = ([], inr resp) /\ statusCode resp = 200).
Proof.
  split; [| split].
  - intros ep. destruct (handle_responds rt ep stripe req) as (t & resp & Hrun).
    exists t, resp. split; [exact Hrun |].
    destruct (validated ep req) eqn:Hv.
    + destruct (validated_not_400 rt ep stripe req t resp Hv Hrun); auto.
    + rewrite (validation_rejects rt ep stripe req Hv) in Hrun.
      injection Hrun as <- <-. right. left. reflexivity.
  - rewrite webhook_runs.
    destruct (verification env stripe req); eexists _, _; (split; [reflexivity |]);
      [right | left]; reflexivity.
  - eexists. split; reflexivity.
Qed.

(** X8. The account link is requested only after the account was created,
    and for that account: whenever [accountLinks.create] is called, the
    trace so far is the successful [accounts.create] call on the request
    and the "Created" line, which carries [account.id] and [bandId]
    converted to strings, and the link's [account] is the [id] the platform
    returned. *)
Theorem account_link_follows_account rt stripe req arg ok :
  ECall AccountLinksCreate arg ok ∈ fst (create_connect_account rt stripe req) ->
  exists c account id band rest,
    stripe = Some c
    /\ accounts_create c (account_params req) = inr account
    /\ ToString rt (get account "id") = inr id
    /\ ToString rt (field req "bandId") = inr band
    /\ fst (create_connect_account rt stripe req)
       = ECall AccountsCreate (account_params req) true
         :: ELog Info [JStr ("✅ Created Stripe account " +:+ id +:+ " for band " +:+ band)]
         :: ECall AccountLinksCreate arg ok :: rest
    /\ opt_get arg "account" = get account "id"
    /\ opt_get arg "type" = JStr "account_onboarding".
Proof.
  intros Hin.
  destruct (handle_cases rt CreateConnectAccount stripe req)
    as [[Hf _] | [(_ & -> & e & Hf & _) | (Hv & c & ->)]]; cbn [handle] in *.
  - rewrite Hf in Hin. cbn [fst] in Hin. trace_mem.
  - rewrite Hf in Hin. cbn [fst] in Hin. trace_mem.
  - destruct (create_connect_account_cases rt c req Hv)
      as [(e & _ & H) | [(account & e & _ & _ & H)
                        | (account & id & band & params & Ha & Hi & Hd & Hp & H)]].
    + rewrite H in Hin. cbn [fst] in Hin. trace_mem.
    + rewrite H in Hin. cbn [fst] in Hin. trace_mem.
    + assert (Hparams : opt_get params "account" = get account "id"
                        /\ opt_get params "type" = JStr "account_onboarding").
      { destruct (account_link_params_cases rt req account)
          as [(e' & Hp' & _) | (id' & band' & _ & _ & Hp')];
          rewrite Hp' in Hp; [discriminate |].
        injection Hp as <-. split; reflexivity. }
      cbv zeta in H.
      destruct (accountLinks_create c params) as [e | link];
        rewrite H in *; cbn [fst] in *; trace_mem;
        injection Hin as -> ->; eexists c, account, id, band, _;
        (split; [reflexivity |]); (split; [exact Ha |]); (split; [exact Hi |]);
        (split; [exact Hd |]); (split; [reflexivity |]); exact Hparams.
Qed.

Lemma account_link_follows_account_witness :
  exists c account id band rest,
    Some (stub_connect (inr {[ "id" := JStr "acct_1" ]})
                       (inl {| message := "link refused" |})) = Some c
    /\ accounts_create c
         (account_params (request [("bandId", JStr "b1"); ("email", JStr "e@x.com")]))
       = inr account
    /\ ToString stub_runtime (get account "id") = inr id
    /\ ToString stub_runtime
         (field (request [("bandId", JStr "b1"); ("email", JStr "e@x.com")]) "bandId")
       = inr band
    /\ get account "id" = JStr "acct_1"
    /\ rest = [ELog Error [JStr "Error creating Connect account:";
                           error_object {| message := "link refused" |}]].
Proof.
  destruct (account_link_follows_account stub_runtime
              (Some (stub_connect (inr {[ "id" := JStr "acct_1" ]})
                                  (inl {| message := "link refused" |})))
              (request [("bandId", JStr "b1"); ("email", JStr "e@x.com")])
              (obj [("account", JStr "acct_1");
                    ("refresh_url", JStr "https://crowdfuel-86c2b.web.app/connect/refresh.html");
                    ("return_url",
                      JStr "https://crowdfuel-86c2b.web.app/connect/return.html?accountId=acct_1&bandId=b1");
                    ("type", JStr "account_onboarding")])
              false)
    as (c & account & id & band & rest & Hs & Ha & Hi & Hd & Ht & Hacc & _).
  - cbn. do 2 apply list_elem_of_further. apply list_elem_of_here.
  - exists c, account, id, band, rest. split; [exact Hs |]. split; [exact Ha |].
    split; [exact Hi |]. split; [exact Hd |].
    split; [symmetry; exact Hacc |].
    cbn in Ht. injection Ht as _ Hr. symmetry. exact Hr.
Defined.

(** ** Start-up *)

(** The three ways the set-up of the SDK can go (lines 11-21). *)
Lemma init_stripe_cases env require_stripe :
  let key := env_value (STRIPE_SECRET_KEY env) in
  (truthy key = false
   /\ init_stripe env require_stripe
      = ([ELog Error [JStr "❌ STRIPE_SECRET_KEY not found in environment variables!"]],
         inr None))
  \/ (truthy key = true
      /\ exists e,
           require_stripe key = inl e
           /\ init_stripe env require_stripe
              = ([ELog Error [JStr "❌ Error initializing Stripe:"; JStr (message e)]],
                 inr None))
  \/ (truthy key = true
      /\ exists c,
           require_stripe key = inr c
           /\ init_stripe env require_stripe
              = ([ELog Info [JStr "✅ Stripe initialized successfully"]], inr (Some c))).
Proof.
  intros key. unfold init_stripe. fold key.
  destruct (truthy key) eqn:Hk; cbn [negb].
  - right. destruct (require_stripe key) as [e | c] eqn:Hr.
    + left. split; [reflexivity |]. exists e. split; reflexivity.
    + right. split; [reflexivity |]. exists c. split; reflexivity.
  - left. split; reflexivity.
Qed.

Lemma truthy_key env :
  truthy (env_value (STRIPE_SECRET_KEY env)) = true <->
  exists key, STRIPE_SECRET_KEY env = Some key /\ key <> "".
Proof.
  destruct (STRIPE_SECRET_KEY env) as [key |]; cbn [env_value truthy].
  - rewrite negb_true_iff, String.eqb_neq. split.
    + intros H. exists key. auto.
    + intros (k & [= <-] & H). exact H.
  - split; [discriminate | intros (k & [=] & _)].
Qed.

(** X9. Setting up the SDK never throws and logs exactly one line.  It
    leaves a client exactly when [STRIPE_SECRET_KEY] is set to a non-empty
    string and loading the SDK with that key succeeds, and then the line is
    the success message; in every other case [stripe] stays undefined and
    the line is a [console.error] one. *)
Theorem init_stripe_outcome env require_stripe :
  exists line stripe,
    init_stripe env require_stripe = ([line], inr stripe)
    /\ (forall c, stripe = Some c <->
          exists key, STRIPE_SECRET_KEY env = Some key /\ key <> ""
                      /\ require_stripe (JStr key) = inr c)
    /\ (stripe <> None -> line = ELog Info [JStr "✅ Stripe initialized successfully"])
    /\ (stripe = None -> exists args, line = ELog Error args).
Proof.
  pose proof (truthy_key env) as Hkey.
  destruct (init_stripe_cases env require_stripe)
    as [[Hk ->] | [(Hk & e & Hr & ->) | (Hk & c & Hr & ->)]]; cbv zeta in *.
  - eexists _, None. split; [reflexivity |]. split; [| split].
    + intros c. split; [discriminate |]. intros (key & Hs & Hne & _).
      assert (truthy (env_value (STRIPE_SECRET_KEY env)) = true) by (apply Hkey; eauto).
      congruence.
    + intros H. destruct H. reflexivity.
    + intros _. eexists. reflexivity.
  - eexists _, None. split; [reflexivity |]. split; [| split].
    + intros c. split; [discriminate |]. intros (key & Hs & _ & Hr').
      rewrite Hs in Hr. cbn [env_value] in Hr. congruence.
    + intros H. destruct H. reflexivity.
    + intros _. eexists. reflexivity.
  - eexists _, (Some c). split; [reflexivity |]. split; [| split].
    + intros c'. split.
      * intros [= <-]. destruct (proj1 Hkey Hk) as (key & Hs & Hne).
        exists key. rewrite Hs in Hr. auto.
      * intros (key & Hs & _ & Hr'). rewrite Hs in Hr. cbn [env_value] in Hr. congruence.
    + intros _. reflexivity.
    + discriminate.
Qed.

(** The environment converts to strings: the port and the environment
    names of the banner are strings or the number 8080. *)
Lemma ToString_js_or rt (o : option string) (d : JSValue) :
  (exists s, ToString rt d = inr s) ->
  exists s, ToString rt (js_or (env_value o) d) = inr s.
Proof.
  intros Hd. unfold js_or. destruct o as [v |]; cbn [env_value truthy]; [| exact Hd].
  destruct (negb (String.eqb v "")); [| exact Hd]. eexists. reflexivity.
Qed.

(** The lines of the banner. *)
Lemma listening_runs rt penv :
  exists port environment node_env,
    listening rt penv
    = ([ELog Info [JStr ("🚀 CrowdFuel Backend running on port " +:+ port)];
        ELog Info [JStr ("📝 Environment: " +:+ environment)];
        ELog Info [JStr "📝 Endpoints:"];
        ELog Info [JStr "   GET  /"];
        ELog Info [JStr "   POST /create-connect-account"];
        ELog Info [JStr "   POST /connect-account-status"];
        ELog Info [JStr "   POST /create-payment-intent"];
        ELog Info [JStr "   POST /payout-dashboard-link"];
        ELog Info [JStr "   POST /webhook"];
        ELog Info [JStr (String "010" "🔑 Environment variables:")];
        ELog Info [JStr ("   STRIPE_SECRET_KEY: "
                         +:+ (if truthy (env_value (STRIPE_SECRET_KEY (secrets penv)))
                              then "✅ Set" else "❌ Missing"))];
        ELog Info [JStr ("   STRIPE_WEBHOOK_SECRET: "
                         +:+ (if truthy (env_value (STRIPE_WEBHOOK_SECRET (secrets penv)))
                              then "✅ Set" else "❌ Missing"))];
        ELog Info [JStr ("   PORT: " +:+ port)];
        ELog Info [JStr ("   NODE_ENV: " +:+ node_env)]],
       inr tt).
Proof.
  destruct (ToString_js_or rt (env_PORT penv) (JNum (Number.of_Z 8080)))
    as (port & Hport); [eexists; reflexivity |].
  destruct (ToString_js_or rt (NODE_ENV penv) (JStr "development"))
    as (environment & Henv); [eexists; reflexivity |].
  destruct (ToString_js_or rt (NODE_ENV penv) (JStr "not set"))
    as (node_env & Hnode); [eexists; reflexivity |].
  exists port, environment, node_env.
  unfold listening, PORT. rewrite Hport, Henv, Hnode. reflexivity.
Qed.

(** X10. What start-up prints depends on the two Stripe secrets only
    through whether each is set: two environments with the same [PORT] and
    [NODE_ENV] whose secrets are set or missing alike give the same lines,
    so the value of a secret never reaches the log. *)
Theorem banner_hides_secrets rt penv1 penv2 app_listen :
  env_PORT penv1 = env_PORT penv2 ->
  NODE_ENV penv1 = NODE_ENV penv2 ->
  truthy (env_value (STRIPE_SECRET_KEY (secrets penv1)))
  = truthy (env_value (STRIPE_SECRET_KEY (secrets penv2))) ->
  truthy (env_value (STRIPE_WEBHOOK_SECRET (secrets penv1)))
  = truthy (env_value (STRIPE_WEBHOOK_SECRET (secrets penv2))) ->
  listen rt penv1 app_listen = listen rt penv2 app_listen.
Proof.
  intros Hp Hn Hk Hw. unfold listen, listening, PORT.
  rewrite Hp, Hn, Hk, Hw. reflexivity.
Qed.

Lemma banner_hides_secrets_witness :
  listen stub_runtime
    {| secrets := {| STRIPE_SECRET_KEY := Some "sk_live_a"; STRIPE_WEBHOOK_SECRET := None |};
       env_PORT := Some "3000"; NODE_ENV := Some "production" |} (fun _ => inr Bound)
  = listen stub_runtime
      {| secrets := {| STRIPE_SECRET_KEY := Some "sk_test_b"; STRIPE_WEBHOOK_SECRET := Some "" |};
         env_PORT := Some "3000"; NODE_ENV := Some "production" |} (fun _ => inr Bound).
Proof. apply banner_hides_secrets; reflexivity. Defined.

(** Finds an effect in a trace written out. *)
Ltac trace_has := repeat first [apply list_elem_of_here | apply list_elem_of_further].

(** X11. When the server comes up, the banner tells whether the secret
    key is set, and that is all it tells: the "Missing" line is printed
    exactly when [STRIPE_SECRET_KEY] is unset or empty, in which case
    [stripe] is undefined; the "Set" line is printed exactly when it is
    non-empty, whether or not loading the SDK succeeded. *)
Theorem banner_reports_key_presence rt penv require_stripe app_listen t stripe :
  start rt penv require_stripe app_listen = (t, inr (stripe, Listening)) ->
  let key := env_value (STRIPE_SECRET_KEY (secrets penv)) in
  (ELog Info [JStr "   STRIPE_SECRET_KEY: ❌ Missing"] ∈ t <-> truthy key = false)
  /\ (ELog Info [JStr "   STRIPE_SECRET_KEY: ✅ Set"] ∈ t <-> truthy key = true)
  /\ (truthy key = false -> stripe = None).
Proof.
  intros Hrun key.
  destruct (listening_runs rt penv) as (port & environment & node_env & Hlines).
  assert (Hinit : exists line,
             (forall s, s <> "✅ Stripe initialized successfully" -> line <> ELog Info [JStr s])
             /\ (truthy key = false -> stripe = None)
             /\ t = line :: fst (listening rt penv)).
  { unfold start, listen in Hrun.
    destruct (init_stripe_cases (secrets penv) require_stripe)
      as [[Hk Hi] | [(Hk & e & _ & Hi) | (Hk & c & _ & Hi)]]; cbv zeta in Hk; fold key in Hk;
      rewrite Hi in Hrun;
      (destruct (app_listen (PORT penv)) as [e' | [| err]];
       [discriminate Hrun | | discriminate Hrun]);
      rewrite Hlines in Hrun |- *; injection Hrun as <- <-; eexists;
      (split; [| split; [| reflexivity]]);
      try (intros s Hs [=]; congruence); try reflexivity; congruence. }
  destruct Hinit as (line & Hline & Hnone & ->).
  rewrite Hlines. cbn [fst].
  fold key. destruct (truthy key) eqn:Hk.
  - split; [| split].
    + split; [| discriminate]. intros Hin. exfalso.
      apply elem_of_cons in Hin as [Hin | Hin].
      { symmetry in Hin. revert Hin. apply Hline. discriminate. }
      cbn [append String.app] in Hin. trace_mem.
    + split; [reflexivity |]. intros _. cbn [append String.app]. trace_has.
    + discriminate.
  - split; [| split].
    + split; [reflexivity |]. intros _. cbn [append String.app]. trace_has.
    + split; [| discriminate]. intros Hin. exfalso.
      apply elem_of_cons in Hin as [Hin | Hin].
      { symmetry in Hin. revert Hin. apply Hline. discriminate. }
      cbn [append String.app] in Hin. trace_mem.
    + exact Hnone.
Qed.

Lemma banner_reports_key_presence_witness :
  ELog Info [JStr "   STRIPE_SECRET_KEY: ✅ Set"]
  ∈ fst (start stub_runtime
           {| secrets := {| STRIPE_SECRET_KEY := Some "sk_test_1"; STRIPE_WEBHOOK_SECRET := None |};
              env_PORT := None; NODE_ENV := None |}
           (fun _ => not_stubbed) (fun _ => inr Bound)).
Proof.
  apply (proj1 (proj2 (banner_reports_key_presence stub_runtime
                         {| secrets := {| STRIPE_SECRET_KEY := Some "sk_test_1";
                                          STRIPE_WEBHOOK_SECRET := None |};
                            env_PORT := None; NODE_ENV := None |}
                         (fun _ => not_stubbed) (fun _ => inr Bound) _ None eq_refl))).
  reflexivity.
Defined.

(** X12. Start-up does not depend on the SDK: whatever the set-up of
    [stripe] did (missing key, failure to load, success), the module body
    goes on to call [app.listen] with the port, after the one line of the
    set-up.  When [app.listen] throws at once (a port it refuses), the
    exception leaves the module and nothing more is printed: the ['error']
    handler was never attached.  When the port is bound, the fourteen lines
    of the banner follow and the server listens.  When binding fails, one
    [console.error] line with the reason follows and the process exits
    with code 1. *)
Theorem start_reaches_listen rt penv require_stripe app_listen :
  exists line stripe,
    init_stripe (secrets penv) require_stripe = ([line], inr stripe)
    /\ match app_listen (PORT penv) with
       | inl e => start rt penv require_stripe app_listen = ([line], inl e)
       | inr Bound =>
           exists t,
             start rt penv require_stripe app_listen = (line :: t, inr (stripe, Listening))
             /\ length t = 14%nat /\ forallb is_log t = true
       | inr (Failed err) =>
           start rt penv require_stripe app_listen
           = ([line; ELog Error [JStr "❌ Server failed to start:"; JStr (message err)]],
              inr (stripe, Exited 1))
       end.
Proof.
  destruct (listening_runs rt penv) as (port & environment & node_env & Hlines).
  unfold start, listen.
  destruct (init_stripe_cases (secrets penv) require_stripe)
    as [[_ ->] | [(_ & e & _ & ->) | (_ & c & _ & ->)]];
    eexists _, _; (split; [reflexivity |]);
    (destruct (app_listen (PORT penv)) as [e' | [| err]];
     [reflexivity | | reflexivity]);
    rewrite Hlines; eexists; repeat split; reflexivity.
Qed.

(** ** The health timestamp *)

Lemma length_append (a b : string) :
  String.length (a +:+ b) = (String.length a + String.length b)%nat.
Proof.
  induction a as [| c a IH]; [reflexivity |].
  change (String c a +:+ b) with (String c (a +:+ b)).
  cbn [String.length]. rewrite IH. reflexivity.
Qed.

Lemma length_pad (w : nat) (v : Z) : String.length (Date.pad w v) = w.
Proof. induction w as [| w IH]; cbn [Date.pad String.length]; [reflexivity | rewrite IH; reflexivity]. Qed.

Lemma four_digit_year_range (t : Z) :
  four_digit_year t <-> 0 <= Date.YearFromTime t <= 9999.
Proof.
  unfold four_digit_year.
  pose proof (DateFacts.YearFromTime_spec t) as Hy.
  set (y := Date.YearFromTime t) in *.
  unfold Date.Day, Date.msPerDay, Date.DayFromYear in Hy.
  split; intros H; Z.div_mod_to_equations; lia.
Qed.

Lemma length_toISOString (t : Z) :
  String.length (Date.toISOString t)
  = if (0 <=? Date.YearFromTime t) && (Date.YearFromTime t <=? 9999) then 24%nat else 27%nat.
Proof.
  unfold Date.toISOString, Date.year_string. rewrite !length_append.
  destruct ((0 <=? Date.YearFromTime t) && (Date.YearFromTime t <=? 9999));
    cbn [String.length]; rewrite !length_pad; reflexivity.
Qed.

(** X13. The [timestamp] of the health check has exactly 24 characters
    when the clock reads an instant of the years 0000 to 9999, and 27 (a
    signed six-digit year) at any other instant; two health checks at
    different instants that a [Date] can hold never carry the same
    timestamp. *)
Theorem health_timestamp now req :
  exists s,
    health now req
    = ([], inr {| statusCode := 200;
                  payload := Json (obj [("status", JStr "CrowdFuel Backend Running");
                                        ("timestamp", JStr s)]) |})
    /\ (four_digit_year now -> String.length s = 24%nat)
    /\ (~ four_digit_year now -> String.length s = 27%nat)
    /\ (forall now', valid_time now -> valid_time now' ->
          health now' req = health now req -> now' = now).
Proof.
  exists (Date.toISOString now). split; [reflexivity |].
  pose proof (four_digit_year_range now) as Hr. rewrite length_toISOString.
  split; [| split].
  - intros H%Hr.
    replace (0 <=? Date.YearFromTime now) with true by (symmetry; apply Z.leb_le; lia).
    replace (Date.YearFromTime now <=? 9999) with true by (symmetry; apply Z.leb_le; lia).
    reflexivity.
  - intros H.
    destruct (Z.leb_spec 0 (Date.YearFromTime now)), (Z.leb_spec (Date.YearFromTime now) 9999);
      cbn [andb]; try reflexivity.
    destruct H. apply Hr. lia.
  - intros now' Hv Hv' Heq.
    apply (f_equal (fun r : M Response =>
                      match r with
                      | (_, inr {| payload := Json (JObj o) |}) => get o "timestamp"
                      | _ => JUndefined
                      end)) in Heq.
    change (JStr (Date.toISOString now') = JStr (Date.toISOString now)) in Heq.
    injection Heq as Heq.
    pose proof (DateFacts.parse_toISOString now' Hv') as Hp.
    rewrite Heq, DateFacts.parse_toISOString in Hp by assumption.
    congruence.
Qed.

Lemma health_timestamp_witness :
  exists s,
    health 1793672000123 (request [])
    = ([], inr {| statusCode := 200;
                  payload := Json (obj [("status", JStr "CrowdFuel Backend Running");
                                        ("timestamp", JStr s)]) |})
    /\ String.length s = 24%nat.
Proof.
  destruct (health_timestamp 1793672000123 (request [])) as (s & Hs & H24 & _).
  exists s. split; [exact Hs |]. apply H24. unfold four_digit_year. lia.
Defined.

(** ** Binary64 arithmetic on negative amounts *)

Module SignedNumberFacts.
Import Number NumberFacts.

(** Rounding to nearest moves a quotient by at most half a unit. *)
Lemma rne_half (M k : Z) :
  0 <= k -> 2 * M - 2 ^ k <= 2 * (rne M k * 2 ^ k) <= 2 * M + 2 ^ k.
Proof.
  intros Hk. unfold rne.
  assert (Hp : 0 < 2 ^ k) by (apply Z.pow_pos_nonneg; lia).
  pose proof (Z.div_mod M (2 ^ k) ltac:(lia)) as Hd.
  pose proof (Z.mod_pos_bound M (2 ^ k) Hp) as Hr.
  set (q := M / 2 ^ k) in *. set (r := M mod 2 ^ k) in *. set (p := 2 ^ k) in *.
  destruct (Z.compare_spec (2 * r) p); [destruct (Z.even q) | |]; nia.
Qed.

(** The sign of the result of a rounding is the sign given. *)
Lemma binary_round_aux_opp (s : bool) (m e : Z) (l : location) :
  binary_round_aux 53 1024 (negb s) m e l = SFopp (binary_round_aux 53 1024 s m e l).
Proof.
  unfold binary_round_aux.
  destruct (shr_fexp 53 1024 m e l) as [mrs e'].
  destruct (shr_fexp 53 1024 _ e' loc_Exact) as [mrs' e''].
  destruct (shr_m mrs'); [reflexivity | | reflexivity].
  destruct (e'' <=? 1024 - 53); reflexivity.
Qed.

Lemma binary_round_opp (s : bool) (m : positive) (e : Z) :
  binary_round 53 1024 (negb s) m e = SFopp (binary_round 53 1024 s m e).
Proof.
  unfold binary_round. destruct (shl_align m e _) as [mz ez]. apply binary_round_aux_opp.
Qed.

(** [-n] as a number is the opposite of [n]. *)
Lemma of_Z_opp (n : Z) : n <> 0 -> of_Z (- n) = SFopp (of_Z n).
Proof.
  intros Hn. destruct n as [| p | p]; [contradiction | |]; unfold of_Z, prec, emax.
  - change (- Z.pos p) with (Z.neg p). cbn [binary_normalize].
    apply (binary_round_opp false).
  - change (- Z.neg p) with (Z.pos p). cbn [binary_normalize].
    rewrite (binary_round_opp false). destruct (binary_round 53 1024 false p 0) as [[] | [] | | [] ? ?]; reflexivity.
Qed.

Lemma mul_opp (x y : spec_float) (sx : bool) (mx : positive) (ex : Z) :
  x = S754_finite sx mx ex ->
  forall (sy : bool) (my : positive) (ey : Z), y = S754_finite sy my ey ->
  mul (SFopp x) y = SFopp (mul x y).
Proof.
  intros -> sy my ey ->. unfold mul, prec, emax, SFmul. cbn [SFopp].
  replace (xorb (negb sx) sy) with (negb (xorb sx sy)) by (destruct sx, sy; reflexivity).
  apply binary_round_aux_opp.
Qed.

(** Subtraction commutes with the change of sign of both finite operands,
    unless the difference is zero. *)
Lemma sub_opp (sx sy : bool) (mx my : positive) (ex ey : Z) :
  sub (S754_finite sx mx ex) (S754_finite sy my ey) <> S754_zero false ->
  sub (S754_finite (negb sx) mx ex) (S754_finite (negb sy) my ey)
  = SFopp (sub (S754_finite sx mx ex) (S754_finite sy my ey)).
Proof.
  unfold sub, prec, emax, SFsub. cbv zeta.
  set (X := Z.pos (fst (shl_align mx ex (Z.min ex ey)))).
  set (Y := Z.pos (fst (shl_align my ey (Z.min ex ey)))).
  replace (cond_Zopp (negb sx) X - cond_Zopp (negb sy) Y)
    with (- (cond_Zopp sx X - cond_Zopp sy Y)) by (destruct sx, sy; cbn; lia).
  destruct (cond_Zopp sx X - cond_Zopp sy Y) as [| p | p].
  - intros H. destruct H. reflexivity.
  - intros _. change (- Z.pos p) with (Z.neg p). cbn [binary_normalize].
    apply (binary_round_opp false).
  - intros _. change (- Z.neg p) with (Z.pos p). cbn [binary_normalize].
    rewrite (binary_round_opp false).
    destruct (binary_round 53 1024 false p _) as [[] | [] | | [] ? ?]; reflexivity.
Qed.

(** The counterpart of [fee_arith] for the other rounding direction: with
    [b = (n + 9) / 20], the rounded product [m2], read at the scale
    [2 * F'], lies in the half-open unit interval that ends at [b + 1/2]. *)
Lemma neg_fee_arith (n T P F' m2 : Z) :
  0 < n < 2 ^ 53 -> 0 < T -> 0 < P -> 0 < F' ->
  F' * P = T * 2 ^ 56 ->
  let M := n * T * 7205759403792794 in
  P * 2 ^ 52 <= M < P * 2 ^ 53 ->
  2 * M - P <= 2 * (m2 * P) <= 2 * M + P ->
  (2 * ((n + 9) / 20) - 1) * F' < m2 <= (2 * ((n + 9) / 20) + 1) * F'.
Proof.
  intros Hn HT HP HF HFP M HPM Hm2.
  pose proof (Z.div_mod (n + 9) 20 ltac:(lia)) as Hb.
  pose proof (Z.mod_pos_bound (n + 9) 20 eq_refl) as Hi.
  set (b := (n + 9) / 20) in *. set (i := (n + 9) mod 20) in *.
  change (2 ^ 53) with 9007199254740992 in *.
  change (2 ^ 52) with 4503599627370496 in *.
  change (2 ^ 56) with 72057594037927936 in *.
  assert (HX : 0 < n * T < 9007199254740992 * T) by nia.
  assert (HY1 : 20 * (b * T) <= n * T + 9 * T) by nia.
  assert (HY2 : n * T - 10 * T <= 20 * (b * T)) by nia.
  unfold M in *. clearbody b i.
  set (X := n * T) in *. set (Y := b * T) in *.
  assert (Hlo : (2 * Y - T) * 72057594037927936 * 2 < 2 * (X * 7205759403792794) - P) by lia.
  assert (Hhi : 2 * (X * 7205759403792794) + P
                < (2 * Y + T) * 72057594037927936 * 2 + 2 * P) by lia.
  assert (HbF : (2 * b - 1) * F' * P = (2 * Y - T) * 72057594037927936)
    by (unfold Y; replace ((2 * b - 1) * F' * P) with ((2 * b - 1) * (F' * P)) by ring;
        rewrite HFP; ring).
  assert (HbF' : (2 * b + 1) * F' * P = (2 * Y + T) * 72057594037927936)
    by (unfold Y; replace ((2 * b + 1) * F' * P) with ((2 * b + 1) * (F' * P)) by ring;
        rewrite HFP; ring).
  split.
  - assert ((2 * b - 1) * F' * P < m2 * P) by lia. nia.
  - assert (m2 * P < ((2 * b + 1) * F' + 1) * P) by lia. nia.
Qed.

(** The product [n * 0.05] for an integer [n] below [2^53]: a normal number
    with fractional bits whose value lies in the half-open unit interval
    that ends at [(n + 9) / 20 + 1/2]. *)
Lemma mul_of_Z_lit (n : Z) :
  0 < n < 2 ^ 53 ->
  exists (m : positive) (e : Z),
    mul (of_Z n) lit_0_05 = S754_finite false m e
    /\ Z.pos (digits2_pos m) = 53 /\ e < 0
    /\ (2 * ((n + 9) / 20) - 1) * 2 ^ (- e) < 2 * Z.pos m
       <= (2 * ((n + 9) / 20) + 1) * 2 ^ (- e).
Proof.
  intros Hn. rewrite of_Z_pos by lia.
  unfold mul, lit_0_05, prec, emax, SFmul. cbn [xorb].
  pose proof (Z.log2_spec n ltac:(lia)) as HL.
  pose proof (Z.log2_nonneg n) as HL0.
  set (L := Z.log2 n) in *.
  assert (HL52 : L <= 52).
  { destruct (Z.le_gt_cases L 52); [assumption|].
    assert (2 ^ 53 <= 2 ^ L) by (apply Z.pow_le_mono_r; lia). lia. }
  assert (HT : 0 < 2 ^ (52 - L)) by (apply Z.pow_pos_nonneg; lia).
  assert (HnT : 2 ^ 52 <= n * 2 ^ (52 - L) < 2 ^ 53).
  { replace (2 ^ 52) with (2 ^ L * 2 ^ (52 - L)) by (rewrite <- Z.pow_add_r by lia; f_equal; lia).
    replace (2 ^ 53) with (2 ^ Z.succ L * 2 ^ (52 - L)) by (rewrite <- Z.pow_add_r by lia; f_equal; lia).
    nia. }
  set (T := 2 ^ (52 - L)) in *.
  set (M := (Z.to_pos (n * T) * 7205759403792794)%positive).
  assert (HM : Z.pos M = n * T * 7205759403792794).
  { unfold M. rewrite Pos2Z.inj_mul, Z2Pos.id by lia. reflexivity. }
  pose proof (digits2_pos_bounds M) as Hd.
  set (d := Z.pos (digits2_pos M)) in *.
  change (2 ^ 52) with 4503599627370496 in HnT.
  change (2 ^ 53) with 9007199254740992 in HnT.
  assert (Hd' : d = 105 \/ d = 106).
  { assert (2 ^ 104 < Z.pos M < 2 ^ 106)
      by (rewrite HM; change (2 ^ 104) with (4503599627370496 * 4503599627370496);
          change (2 ^ 106) with (9007199254740992 * 9007199254740992); nia).
    assert (~ d <= 104).
    { intros Hle. assert (2 ^ d <= 2 ^ 104) by (apply Z.pow_le_mono_r; lia). lia. }
    assert (~ 107 <= d).
    { intros Hle. assert (2 ^ 106 <= 2 ^ (d - 1)) by (apply Z.pow_le_mono_r; lia). lia. }
    lia. }
  rewrite binary_round_aux_rne by (fold d; lia).
  fold d. cbv zeta.
  pose proof (rne_bounds (Z.pos M) (d - 53) ltac:(lia) ltac:(lia)) as Hrb.
  pose proof (rne_half (Z.pos M) (d - 53) ltac:(lia)) as Hrh.
  set (m2 := rne (Z.pos M) (d - 53)) in *.
  assert (HPpos : 0 < 2 ^ (d - 53)) by (apply Z.pow_pos_nonneg; lia).
  assert (HP52 : 2 ^ (d - 53) * 2 ^ 52 <= Z.pos M < 2 ^ (d - 53) * 2 ^ 53).
  { rewrite <- !Z.pow_add_r by lia.
    replace (d - 53 + 52) with (d - 1) by lia. replace (d - 53 + 53) with d by lia. lia. }
  assert (Hq : 2 ^ 52 <= Z.pos M / 2 ^ (d - 53) < 2 ^ 53).
  { split; [apply Z.div_le_lower_bound | apply Z.div_lt_upper_bound]; lia. }
  set (F' := 2 ^ (108 - L - (d - 53))).
  assert (HF' : 0 < F') by (apply Z.pow_pos_nonneg; lia).
  assert (HFP : F' * 2 ^ (d - 53) = T * 2 ^ 56).
  { unfold F', T. rewrite <- !Z.pow_add_r by lia. f_equal. lia. }
  pose proof (neg_fee_arith n T (2 ^ (d - 53)) F' m2 Hn HT HPpos HF' HFP) as Hneg.
  cbv zeta in Hneg. rewrite <- HM in Hneg. specialize (Hneg HP52 Hrh).
  destruct (Z.eqb_spec m2 (2 ^ 53)) as [Em | Em].
  - exists (2 ^ 52)%positive, (L - 52 + -57 + (d - 53) + 1).
    split; [reflexivity |]. split; [reflexivity |]. split; [lia |].
    replace (- (L - 52 + -57 + (d - 53) + 1)) with (108 - L - (d - 53)) by lia. fold F'.
    change (Z.pos (2 ^ 52)) with (2 ^ 52). change (2 ^ 53) with (2 * 2 ^ 52) in Em. lia.
  - assert (Hm2 : 2 ^ 52 <= m2 < 2 ^ 53) by lia.
    exists (Z.to_pos m2), (L - 52 + -57 + (d - 53)).
    split; [reflexivity |]. split; [| split; [lia |]].
    + apply digits2_pos_unique. rewrite Z2Pos.id by lia. exact Hm2.
    + rewrite Z2Pos.id by lia.
      replace (- (L - 52 + -57 + (d - 53))) with (1 + (108 - L - (d - 53))) by lia.
      rewrite Z.pow_add_r by lia. fold F'. change (2 ^ 1) with 2. lia.
Qed.

(** [Math.round] on a negative normal number with fractional bits whose
    magnitude lies in the half-open unit interval that ends at [b + 1/2]:
    the result is [-b], a negative zero when [b] is zero. *)
Lemma round_negative (m : positive) (e b : Z) :
  Z.pos (digits2_pos m) = 53 -> e < 0 ->
  (2 * b - 1) * 2 ^ (- e) < 2 * Z.pos m <= (2 * b + 1) * 2 ^ (- e) ->
  round (S754_finite true m e) = if b =? 0 then S754_zero true else of_Z (- b).
Proof.
  intros Hd He Hb.
  pose proof (round_positive m e Hd He) as Hpos.
  unfold round in *.
  replace (0 <=? e) with false in * by (symmetry; apply Z.leb_gt; lia).
  assert (HF : 0 < 2 ^ (- e)) by (apply Z.pow_pos_nonneg; lia).
  replace (1 - e) with (1 + - e) in * by lia. rewrite Z.pow_add_r, Z.pow_1_r in * by lia.
  set (F := 2 ^ (- e)) in *.
  assert (Hmod : Z.neg m mod F = 0 <-> Z.pos m mod F = 0).
  { change (Z.neg m) with (- Z.pos m). split; intros H.
    - apply Z.mod_divide in H; [| lia]. apply Z.mod_divide; [lia |].
      apply Z.divide_opp_r in H. exact H.
    - apply Z.mod_divide in H; [| lia]. apply Z.mod_divide; [lia |].
      apply Z.divide_opp_r. exact H. }
  destruct (Z.eqb_spec (Z.neg m mod F) 0) as [Hint | Hint].
  - apply Hmod in Hint.
    replace (Z.pos m mod F =? 0) with true in Hpos by (symmetry; apply Z.eqb_eq; exact Hint).
    apply Z.div_exact in Hint; [| lia].
    set (V := Z.pos m / F) in *.
    assert (HV : V = b) by nia.
    replace ((2 * Z.pos m + F) / (2 * F)) with b in Hpos
      by (apply Z.div_unique with (r := F); nia).
    destruct (Z.eqb_spec b 0) as [-> | Hb0]; [nia |].
    rewrite of_Z_opp by assumption. rewrite <- Hpos. reflexivity.
  - replace ((2 * Z.neg m + F) / (2 * F)) with (- b).
    + destruct (Z.eqb_spec b 0) as [-> | Hb0]; [reflexivity |].
      destruct (Z.eqb_spec (- b) 0); [lia | reflexivity].
    + change (Z.neg m) with (- Z.pos m).
      apply Z.div_unique with (r := 2 * - Z.pos m + F - 2 * F * - b); nia.
Qed.

(** [Math.round(-n * 0.05)] for every integer [n] below [2^53]. *)
Lemma fee_of_Z_neg (n : Z) :
  0 < n < 2 ^ 53 ->
  round (mul (of_Z (- n)) lit_0_05)
  = if (n + 9) / 20 =? 0 then S754_zero true else of_Z (- ((n + 9) / 20)).
Proof.
  intros Hn. rewrite of_Z_opp by lia.
  destruct (mul_of_Z_lit n Hn) as (m & e & Hmul & Hd & He & Hb).
  rewrite (mul_opp (of_Z n) lit_0_05 false _ _ (of_Z_pos n Hn) false 7205759403792794 (-57) eq_refl).
  rewrite Hmul. cbn [SFopp negb].
  apply round_negative; assumption.
Qed.

(** Subtraction of negative integers: [-n - (-b)] is exact. *)
Lemma sub_of_Z_neg (n b : Z) :
  0 < b < n -> n < 2 ^ 53 ->
  sub (of_Z (- n)) (of_Z (- b)) = of_Z (- (n - b)).
Proof.
  intros Hb Hn.
  rewrite !of_Z_opp by lia.
  pose proof (sub_of_Z n b ltac:(lia) Hn) as Hsub.
  rewrite (of_Z_pos n), (of_Z_pos b) in * by lia. cbn [SFopp].
  rewrite (sub_opp false false).
  - rewrite Hsub. reflexivity.
  - rewrite Hsub, of_Z_pos by lia. discriminate.
Qed.

End SignedNumberFacts.

(** ** The fee on integer amounts *)

(** X14. On integer amounts below 6755399441055749 the fee and the band's
    share are integers that grow with the amount; the fee is within half a
    unit of a twentieth of the amount and never exceeds the band's share,
    and it is zero exactly for the amounts below 10. *)
Theorem platform_fee_bounds rt (n m : Z) :
  0 < n <= m -> m < 6755399441055749 ->
  exists f g,
    platformFee rt (JNum (Number.of_Z n)) = inr (Number.of_Z f)
    /\ platformFee rt (JNum (Number.of_Z m)) = inr (Number.of_Z g)
    /\ bandAmount rt (JNum (Number.of_Z n)) = inr (Number.of_Z (n - f))
    /\ bandAmount rt (JNum (Number.of_Z m)) = inr (Number.of_Z (m - g))
    /\ 0 <= f <= g
    /\ f <= n - f <= m - g
    /\ -10 < 20 * f - n <= 10
    /\ (f = 0 <-> n < 10).
Proof.
  intros Hn Hm.
  destruct (integer_amount rt n ltac:(lia)) as [Hf Hb].
  destruct (integer_amount rt m ltac:(lia)) as [Hg Hc].
  exists ((n + 10) / 20), ((m + 10) / 20).
  split; [exact Hf |]. split; [exact Hg |]. split; [exact Hb |]. split; [exact Hc |].
  Z.div_mod_to_equations. lia.
Qed.

Lemma platform_fee_bounds_witness :
  exists f g,
    platformFee stub_runtime (JNum (Number.of_Z 9)) = inr (Number.of_Z f)
    /\ platformFee stub_runtime (JNum (Number.of_Z 10)) = inr (Number.of_Z g)
    /\ (f = 0 <-> 9 < 10).
Proof.
  destruct (platform_fee_bounds stub_runtime 9 10 ltac:(lia) ltac:(lia))
    as (f & g & Hf & Hg & _ & _ & _ & _ & _ & H0).
  exists f, g. split; [exact Hf |]. split; [exact Hg | exact H0].
Defined.

(** X15. A negative amount is not rejected by POST /create-payment-intent:
    [-n], for an integer [0 < n < 2^53], passes the presence test, and the
    call to the platform carries it with the fee [Math.round(-n * 0.05)],
    which is [-((n + 9) / 20)] since ties round up (a negative zero for
    [n <= 10]); when the platform accepts the call, the answer carries that
    fee and the band amount [-n + (n + 9) / 20]. *)
Theorem negative_amount_is_forwarded rt c req (n : Z) :
  0 < n < 2 ^ 53 ->
  field req "amount" = JNum (Number.of_Z (- n)) ->
  truthy (field req "bandStripeAccountId") = true ->
  let fee := if n <=? 10 then S754_zero true else Number.of_Z (- ((n + 9) / 20)) in
  validated CreatePaymentIntent req = true
  /\ platformFee rt (field req "amount") = inr fee
  /\ bandAmount rt (field req "amount") = inr (Number.of_Z (- n + (n + 9) / 20))
  /\ exists ok rest,
       fst (create_payment_intent rt (Some c) req)
       = ECall PaymentIntentsCreate (payment_intent_params req fee) ok :: rest
       /\ (ok = true ->
           exists paymentIntent,
             snd (create_payment_intent rt (Some c) req)
             = inr (res_json (obj [("clientSecret", get paymentIntent "client_secret");
                                   ("paymentIntentId", get paymentIntent "id");
                                   ("platformFee", JNum fee);
                                   ("bandAmount",
                                     JNum (Number.of_Z (- n + (n + 9) / 20)))]))).
Proof.
  intros Hn Ha Hd fee.
  assert (Hfinite : exists m e, Number.of_Z (- n) = S754_finite true m e).
  { rewrite SignedNumberFacts.of_Z_opp, NumberFacts.of_Z_pos by lia. eexists _, _. reflexivity. }
  assert (Hv : validated CreatePaymentIntent req = true).
  { apply validated_payment_intent. split; [| exact Hd].
    rewrite Ha. destruct Hfinite as (m & e & ->). reflexivity. }
  assert (Hx : ToNumber rt (field req "amount") = inr (Number.of_Z (- n)))
    by (rewrite Ha; reflexivity).
  assert (Hb0 : ((n + 9) / 20 =? 0) = (n <=? 10)).
  { destruct (Z.leb_spec n 10), (Z.eqb_spec ((n + 9) / 20) 0);
      try reflexivity; exfalso; Z.div_mod_to_equations; lia. }
  assert (Hround : Number.round (Number.mul (Number.of_Z (- n)) Number.lit_0_05) = fee).
  { unfold fee. rewrite SignedNumberFacts.fee_of_Z_neg, Hb0 by assumption. reflexivity. }
  assert (Hsub : Number.sub (Number.of_Z (- n)) fee = Number.of_Z (- n + (n + 9) / 20)).
  { unfold fee. rewrite <- Hb0. destruct (Z.eqb_spec ((n + 9) / 20) 0) as [-> | Hne].
    - rewrite Z.add_0_r. destruct Hfinite as (m & e & ->). reflexivity.
    - assert (0 < (n + 9) / 20 < n) by (Z.div_mod_to_equations; lia).
      rewrite SignedNumberFacts.sub_of_Z_neg by lia. f_equal. lia. }
  destruct (fee_of_number rt (field req "amount") _ Hx) as [Hfee Hband].
  rewrite Hround in Hfee, Hband. rewrite Hsub in Hband.
  split; [exact Hv |]. split; [exact Hfee |]. split; [exact Hband |].
  destruct (create_payment_intent_cases rt c req Hv) as [(e & He & _) | (x & Hx' & H)];
    [congruence |].
  rewrite Hx in Hx'. injection Hx' as <-. cbv zeta in H. rewrite Hround, Hsub in H.
  destruct (paymentIntents_create c (payment_intent_params req fee)) as [e | paymentIntent];
    rewrite H.
  - eexists _, _. split; [reflexivity | discriminate].
  - eexists _, _. split; [reflexivity |]. intros _. exists paymentIntent. reflexivity.
Qed.

Lemma negative_amount_is_forwarded_witness :
  validated CreatePaymentIntent
    (request [("amount", JNum (Number.of_Z (- 30))); ("bandStripeAccountId", JStr "acct_1")])
  = true
  /\ platformFee stub_runtime (JNum (Number.of_Z (- 30))) = inr (Number.of_Z (- 1))
  /\ bandAmount stub_runtime (JNum (Number.of_Z (- 30))) = inr (Number.of_Z (- 29)).
Proof.
  destruct (negative_amount_is_forwarded stub_runtime stub_payments
              (request [("amount", JNum (Number.of_Z (- 30)));
                        ("bandStripeAccountId", JStr "acct_1")])
              30 ltac:(lia) eq_refl eq_refl) as (Hv & Hf & Hb & _).
  split; [exact Hv |]. split; [exact Hf | exact Hb].
Defined.

#[local] Set Warnings "-inexact-float".

(** The product and the difference on a negative amount coincide with the
    primitive floating-point operations. *)
Example negative_machine :
  Prim2SF (-30 * 0.05)%float = Number.mul (Number.of_Z (- 30)) Number.lit_0_05
  /\ Prim2SF (-30 - -1)%float = Number.sub (Number.of_Z (- 30)) (Number.of_Z (- 1)).
Proof. split; reflexivity. Qed.

(** X16. On every integer amount below [2^53] the fee is the twentieth of
    the amount rounded half up, or one more: it is never below the exact
    fee and exceeds it by at most one unit, and the band's share is the
    exact difference, which is never negative. *)
Theorem platform_fee_within_one rt (n : Z) :
  0 < n < 2 ^ 53 ->
  exists f,
    platformFee rt (JNum (Number.of_Z n)) = inr (Number.of_Z f)
    /\ (n + 10) / 20 <= f <= (n + 10) / 20 + 1
    /\ bandAmount rt (JNum (Number.of_Z n)) = inr (Number.of_Z (n - f))
    /\ 0 <= n - f.
Proof.
  intros Hn.
  destruct (fee_of_number rt (JNum (Number.of_Z n)) _ eq_refl) as [-> ->].
  destruct (NumberFacts.fee_of_Z_bounds n Hn) as (f & -> & Hf & _).
  assert (Hfn : 0 <= f <= n).
  { destruct (Z.eq_dec n 1) as [-> | Hn1].
    - change ((1 + 10) / 20) with 0 in Hf. lia.
    - Z.div_mod_to_equations. lia. }
  exists f. split; [reflexivity |]. split; [exact Hf |]. split; [| lia].
  f_equal. apply NumberFacts.sub_of_Z; lia.
Qed.

Lemma platform_fee_within_one_witness :
  exists f,
    platformFee stub_runtime (JNum (Number.of_Z 6755399441055749)) = inr (Number.of_Z f)
    /\ 337769972052787 <= f <= 337769972052788.
Proof.
  destruct (platform_fee_within_one stub_runtime 6755399441055749 ltac:(lia))
    as (f & Hf & Hb & _).
  exists f. split; [exact Hf | exact Hb].
Defined.

(** ** Recognized webhook events *)

(** X17. A verified event of one of the five recognized kinds is logged
    with the [id] of its object first, under the label of its kind, and
    with at most two more lines, each the label and the property of the
    object that the [case] of its kind names; then it is acknowledged.  For
    [payment_intent.succeeded] the other lines are the application fee and
    the transfer destination, the latter read through [?.]: when the object
    carries no [transfer_data] (or [null]), the line logs [undefined] and
    the event is acknowledged all the same. *)
Theorem recognized_event_logs_id env stripe req event :
  verification env stripe req = inr event ->
  recognized (ev_type event) = true ->
  let o := data_object event in
  let line label value := ELog Info [JStr label; value] in
  exists label rest,
    webhook env stripe req
    = (line label (get o "id") :: rest,
       inr {| statusCode := 200; payload := Json (obj [("received", JBool true)]) |})
    /\ (length rest <= 2)%nat
    /\ (ev_type event = "payment_intent.succeeded" ->
        label = "PaymentIntent succeeded:"
        /\ rest = [line "Platform fee:" (get o "application_fee_amount");
                   line "Band account:" (opt_get (get o "transfer_data") "destination")]
        /\ (get o "transfer_data" = JUndefined \/ get o "transfer_data" = JNull ->
            opt_get (get o "transfer_data") "destination" = JUndefined))
    /\ (ev_type event = "payment_intent.payment_failed" ->
        label = "PaymentIntent failed:" /\ rest = [])
    /\ (ev_type event = "account.updated" ->
        label = "Account updated:"
        /\ rest = [line "Charges enabled:" (get o "charges_enabled");
                   line "Payouts enabled:" (get o "payouts_enabled")])
    /\ (ev_type event = "transfer.created" ->
        label = "Transfer created:"
        /\ rest = [line "Amount:" (get o "amount");
                   line "Destination:" (get o "destination")])
    /\ (ev_type event = "payout.paid" ->
        label = "Payout completed:"
        /\ rest = [line "Amount:" (get o "amount")]).
Proof.
  intros Hv Hk o line. rewrite webhook_runs, Hv.
  unfold recognized in Hk. apply bool_decide_eq_true in Hk.
  destruct event as [kind o']. cbn [ev_type data_object] in *. subst o.
  repeat (apply elem_of_cons in Hk as [-> | Hk]);
    [| | | | | apply elem_of_nil in Hk; destruct Hk];
    eexists _, _; (split; [reflexivity |]); (split; [cbn; lia |]);
    (split; [| split; [| split; [| split]]]); try (intros [=]; fail);
    intros _; repeat split; try reflexivity.
  intros [-> | ->]; reflexivity.
Qed.

Lemma recognized_event_logs_id_witness :
  exists label rest,
    webhook no_env
      (Some (stub_webhook (inr {| ev_type := "payment_intent.succeeded";
                                  data_object := {[ "id" := JStr "pi_1" ]} |})))
      (request [])
    = (ELog Info [JStr label; JStr "pi_1"] :: rest,
       inr {| statusCode := 200; payload := Json (obj [("received", JBool true)]) |})
    /\ label = "PaymentIntent succeeded:"
    /\ rest = [ELog Info [JStr "Platform fee:"; JUndefined];
               ELog Info [JStr "Band account:"; JUndefined]].
Proof.
  destruct (recognized_event_logs_id no_env
              (Some (stub_webhook (inr {| ev_type := "payment_intent.succeeded";
                                          data_object := {[ "id" := JStr "pi_1" ]} |})))
              (request [])
              {| ev_type := "payment_intent.succeeded"; data_object := {[ "id" := JStr "pi_1" ]} |}
              eq_refl eq_refl) as (label & rest & Hrun & _ & Hkind & _).
  destruct (Hkind eq_refl) as (Hl & Hr & _).
  exists label, rest. split; [exact Hrun |]. split; [exact Hl | exact Hr].
Defined.

(** X18. The webhook depends on the request through its body and its
    [stripe-signature] header, and on the environment through
    [STRIPE_WEBHOOK_SECRET]: requests that agree on the two, under
    environments that agree on the secret, are handled alike, whatever the
    other headers and the secret key. *)
Theorem webhook_reads_signature_and_secret env1 env2 stripe req1 req2 :
  body req1 = body req2 ->
  get (headers req1) "stripe-signature" = get (headers req2) "stripe-signature" ->
  STRIPE_WEBHOOK_SECRET env1 = STRIPE_WEBHOOK_SECRET env2 ->
  webhook env1 stripe req1 = webhook env2 stripe req2.
Proof.
  intros Hb Hs He. rewrite !webhook_runs. unfold verification.
  rewrite Hb, Hs, He. reflexivity.
Qed.

Lemma webhook_reads_signature_and_secret_witness :
  webhook {| STRIPE_SECRET_KEY := Some "sk_test_1"; STRIPE_WEBHOOK_SECRET := Some "whsec_1" |}
    (Some (stub_webhook (inr {| ev_type := "payout.paid"; data_object := ∅ |})))
    {| body := ∅;
       headers := {[ "stripe-signature" := JStr "t=1,v1=ab"; "user-agent" := JStr "Stripe/1.0" ]} |}
  = webhook {| STRIPE_SECRET_KEY := None; STRIPE_WEBHOOK_SECRET := Some "whsec_1" |}
      (Some (stub_webhook (inr {| ev_type := "payout.paid"; data_object := ∅ |})))
      {| body := ∅; headers := {[ "stripe-signature" := JStr "t=1,v1=ab" ]} |}.
Proof. apply webhook_reads_signature_and_secret; reflexivity. Defined.
